(* ===== verification/_CoqProject ===== *)
-Q . S2P
Prelude.v
Cell.v
Frame.v
Sorting.v
Float.v
Format.v
Scenario.v
Loader.v
Filter.v
Aggregate.v
Breakdown.v
Metrics.v
Render.v
