(* ===== verification/Prelude.v ===== *)
(** * Bakers Inn despatch dashboard: a verification library

    The program ([src/Dashboard.py]) is one linear Streamlit script, run
    from top to bottom on every interaction.  It draws a header and the
    navigation radio (lines 10-26), loads three Excel extracts into
    pandas frames (orders, despatch tracker, date index; lines 29-31),
    coerces their [DATE] columns (34-36), reads the sidebar filters and
    narrows the date index to a list of link keys (39-59), filters orders
    and despatch by those links (60-61), and renders one of three pages
    (67-129) and a footer (131-132).  Data flows one way: load, clean,
    filter, aggregate, render; any pandas call that raises stops the run
    and leaves on the screen what was drawn before it.

    ** Files of the library, in dependency order

    - [Prelude] (this file): the exception type [exn] and the result
      monad [res] in which every pandas call that can raise is modelled
      (stdpp's [x ← m; k] notation through [MRet]/[MBind]/[FMap]
      instances), the tactics [res_inv], [res_step] and [res_ok], the
      hint database [dash], and the list functions the components share:
      [Zsum] (sum of integers), [compress] (selection of a list by a
      boolean mask, which is what [df[mask]] does to every column),
      [unique] (first occurrences, the order [Series.unique] returns),
      [assoc] (lookup by label) and [res_mapM] (a list comprehension
      whose body can raise).
    - [Cell]: the value of one spreadsheet cell, [cell], with the missing
      marker [Null] standing for NaN, NaT and None; the element-wise
      comparison [cell_eq] ([==] and [Series.eq]: a missing value equals
      nothing), membership [isin] ([Series.isin]: a missing value is a
      member of a list that holds one), [dropna], and the numeric reading
      [cell_num] used by sums (missing counts as 0, text raises).
    - [Frame]: the pandas objects.  A [DataFrame] is a row index and a
      list of named columns; [wf_frame] (distinct names, distinct row
      labels, every column as long as the index) is the invariant every
      operation preserves.  Operations: [getitem] ([df[c]], [KeyError]
      when absent), [setitem] ([df[c] = v]), [loc] ([df[mask]]), [select]
      ([df[[c1, ...]]]), [series_sum], [frame_sum] ([DataFrame.sum()]),
      [eq_mask], [isin_mask], [mask_and].  [rows] reads a frame row by
      row; the row-wise references of the later files are stated on it.
    - [Sorting]: the stable insertion sort [isort], the order of strings
      and of cells, and [sort_values], the sort [groupby] applies to its
      keys.
    - [Float]: the binary64 operations of lines 72-73 ([float_of_Z],
      [fdiv], [fmul], from the [SpecFloat] specification of the Rocq
      library at precision 53), the rounding [round_even] of a decimal
      conversion, and when a result is a number: rounding never makes a
      NaN, and an integer below 2^53 converts exactly.
    - [Format]: the f-strings of lines 76-79, [format_int] ([:,]) and
      [format_1f] ([:.1f]).
    - [Scenario]: a small extract of three sheets on which the theorems
      are instantiated and the functions evaluated.  It models no code.
    - [Loader]: lines 29-36.  The file system is a finite map from path to
      workbook and a workbook a finite map from sheet name to frame;
      [read_excel] raises [FileNotFoundError] or [ValueError].  The
      cleaning loop is [clean] ([to_datetime] with [errors='coerce'] on
      the [DATE] column when the frame has one).  Parsing a date out of
      text is the one thing the library does not define: it is a Section
      variable [parse_date] of [Loader] and a field of the environment of
      a run in [Render].
    - [Filter]: lines 41-61.  The sidebar is a record [sidebar] of what
      the widgets return, with the laws [sidebar_ok] Streamlit guarantees
      of them; [months], [routes], [areas] are the option lists the
      script computes, [filtered_index], [filtered_links],
      [orders_filtered], [despatch_filtered] the four filtering
      statements, [filters] their composition in the script's order (so
      that the first exception raised is the script's).  [resolve] is the
      row-wise reference of the design document, [filtered_ok] what the
      pages may rely on in the filtered frames.
    - [Aggregate]: lines 64-73 and the per-SKU tables of lines 87-91,
      104-108, 117-121, in exact arithmetic.  [total_orders],
      [total_loaded], [dc_percent] (an [option Qc]: [None] is the NaN
      pandas returns for the mean of an empty column), [order_fill],
      [product_mix], [sku_df].
    - [Breakdown]: lines 96-98 and 127.  [groupby_sum], [reindex],
      [area_table]; [value_counts], [compliance_counts]; the row-wise
      reference [area_table_spec]; [text_keyed], the key columns on which
      [groupby] cannot fail.
    - [Metrics]: lines 70-79 as the script computes and prints them:
      [dc_percent_float] and [order_fill_float] in binary64,
      [summary_metrics] the four cards as strings.
    - [Render]: the script.  A run is a value of [ui], a writer of
      [widget]s (the Streamlit calls, in order) over [res]; [header],
      [script_filters], [summary_page], [bread_page], [biscuits_page],
      [footer] are its parts and [main] their composition.  [schema_ok]
      is the shape of the three sheets in the design document.

    ** Numbers, bounds and fuel

    Quantities are integers ([Z]).  pandas holds them as int64 or as
    float64 (when the column has a gap); [Aggregate.total_bound] bounds
    every total by rows * columns * the largest cell, so for extracts
    whose cells stay below 2^53 / (rows * columns) both representations
    are exact and the model's [Z] is the value the script computes.
    Timestamps are nanoseconds since the epoch ([Z]), kept within the
    int64 range by [Loader.Timestamp]; a date picked in the sidebar is a
    day number.

    The two percentages exist twice.  [Aggregate] has them as exact
    rationals ([Qc]), the numbers the design document defines;
    [Metrics] has them as the doubles the script computes, and
    [Metrics.dc_display_exact] compares what the card shows with the
    exact percentage for every despatch frame of up to 100 rows.  The
    comparison is a computation over all pairs (on-time rows, rows) up to
    the bound [Metrics.display_bound]; 100 keeps it to about ten seconds
    and already shows the three pairs on which the card is a tenth off.

    [Format.rdigits] computes decimal digits with fuel.  The fuel
    [Format.digits_fuel] is one more than the binary logarithm of the
    number, which is at least its number of decimal digits:
    [Format.rdigits_value] shows that the digits computed with it stand
    for the number, for every non-negative integer.  No other definition
    uses fuel; every other recursion is structural.

    ** What the theorems show

    - [Frame] (lemmas the later files use): every operation preserves
      [wf_frame]; [loc] is a filter on rows; [getitem] and [select] raise
      exactly on absent columns; [setitem] reads back.
    - [Loader]: [clean] never fails, is idempotent and leaves only
      timestamps and gaps in [DATE]; [load] raises the exception of the
      first read that fails.
    - [Filter]: [filters] returns exactly the rows [resolve] keeps
      ([filters_resolve]); it raises exactly the [KeyError] of the first
      absent column in script order; despatch is never filtered by area;
      an empty route selection empties both outputs; rows with a missing
      area are dropped by every selection; rows with a missing link are
      joined to index rows with a missing link.
    - [Aggregate]: a total is the sum over rows of the row totals and the
      sum of the per-SKU sums, is additive over a split of the rows and
      bounded; [dc_percent] is 100*k/n on n > 0 rows and NaN (not 0) on
      none; [sku_df] keeps the declared SKU order and its columns add up
      to the cards.
    - [Breakdown]: [area_table] is [area_table_spec] row by row, its
      areas are sorted and distinct, its ordered column adds up to the
      Total Orders card, and it raises [KeyError] when the despatch frame
      has no [AREA] column; [compliance_counts] holds each status once
      with its count, by falling count, and the counts add up to the rows
      that have a status.
    - [Format], [Metrics]: a formatted integer reads back
      ([parse_int_format_int]; [parse_int] is a reference reader, it
      models no code); the cards of an empty selection read 0, 0, nan%,
      0.0%; the compliance card reads nan% exactly on an empty selection
      ([dc_card_nan]) and the order fill card never does, by the guard of
      line 73 ([order_fill_card]); the cards fail exactly when the exact
      KPIs do.
    - [Render]: the outcome of a run is the composition of loader,
      filters and page computations, and what it draws is the widgets of
      the parts it reached ([main_run]); the footer is drawn exactly on
      normal termination ([main_footer]); with a despatch sheet that has
      no [AREA] column the summary page never terminates normally
      ([summary_page_stops]); on sheets of the shape [schema_ok] the
      other two pages always do, and so does the summary page once
      despatch has an [AREA] column of labels ([main_ends]).

    ** Not modelled

    What Streamlit and Plotly do with a call: layout, the figures, the
    session and the rerun of the script on an interaction.  Calls that
    draw are total in the model, so a failure inside them (a missing logo
    file at line 25) is outside it.  A cell is an integer, a text, a
    timestamp or a gap: fractional quantities and booleans in a sheet
    have no representation.  [read_excel] fails on a missing file or
    sheet only; a workbook that cannot be parsed is outside the model.
    That [groupby] sorts its keys numbers first, then timestamps, then
    text, and raises on numbers mixed with timestamps, is a reading of
    pandas, not of the script; on area labels that are all text, the
    case of the sheets, it is the order of the strings.  Sums over a column that holds text
    raise [TypeError] in the model; pandas concatenates when every cell
    of the column is text, a case the quantity columns of the extracts do
    not have.  [value_counts] keeps labels of equal count in the order of
    first occurrence, which is what pandas does for the handful of
    labels a status column has; no theorem depends on that order.  The
    exact percentages of [Aggregate] abstract from binary64 rounding;
    [Metrics] does not.

    ** Plan for the rest of the development

    A general error bound for [Float.percent] (in place of the bounded
    comparison of [Metrics.dc_display_exact]), the order fill card
    against its exact value, and the typed records of the design document
    (OrderRecord, DespatchRecord, DateIndexRecord) with a refinement from
    frames. *)

From stdpp Require Export prelude strings.

#[local] Set Warnings "-clear-no-such-hyp".

(** ** Exceptions and the result monad *)

(** The Python exceptions the script can raise before or while it
    aggregates.  [KeyError] carries the labels that were not found. *)
Inductive exn : Type :=
  | KeyError (missing : list string)
  | TypeError
  | ValueError (what : string)
  | FileNotFoundError (path : string).

#[export] Instance exn_eq_dec : EqDecision exn.
Proof. solve_decision. Defined.

Inductive res (A : Type) : Type :=
  | Ok (a : A)
  | Raise (e : exn).
Arguments Ok {A} a.
Arguments Raise {A} e.

#[export] Instance res_eq_dec `{EqDecision A} : EqDecision (res A).
Proof. solve_decision. Defined.

#[export] Instance res_ret : MRet res := λ A a, Ok a.
#[export] Instance res_bind : MBind res := λ A B f m,
  match m with Ok a => f a | Raise e => Raise e end.
#[export] Instance res_fmap : FMap res := λ A B f m,
  match m with Ok a => Ok (f a) | Raise e => Raise e end.

Definition is_ok {A} (m : res A) : bool :=
  match m with Ok _ => true | Raise _ => false end.

(** [of_option o e] is the value in [o], or raises [e]. *)
Definition of_option {A} (o : option A) (e : exn) : res A :=
  match o with Some a => Ok a | None => Raise e end.

(** [res_mapM f l] runs [f] on the elements left to right and stops at the
    first exception. *)
Fixpoint res_mapM {A B} (f : A → res B) (l : list A) : res (list B) :=
  match l with
  | [] => Ok []
  | a :: l => b ← f a; bs ← res_mapM f l; Ok (b :: bs)
  end.

(** ** Shared list functions *)

Definition Zsum (l : list Z) : Z := foldr Z.add 0%Z l.
Arguments Zsum : simpl never.

(** Selection by a boolean mask, position by position.  Positions beyond
    the shorter list are dropped. *)
Fixpoint compress {A} (mask : list bool) (l : list A) : list A :=
  match mask, l with
  | b :: mask, a :: l => if b then a :: compress mask l else compress mask l
  | _, _ => []
  end.

(** First occurrences, in order of appearance. *)
Fixpoint unique `{EqDecision A} (l : list A) : list A :=
  match l with
  | [] => []
  | a :: l => a :: filter (λ x, x ≠ a) (unique l)
  end.

(** ** The result monad's laws and inversion lemmas *)

Section res_lemmas.
Context {A B C : Type}.
Implicit Types (m : res A) (f : A → res B) (g : B → res C).

Lemma res_bind_Ok a f : Ok a ≫= f = f a.
Proof. done. Qed.

Lemma res_bind_Raise e f : Raise e ≫= f = Raise e.
Proof. done. Qed.

Lemma res_bind_ret m : m ≫= Ok = m.
Proof. by destruct m. Qed.

Lemma res_bind_assoc m f g : (m ≫= f) ≫= g = m ≫= (λ a, f a ≫= g).
Proof. by destruct m. Qed.

Lemma res_bind_Ok_inv m f b :
  m ≫= f = Ok b ↔ ∃ a, m = Ok a ∧ f a = Ok b.
Proof. destruct m; naive_solver. Qed.

Lemma res_bind_Raise_inv m f e :
  m ≫= f = Raise e ↔ m = Raise e ∨ ∃ a, m = Ok a ∧ f a = Raise e.
Proof. destruct m; naive_solver. Qed.

Lemma res_fmap_Ok_inv (h : A → B) m b :
  h <$> m = Ok b ↔ ∃ a, m = Ok a ∧ b = h a.
Proof. destruct m; naive_solver. Qed.

Lemma res_fmap_Raise_inv (h : A → B) m e :
  h <$> m = Raise e ↔ m = Raise e.
Proof. destruct m; naive_solver. Qed.

Lemma is_ok_true m : is_ok m = true ↔ ∃ a, m = Ok a.
Proof. destruct m; naive_solver. Qed.

Lemma of_option_Ok (o : option A) e a : of_option o e = Ok a ↔ o = Some a.
Proof. destruct o; naive_solver. Qed.

Lemma of_option_Raise (o : option A) e e' :
  of_option o e = Raise e' ↔ o = None ∧ e' = e.
Proof. destruct o; naive_solver. Qed.
End res_lemmas.

(** [res_inv] breaks hypotheses of the shape [m ≫= f = Ok b] into their
    parts; [res_ok H] rewrites the goal with an
    equation [H : m = Ok a] or [H : m = Raise e] and simplifies the bind. *)
Ltac res_inv :=
  repeat match goal with
  | H : Ok _ = Ok _ |- _ => injection H as H; try subst
  | H : Raise _ = Raise _ |- _ => injection H as H; try subst
  | H : Ok _ = Raise _ |- _ => discriminate H
  | H : Raise _ = Ok _ |- _ => discriminate H
  | H : _ ≫= _ = Ok _ |- _ =>
      apply res_bind_Ok_inv in H; destruct H as (? & ? & H)
  | H : of_option _ _ = Ok _ |- _ => apply of_option_Ok in H
  end.

(** [res_step H as x Hx] inverts the first bind of [H : m ≫= f = Ok b]:
    it names the value of [m] and the equation [Hx : m = Ok x], and leaves
    [H : f x = Ok b]. *)
Tactic Notation "res_step" hyp(H) "as" simple_intropattern(x) ident(Hx) :=
  apply res_bind_Ok_inv in H as (x & Hx & H).

Tactic Notation "res_ok" constr(H) := rewrite H; cbn [mbind res_bind fmap res_fmap].

Create HintDb dash discriminated.
Create Rewrite HintDb dash.
#[export] Hint Rewrite @res_bind_ret @res_bind_assoc : dash.

(** ** [res_mapM] *)

Section res_mapM.
Context {A B : Type} (f : A → res B).

Lemma res_mapM_Ok_Forall2 l k :
  res_mapM f l = Ok k ↔ Forall2 (λ a b, f a = Ok b) l k.
Proof.
  revert k; induction l as [|a l IH]; intros k; cbn.
  - split; [intros [= <-]; constructor | by inversion 1].
  - split.
    + intros H; res_inv. constructor; [done | by apply IH].
    + inversion 1 as [|???? Ha Hl]; subst.
      res_ok Ha. apply IH in Hl. by res_ok Hl.
Qed.

Lemma res_mapM_length l k : res_mapM f l = Ok k → length k = length l.
Proof. rewrite res_mapM_Ok_Forall2. intros H. symmetry. by eapply Forall2_length. Qed.

Lemma res_mapM_total l :
  Forall (λ a, is_ok (f a) = true) l → ∃ k, res_mapM f l = Ok k.
Proof.
  induction 1 as [|a l [b Hb]%is_ok_true _ [k Hk]]; [by exists []|].
  exists (b :: k). cbn. res_ok Hb. by res_ok Hk.
Qed.

Lemma res_mapM_app l1 l2 :
  res_mapM f (l1 ++ l2) =
  k1 ← res_mapM f l1; k2 ← res_mapM f l2; Ok (k1 ++ k2).
Proof.
  induction l1 as [|a l1 IH]; cbn.
  - by destruct (res_mapM f l2).
  - destruct (f a); cbn; [|done]. rewrite IH.
    destruct (res_mapM f l1); cbn; [|done]. by destruct (res_mapM f l2).
Qed.
End res_mapM.

Lemma res_mapM_pure {A B} (h : A → B) l : res_mapM (λ a, Ok (h a)) l = Ok (h <$> l).
Proof. induction l as [|a l IH]; cbn; [done|]. by rewrite IH. Qed.

Lemma res_mapM_ext {A B} (f g : A → res B) l :
  (∀ a, a ∈ l → f a = g a) → res_mapM f l = res_mapM g l.
Proof.
  induction l as [|a l IH]; intros H; cbn; [done|].
  rewrite H by left. rewrite IH; [done|]. intros; apply H. by right.
Qed.

(** ** [Zsum] *)

Lemma Zsum_nil : Zsum [] = 0%Z.
Proof. done. Qed.

Lemma Zsum_cons z l : Zsum (z :: l) = (z + Zsum l)%Z.
Proof. done. Qed.

Lemma Zsum_app l1 l2 : Zsum (l1 ++ l2) = (Zsum l1 + Zsum l2)%Z.
Proof. induction l1 as [|z l1 IH]; cbn; [done|]. rewrite !Zsum_cons, IH. lia. Qed.

Lemma Zsum_bounds lo hi l :
  Forall (λ z, lo ≤ z ≤ hi)%Z l →
  (lo * Z.of_nat (length l) ≤ Zsum l ≤ hi * Z.of_nat (length l))%Z.
Proof.
  induction 1 as [|z l Hz _ IH]; [rewrite Zsum_nil; cbn; lia|].
  rewrite Zsum_cons. cbn [length]. lia.
Qed.

Lemma Zsum_nonneg l : Forall (λ z, 0 ≤ z)%Z l → (0 ≤ Zsum l)%Z.
Proof. induction 1; [done|]. rewrite Zsum_cons. lia. Qed.

Lemma Zsum_zero l : Forall (λ z, z = 0%Z) l → Zsum l = 0%Z.
Proof. induction 1 as [|? ? -> _ IH]; [done|]. by rewrite Zsum_cons, IH. Qed.

Lemma Zsum_zip_add l1 l2 :
  length l1 = length l2 →
  Zsum (zip_with Z.add l1 l2) = (Zsum l1 + Zsum l2)%Z.
Proof.
  revert l2; induction l1 as [|a l1 IH]; intros [|b l2] [=]; [done|].
  cbn [zip_with]. rewrite !Zsum_cons, IH by done. lia.
Qed.

#[export] Hint Rewrite Zsum_nil Zsum_cons Zsum_app : dash.

(** ** [compress] *)

Section compress.
Context {A : Type}.
Implicit Types (mask : list bool) (l : list A).

Lemma compress_nil_l l : compress [] l = [].
Proof. done. Qed.

Lemma compress_nil_r mask : compress mask ([] : list A) = [].
Proof. by destruct mask. Qed.

Lemma compress_length mask l : length (compress mask l) ≤ length l.
Proof.
  revert l; induction mask as [|b mask IH]; intros [|a l]; cbn; try lia.
  specialize (IH l). destruct b; cbn; lia.
Qed.

(** The number of rows kept depends on the mask only, not on the column:
    this is what keeps a frame rectangular under [df[mask]]. *)
Lemma compress_length_mask mask l :
  length mask = length l →
  length (compress mask l) = length (filter (λ b, b = true) mask).
Proof.
  revert l; induction mask as [|b mask IH]; intros [|a l] [=]; [done|].
  destruct b; cbn; rewrite ?filter_cons_True, ?filter_cons_False by done;
    cbn; by rewrite IH.
Qed.

Lemma compress_map (p : A → bool) l : compress (p <$> l) l = filter (λ a, p a = true) l.
Proof.
  induction l as [|a l IH]; [done|]. cbn [fmap list_fmap compress].
  destruct (p a) eqn:E.
  - by rewrite filter_cons_True, IH.
  - rewrite filter_cons_False, IH; [done|]. by rewrite E.
Qed.

Lemma compress_all_true mask l :
  Forall (λ b, b = true) mask → length mask = length l → compress mask l = l.
Proof.
  intros H; revert l; induction H as [|? mask -> _ IH]; intros [|a l] [=];
    [done|]. cbn. by rewrite IH.
Qed.

Lemma compress_all_false mask l : Forall (λ b, b = false) mask → compress mask l = [].
Proof.
  intros H; revert l; induction H as [|? mask -> _ IH]; intros [|a l]; cbn; auto.
Qed.

Lemma compress_sublist mask l : compress mask l `sublist_of` l.
Proof.
  revert l; induction mask as [|b mask IH]; intros [|a l]; cbn;
    try apply sublist_nil_l.
  destruct b; [by apply sublist_skip | by apply sublist_cons].
Qed.

Lemma elem_of_compress mask l a : a ∈ compress mask l → a ∈ l.
Proof. intros H. eapply elem_of_sublist; [done | apply compress_sublist]. Qed.

(** Selecting by the conjunction of two masks is selecting twice. *)
Lemma compress_and m1 m2 l :
  compress (zip_with andb m1 m2) l = compress (compress m1 m2) (compress m1 l).
Proof.
  revert m2 l; induction m1 as [|b1 m1 IH]; intros [|b2 m2] [|a l];
    try destruct b1; try destruct b2; cbn; by rewrite ?compress_nil_r, ?IH.
Qed.

Lemma compress_fmap {B} (h : A → B) mask l :
  compress mask (h <$> l) = h <$> compress mask l.
Proof.
  revert l; induction mask as [|b mask IH]; intros [|a l]; cbn; try done.
  destruct b; cbn; by rewrite IH.
Qed.
End compress.

#[export] Hint Rewrite @compress_nil_l @compress_nil_r : dash.

(** ** [unique] *)

Section unique.
Context `{EqDecision A}.
Implicit Types (l : list A).

Lemma elem_of_unique l a : a ∈ unique l ↔ a ∈ l.
Proof.
  induction l as [|b l IH]; cbn; [done|].
  rewrite !elem_of_cons, list_elem_of_filter, IH.
  destruct (decide (a = b)); naive_solver.
Qed.

Lemma NoDup_unique l : NoDup (unique l).
Proof.
  induction l as [|b l IH]; cbn; [constructor|].
  constructor; [|by apply NoDup_filter].
  rewrite list_elem_of_filter. naive_solver.
Qed.

Lemma unique_NoDup l : NoDup l → unique l = l.
Proof.
  induction 1 as [|a l Ha _ IH]; cbn; [done|]. rewrite IH. f_equal.
  clear IH. induction l as [|b l IH]; [done|].
  apply not_elem_of_cons in Ha as [Hab Ha].
  rewrite filter_cons_True by done. f_equal. by apply IH.
Qed.

Lemma unique_idemp l : unique (unique l) = unique l.
Proof. apply unique_NoDup, NoDup_unique. Qed.

Lemma unique_nil_inv l : unique l = [] → l = [].
Proof. by destruct l. Qed.
End unique.

(** ** Association lists

    [assoc k l] is the value of the first pair of [l] whose key is [k]:
    the columns of a frame by label, a Series by index label. *)

Fixpoint assoc `{EqDecision K} {V} (k : K) (l : list (K * V)) : option V :=
  match l with
  | [] => None
  | (k', v) :: l => if decide (k' = k) then Some v else assoc k l
  end.

Section assoc.
Context `{EqDecision K} {V W : Type}.
Implicit Types (l : list (K * V)) (k : K).

Lemma assoc_None k l : assoc k l = None ↔ k ∉ l.*1.
Proof.
  induction l as [|[k' v] l IH]; cbn.
  - split; [intros _; apply not_elem_of_nil | done].
  - case_decide; rewrite not_elem_of_cons; naive_solver.
Qed.

Lemma assoc_is_Some k l : is_Some (assoc k l) ↔ k ∈ l.*1.
Proof.
  rewrite <-not_eq_None_Some, assoc_None. split; [apply dec_stable | auto].
Qed.

Lemma assoc_elem_of k v l : assoc k l = Some v → (k, v) ∈ l.
Proof.
  induction l as [|[k' v'] l IH]; cbn; [done|].
  case_decide; [intros [= <-]; subst; left | right; auto].
Qed.

Lemma elem_of_assoc k v l : NoDup l.*1 → (k, v) ∈ l → assoc k l = Some v.
Proof.
  induction l as [|[k' v'] l IH]; cbn; [by rewrite elem_of_nil|].
  rewrite NoDup_cons, elem_of_cons. intros [Hk Hl] [[= -> ->]|Hin].
  - by rewrite decide_True.
  - rewrite decide_False; [auto|]. intros ->. apply Hk.
    apply list_elem_of_fmap. by exists (k, v).
Qed.

Lemma assoc_fmap (f : V → W) k l :
  assoc k (prod_map id f <$> l) = f <$> assoc k l.
Proof.
  induction l as [|[k' v] l IH]; cbn; [done|]. by case_decide.
Qed.

Lemma assoc_app k l1 l2 :
  assoc k (l1 ++ l2) = match assoc k l1 with Some v => Some v | None => assoc k l2 end.
Proof.
  induction l1 as [|[k' v] l1 IH]; cbn; [done|]. by case_decide.
Qed.

Lemma fmap_fst_prod_map (f : V → W) l : (prod_map id f <$> l).*1 = l.*1.
Proof. rewrite <-list_fmap_compose. by apply list_fmap_ext; intros ? []. Qed.
End assoc.

(** ** [compress] on pairs and on the cells of a column *)

Lemma compress_zip {A B} mask (l1 : list A) (l2 : list B) :
  compress mask (zip l1 l2) = zip (compress mask l1) (compress mask l2).
Proof.
  revert l1 l2; induction mask as [|b mask IH]; intros [|a l1] [|c l2];
    try destruct b; cbn; rewrite ?compress_nil_r, ?IH; try done.
  by destruct (compress mask l1).
Qed.

Lemma compress_cons_tail {A} b mask (l : list A) :
  compress (b :: mask) l =
  (if b then option_list (head l) else []) ++ compress mask (tail l).
Proof. destruct l, b; cbn; by rewrite ?compress_nil_r. Qed.

(** The number of positions a mask selects. *)
Definition mask_count (mask : list bool) : nat :=
  length (filter (λ b, b = true) mask).

Lemma mask_count_cons b mask :
  mask_count (b :: mask) = (if b then 1 else 0) + mask_count mask.
Proof. by destruct b. Qed.

Lemma mask_count_le mask : mask_count mask ≤ length mask.
Proof. apply length_filter. Qed.

Lemma mask_count_fmap {A} (p : A → bool) l :
  mask_count (p <$> l) = length (filter (λ a, p a = true) l).
Proof.
  induction l as [|a l IH]; [done|]. cbn [fmap list_fmap].
  rewrite mask_count_cons, IH. destruct (p a) eqn:E.
  - by rewrite filter_cons_True.
  - rewrite filter_cons_False; [done|]. by rewrite E.
Qed.

(** ** [filter] keeping everything or nothing *)

Section filter.
Context {A : Type} (P : A → Prop) `{!∀ x, Decision (P x)}.
Implicit Types (l : list A).

Lemma filter_all l : Forall P l → filter P l = l.
Proof.
  induction 1 as [|a l Ha _ IH]; [done|]. by rewrite filter_cons_True, IH.
Qed.

Lemma filter_none l : filter P l = [] ↔ Forall (λ a, ¬ P a) l.
Proof.
  induction l as [|a l IH]; [by split; [constructor|]|].
  rewrite filter_cons, Forall_cons. case_decide; [|by rewrite IH; tauto].
  split; [done|]. by intros [? _].
Qed.
End filter.

(** ** A mask and its complement split a list *)

Lemma Forall_compress {A} (P : A → Prop) mask l :
  Forall P l → Forall P (compress mask l).
Proof.
  rewrite !Forall_forall. intros H a Ha. by apply H, (elem_of_compress mask).
Qed.

Lemma Zsum_compress_split mask (l : list Z) :
  length mask = length l →
  Zsum l = (Zsum (compress mask l) + Zsum (compress (negb <$> mask) l))%Z.
Proof.
  revert l; induction mask as [|b mask IH]; intros [|z l] [=]; [done|].
  destruct b; cbn [fmap list_fmap negb compress]; rewrite !Zsum_cons, (IH l) by done; lia.
Qed.

Lemma mask_count_split mask :
  mask_count mask + mask_count (negb <$> mask) = length mask.
Proof.
  induction mask as [|b mask IH]; [done|]. cbn [fmap list_fmap length].
  rewrite !mask_count_cons. destruct b; cbn; lia.
Qed.

Lemma zip_with_fmap_same {A B C D} (f : B → C → D) (g : A → B) (h : A → C) l :
  zip_with f (g <$> l) (h <$> l) = (λ a, f (g a) (h a)) <$> l.
Proof. induction l as [|a l IH]; cbn; [done|]. by rewrite IH. Qed.

(** ** Sums of sums *)

(** A traversal whose every success is the value of [h] returns [h] of the
    list. *)
Lemma res_mapM_Ok_fmap {A B} (f : A → res B) (h : A → B) l k :
  (∀ a b, a ∈ l → f a = Ok b → b = h a) → res_mapM f l = Ok k → k = h <$> l.
Proof.
  revert k; induction l as [|a l IH]; intros k Hf H; cbn in H; res_inv; [done|].
  cbn. f_equal; [apply Hf; [left|done] | apply IH; [|done]].
  intros ???; apply Hf. by right.
Qed.

Lemma res_mapM_fmap {A B C} (f : B → res C) (g : A → B) l :
  res_mapM f (g <$> l) = res_mapM (f ∘ g) l.
Proof. induction l as [|a l IH]; cbn; [done|]. by rewrite IH. Qed.

Lemma Zsum_fmap_add {A} (g h : A → Z) l :
  Zsum ((λ a, g a + h a)%Z <$> l) = (Zsum (g <$> l) + Zsum (h <$> l))%Z.
Proof.
  induction l as [|a l IH]; [done|]. cbn [fmap list_fmap].
  rewrite !Zsum_cons, IH. lia.
Qed.

Lemma Zsum_fmap_zero {A} (l : list A) : Zsum ((λ _, 0%Z) <$> l) = 0%Z.
Proof. induction l as [|a l IH]; [done|]. cbn [fmap list_fmap]. by rewrite Zsum_cons, IH. Qed.

(** Summing a table by columns or by rows gives the same total. *)
Lemma Zsum_exchange {A B} (f : A → B → Z) (rs : list A) (cs : list B) :
  Zsum ((λ c, Zsum ((λ r, f r c) <$> rs)) <$> cs) =
  Zsum ((λ r, Zsum ((λ c, f r c) <$> cs)) <$> rs).
Proof.
  induction cs as [|c cs IH]; cbn [fmap list_fmap].
  - by rewrite Zsum_fmap_zero.
  - rewrite Zsum_cons, IH, <-Zsum_fmap_add. done.
Qed.

Lemma Zsum_fmap_le {A} (g h : A → Z) l :
  Forall (λ a, g a ≤ h a)%Z l → (Zsum (g <$> l) ≤ Zsum (h <$> l))%Z.
Proof.
  induction 1 as [|a l Ha _ IH]; [done|]. cbn [fmap list_fmap].
  rewrite !Zsum_cons. lia.
Qed.

Lemma Forall2_ext {A B} (P Q : A → B → Prop) l k :
  (∀ a b, P a b ↔ Q a b) → Forall2 P l k ↔ Forall2 Q l k.
Proof.
  intros H. split; intros HF; (eapply Forall2_impl; [exact HF|]);
    intros a b; by apply H.
Qed.

Lemma Forall2_fun {A B} (P : A → Prop) (h : A → B) l k :
  Forall2 (λ a b, P a ∧ b = h a) l k ↔ Forall P l ∧ k = h <$> l.
Proof.
  split.
  - induction 1 as [|a b l k [Ha ->] _ [IH ->]]; [done|]. by split; [constructor|].
  - intros [H ->]. induction H; cbn; constructor; auto.
Qed.

(** ** Sums over the classes of a partition *)

Lemma Zsum_filter {A} (P : A → Prop) `{!∀ x, Decision (P x)} (f : A → Z) l :
  Zsum (f <$> filter P l) = Zsum ((λ x, if decide (P x) then f x else 0%Z) <$> l).
Proof.
  induction l as [|x l IH]; [done|]. rewrite filter_cons. cbn [fmap list_fmap].
  rewrite Zsum_cons, <-IH. by case_decide.
Qed.

Lemma Zsum_indicator `{EqDecision K} (y : K) (c : Z) (keys : list K) :
  NoDup keys →
  Zsum ((λ k, if decide (y = k) then c else 0%Z) <$> keys)
  = if decide (y ∈ keys) then c else 0%Z.
Proof.
  induction 1 as [|k keys Hk _ IH]; [done|]. cbn [fmap list_fmap].
  rewrite Zsum_cons, IH. repeat case_decide; set_solver by lia.
Qed.

(** Grouping the elements of a list by a key and summing group by group
    gives the sum of the list, when the groups' keys are distinct and
    every element's key is one of them. *)
Lemma Zsum_partition {A} `{EqDecision K} (key : A → K) (f : A → Z)
    (keys : list K) (l : list A) :
  NoDup keys → Forall (λ x, key x ∈ keys) l →
  Zsum ((λ k, Zsum (f <$> filter (λ x, key x = k) l)) <$> keys)
  = Zsum (f <$> l).
Proof.
  intros Hnd Hin.
  rewrite (list_fmap_ext _ (λ k, Zsum ((λ x, if decide (key x = k) then f x else 0%Z) <$> l)))
    by (intros; apply Zsum_filter).
  rewrite (Zsum_exchange (λ x k, if decide (key x = k) then f x else 0%Z)).
  f_equal. apply list_fmap_ext. intros _ x Hx%list_elem_of_lookup_2. cbn.
  rewrite Zsum_indicator by done.
  rewrite decide_True; [done|]. by apply (proj1 (Forall_forall _ _) Hin).
Qed.

Lemma Zsum_of_nat (l : list nat) : Zsum (Z.of_nat <$> l) = Z.of_nat (sum_list l).
Proof.
  induction l as [|n l IH]; [done|]. cbn [fmap list_fmap].
  change (sum_list (n :: l)) with (n + sum_list l). rewrite Zsum_cons, IH. lia.
Qed.

Lemma Zsum_ones {A} (l : list A) : Zsum ((λ _, 1%Z) <$> l) = Z.of_nat (length l).
Proof.
  induction l as [|x l IH]; [done|]. cbn [fmap list_fmap length].
  rewrite Zsum_cons, IH. lia.
Qed.

#[export] Instance Zsum_Permutation : Proper ((≡ₚ) ==> (=)) Zsum.
Proof.
  intros l1 l2 H. induction H as [|z l1 l2 _ IH|z1 z2 l|l1 l2 l3 _ IH1 _ IH2];
    rewrite ?Zsum_cons; [done|by rewrite IH|lia|congruence].
Qed.

Lemma filter_fmap {A B} (f : A → B) (P : B → Prop) `{!∀ y, Decision (P y)}
    (l : list A) :
  filter P (f <$> l) = f <$> filter (λ x, P (f x)) l.
Proof.
  induction l as [|x l IH]; [done|]. cbn [fmap list_fmap].
  rewrite !filter_cons, IH. by case_decide.
Qed.
