(* ===== verification/Cell.v ===== *)
(** * Cell: the values held by a pandas column

    One spreadsheet cell as pandas holds it after [read_excel]: missing
    ([Null], which stands for NaN, NaT and None alike), an integer, a
    text or a timestamp in nanoseconds since the epoch.  Quantities are
    whole numbers; a fractional number or a boolean in a sheet has no
    representation here.  The file defines the three
    ways the script compares cells, which differ on missing values:

    - [cell_eq], the element-wise [==] of lines 44 and 48 and the
      [Series.eq] of line 72: a missing value is equal to nothing, itself
      included;
    - [isin], the membership test of [Series.isin] (lines 59-61): a
      missing value is a member of a list that contains a missing value;
    - [isna]/[dropna], used to build the option lists of lines 46, 51, 55.

    [cell_num] is the numeric reading of a cell under [sum] with the
    default [skipna=True]: a gap contributes 0. *)

From S2P Require Import Prelude.

#[local] Set Warnings "-clear-no-such-hyp".

Inductive cell : Type :=
  | Null
  | Num (z : Z)
  | Str (s : string)
  | Date (ns : Z).

#[export] Instance cell_eq_dec : EqDecision cell.
Proof. solve_decision. Defined.

#[export] Instance cell_inhabited : Inhabited cell := populate Null.

Definition isna (c : cell) : bool :=
  match c with Null => true | _ => false end.

Definition notna (c : cell) : bool := negb (isna c).

(** Element-wise equality of two cells. *)
Definition cell_eq (a b : cell) : bool :=
  match a, b with
  | Num x, Num y => bool_decide (x = y)
  | Str x, Str y => bool_decide (x = y)
  | Date x, Date y => bool_decide (x = y)
  | _, _ => false
  end.

(** [Series.isin(values)] at one cell. *)
Definition isin (c : cell) (values : list cell) : bool :=
  bool_decide (c ∈ values).

(** [Series.dropna()] on the values of a column. *)
Definition dropna (s : list cell) : list cell :=
  filter (λ c, notna c = true) s.

(** The number a cell contributes to a sum. *)
Definition cell_num (c : cell) : res Z :=
  match c with
  | Null => Ok 0%Z
  | Num z => Ok z
  | Str _ | Date _ => Raise TypeError
  end.

(** Nanoseconds in a day, and the [Timestamp] that [pd.to_datetime] makes
    of a [datetime.date]: midnight of that day (line 44). *)
Definition ns_per_day : Z := 86400000000000.

Definition Timestamp_of_date (day : Z) : cell := Date (day * ns_per_day).

(** The value a numeric cell contributes to a sum, a gap counting as 0. *)
Definition cell_val (c : cell) : Z :=
  match c with Num z => z | _ => 0%Z end.

(** A column is numeric when [sum] accepts every cell of it. *)
Definition numeric (c : cell) : bool :=
  match c with Null | Num _ => true | _ => false end.

Section cell_lemmas.
Implicit Types (a b c : cell) (l : list cell).

Lemma isna_true c : isna c = true ↔ c = Null.
Proof. by destruct c. Qed.

Lemma notna_true c : notna c = true ↔ c ≠ Null.
Proof. by destruct c. Qed.

Lemma cell_eq_true a b : cell_eq a b = true ↔ a = b ∧ a ≠ Null.
Proof.
  destruct a, b; cbn; rewrite ?bool_decide_eq_true; naive_solver.
Qed.

Lemma cell_eq_false a b : cell_eq a b = false ↔ a ≠ b ∨ a = Null.
Proof.
  rewrite <-not_true_iff_false, cell_eq_true.
  destruct (decide (a = b)), (decide (a = Null)); naive_solver.
Qed.

Lemma cell_eq_sym a b : cell_eq a b = cell_eq b a.
Proof.
  destruct a, b; cbn; try done; apply bool_decide_ext; naive_solver.
Qed.

Lemma cell_eq_Null_l b : cell_eq Null b = false.
Proof. done. Qed.

Lemma cell_eq_Null_r a : cell_eq a Null = false.
Proof. by destruct a. Qed.

Lemma cell_eq_refl a : a ≠ Null → cell_eq a a = true.
Proof. intros. by apply cell_eq_true. Qed.

Lemma isin_true c l : isin c l = true ↔ c ∈ l.
Proof. apply bool_decide_eq_true. Qed.

Lemma isin_false c l : isin c l = false ↔ c ∉ l.
Proof. apply bool_decide_eq_false. Qed.

Lemma isin_nil c : isin c [] = false.
Proof. apply isin_false, not_elem_of_nil. Qed.

Lemma isin_cons c a l : isin c (a :: l) = bool_decide (c = a) || isin c l.
Proof.
  unfold isin. apply eq_true_iff_eq.
  rewrite orb_true_iff, !bool_decide_eq_true, elem_of_cons. done.
Qed.

Lemma isin_incl c l1 l2 : l1 ⊆ l2 → isin c l1 = true → isin c l2 = true.
Proof. rewrite !isin_true. auto. Qed.

(** [isin] depends on the set of values only, not on order or repetition. *)
Lemma isin_equiv c l1 l2 : (∀ x, x ∈ l1 ↔ x ∈ l2) → isin c l1 = isin c l2.
Proof. intros H. apply bool_decide_ext, H. Qed.

(** Where [==] holds, [isin] of a singleton holds; the converse fails on
    the missing value only. *)
Lemma cell_eq_isin a b : cell_eq a b = true → isin a [b] = true.
Proof. rewrite cell_eq_true, isin_true. intros [-> _]. by left. Qed.

(** Membership and equality differ on the missing value only:
    [isin] of a one-element list is [==] with that element, except that a
    missing cell is a member of a list holding a missing value although
    it is not equal to it. *)
Lemma isin_singleton c v : isin c [v] = cell_eq c v || (isna c && isna v).
Proof.
  apply eq_true_iff_eq.
  rewrite isin_true, list_elem_of_singleton, orb_true_iff, andb_true_iff,
    cell_eq_true, !isna_true.
  destruct (decide (c = Null)); naive_solver.
Qed.

Lemma elem_of_dropna c l : c ∈ dropna l ↔ c ∈ l ∧ c ≠ Null.
Proof. unfold dropna. rewrite list_elem_of_filter, notna_true. tauto. Qed.

Lemma dropna_Forall l : Forall (λ c, c ≠ Null) (dropna l).
Proof. apply Forall_forall. intros c. rewrite elem_of_dropna. tauto. Qed.

Lemma isin_dropna c l : c ≠ Null → isin c (dropna l) = isin c l.
Proof.
  intros Hc. apply bool_decide_ext. rewrite elem_of_dropna. tauto.
Qed.

Lemma isin_Null_dropna l : isin Null (dropna l) = false.
Proof. apply isin_false. rewrite elem_of_dropna. tauto. Qed.

Lemma isin_unique c l : isin c (unique l) = isin c l.
Proof. apply bool_decide_ext, elem_of_unique. Qed.

Lemma cell_num_ok c : is_ok (cell_num c) = numeric c.
Proof. by destruct c. Qed.

Lemma cell_num_Ok c z : cell_num c = Ok z ↔ numeric c = true ∧ z = cell_val c.
Proof. destruct c; cbn; naive_solver. Qed.

Lemma cell_num_numeric c : numeric c = true → cell_num c = Ok (cell_val c).
Proof. intros. by apply cell_num_Ok. Qed.

Lemma cell_num_Raise c e : cell_num c = Raise e ↔ numeric c = false ∧ e = TypeError.
Proof. destruct c; cbn; naive_solver. Qed.

Lemma cell_num_Null : cell_num Null = Ok 0%Z.
Proof. done. Qed.

Lemma Timestamp_of_date_inj d1 d2 :
  Timestamp_of_date d1 = Timestamp_of_date d2 → d1 = d2.
Proof. unfold Timestamp_of_date, ns_per_day. intros [=]. lia. Qed.

End cell_lemmas.

#[export] Hint Rewrite isin_nil cell_eq_Null_l cell_eq_Null_r isin_unique
  isin_Null_dropna : dash.
