(* ===== verification/Frame.v ===== *)
(** * Frame: the pandas objects the script manipulates

    A [DataFrame] is a row index (one label per row) and a list of named
    columns, each a list of cells.  A column taken out of a frame
    ([df[c]], a pandas Series) is the list of its cells; its index is the
    frame's.  A boolean Series is a [list bool] in row order.

    [wf_frame] is the shape invariant: column names are distinct (what
    [read_excel] guarantees by renaming duplicates), row labels are
    distinct (a RangeIndex, or a part of one), and every column has one
    cell per row.  [rows] is the row-wise reading of a frame, used to state
    what the column-wise operations do to rows. *)

From S2P Require Import Prelude Cell.

#[local] Set Warnings "-clear-no-such-hyp".

Record DataFrame : Type := mkDF {
  df_index : list cell;
  df_data : list (string * list cell)
}.

#[export] Instance DataFrame_eq_dec : EqDecision DataFrame.
Proof. solve_decision. Defined.

(** [df.columns] and [len(df)]. *)
Definition columns (df : DataFrame) : list string := (df_data df).*1.

Definition nrows (df : DataFrame) : nat := length (df_index df).

Definition wf_frame (df : DataFrame) : Prop :=
  NoDup (columns df) ∧ NoDup (df_index df) ∧
  Forall (λ c, length c.2 = nrows df) (df_data df).

#[export] Instance wf_frame_dec df : Decision (wf_frame df).
Proof. unfold wf_frame. apply _. Defined.

(** [RangeIndex(n)], the row labels of a frame that [read_excel] or the
    [DataFrame] constructor has just made. *)
Definition RangeIndex (n : nat) : list cell := (λ i, Num (Z.of_nat i)) <$> seq 0 n.

(** [c in df.columns]. *)
Definition has_column (df : DataFrame) (c : string) : bool :=
  bool_decide (c ∈ columns df).

(** [df[c]]: the column, or [KeyError]. *)
Definition getitem (df : DataFrame) (c : string) : res (list cell) :=
  of_option (assoc c (df_data df)) (KeyError [c]).

(** [df[c] = v]: the column is replaced in place, or appended when the
    frame has no column of that name. *)
Definition setitem (df : DataFrame) (c : string) (v : list cell) : DataFrame :=
  if has_column df c
  then mkDF (df_index df)
            ((λ col, if decide (col.1 = c) then (c, v) else col) <$> df_data df)
  else mkDF (df_index df) (df_data df ++ [(c, v)]).

(** The cells of column [c], empty when the frame has no such column. *)
Definition column (df : DataFrame) (c : string) : list cell :=
  default [] (assoc c (df_data df)).

(** [df[mask]]: the rows at which the mask holds, labels kept. *)
Definition loc (df : DataFrame) (mask : list bool) : DataFrame :=
  mkDF (compress mask (df_index df))
       (prod_map id (compress mask) <$> df_data df).

(** [df[[c1; ...; cn]]]: the listed columns in the listed order;
    [KeyError] with the labels that are absent. *)
Definition select (df : DataFrame) (cols : list string) : res DataFrame :=
  match filter (λ c, c ∉ columns df) cols with
  | [] => Ok (mkDF (df_index df) ((λ c, (c, column df c)) <$> cols))
  | missing => Raise (KeyError missing)
  end.

(** [s == v], [s.isin(values)] and [m1 & m2]. *)
Definition eq_mask (s : list cell) (v : cell) : list bool :=
  (λ c, cell_eq c v) <$> s.

Definition isin_mask (s : list cell) (values : list cell) : list bool :=
  (λ c, isin c values) <$> s.

Definition mask_and (m1 m2 : list bool) : list bool := zip_with andb m1 m2.

(** [s.sum()]: gaps are skipped, a cell that is not a number raises. *)
Definition series_sum (s : list cell) : res Z := Zsum <$> res_mapM cell_num s.
Arguments series_sum : simpl never.

(** [df.sum()]: one sum per column, labelled by the column. *)
Definition frame_sum (df : DataFrame) : res (list (string * Z)) :=
  res_mapM (λ col, z ← series_sum col.2; Ok (col.1, z)) (df_data df).

(** [s.unique()] after [s.dropna()], as in lines 46, 51 and 55. *)
Definition options_of (s : list cell) : list cell := unique (dropna s).

(** ** Rows

    A row is its label and its cells by column name. *)
Abbreviation row := (cell * list (string * cell))%type.

Definition row_get (r : row) (c : string) : cell := default Null (assoc c r.2).

Fixpoint rows_of (n : nat) (data : list (string * list cell)) :
    list (list (string * cell)) :=
  match n with
  | 0 => []
  | S n => (prod_map id (hd Null) <$> data)
           :: rows_of n (prod_map id tail <$> data)
  end.

Definition rows (df : DataFrame) : list row :=
  zip (df_index df) (rows_of (nrows df) (df_data df)).

(** The cells of column [c], read off the rows. *)
Definition column_of (c : string) (rs : list row) : list cell :=
  (λ r, row_get r c) <$> rs.

(** ** Shape *)

Section shape.
Implicit Types (df : DataFrame) (mask : list bool) (c : string).

Lemma RangeIndex_length n : length (RangeIndex n) = n.
Proof. unfold RangeIndex. by rewrite length_fmap, length_seq. Qed.

Lemma RangeIndex_NoDup n : NoDup (RangeIndex n).
Proof.
  unfold RangeIndex. apply NoDup_fmap_2; [|apply NoDup_seq].
  intros i j [= H]. lia.
Qed.

Lemma wf_frame_columns df : wf_frame df → NoDup (columns df).
Proof. by intros (? & ? & ?). Qed.

Lemma wf_frame_index df : wf_frame df → NoDup (df_index df).
Proof. by intros (? & ? & ?). Qed.

Lemma wf_frame_height df c v :
  wf_frame df → getitem df c = Ok v → length v = nrows df.
Proof.
  intros (_ & _ & H) Hc. unfold getitem in Hc. res_inv.
  apply assoc_elem_of in Hc. by apply (proj1 (Forall_forall _ _) H _ Hc).
Qed.

Lemma has_column_true df c : has_column df c = true ↔ c ∈ columns df.
Proof. apply bool_decide_eq_true. Qed.

Lemma getitem_is_ok df c : is_ok (getitem df c) = has_column df c.
Proof.
  unfold getitem, has_column, columns. destruct (assoc _ _) eqn:E; cbn.
  - symmetry. apply bool_decide_eq_true, assoc_is_Some. by rewrite E.
  - symmetry. by apply bool_decide_eq_false, assoc_None.
Qed.

Lemma getitem_KeyError df c e :
  getitem df c = Raise e ↔ (c ∉ columns df) ∧ e = KeyError [c].
Proof. unfold getitem. by rewrite of_option_Raise, assoc_None. Qed.

Lemma getitem_if df c :
  getitem df c =
  if has_column df c then Ok (column df c) else Raise (KeyError [c]).
Proof.
  rewrite <-getitem_is_ok. unfold getitem, column.
  by destruct (assoc c (df_data df)).
Qed.

Lemma getitem_Ok df c v :
  getitem df c = Ok v ↔ c ∈ columns df ∧ v = column df c.
Proof.
  rewrite getitem_if, <-has_column_true.
  destruct (has_column df c); naive_solver.
Qed.

Lemma getitem_column df c : c ∈ columns df → getitem df c = Ok (column df c).
Proof. intros. by apply getitem_Ok. Qed.

Lemma getitem_Ok_column df c v : getitem df c = Ok v → c ∈ columns df.
Proof.
  intros H. apply has_column_true. rewrite <-getitem_is_ok. by rewrite H.
Qed.

Lemma columns_loc df mask : columns (loc df mask) = columns df.
Proof. apply fmap_fst_prod_map. Qed.

Lemma has_column_loc df mask c : has_column (loc df mask) c = has_column df c.
Proof. unfold has_column. by rewrite columns_loc. Qed.

Lemma getitem_loc df mask c :
  getitem (loc df mask) c = compress mask <$> getitem df c.
Proof.
  unfold getitem, loc; cbn. rewrite assoc_fmap. by destruct (assoc _ _).
Qed.

Lemma nrows_loc df mask :
  length mask = nrows df →
  nrows (loc df mask) = mask_count mask.
Proof. intros. by apply compress_length_mask. Qed.

Lemma nrows_loc_le df mask : nrows (loc df mask) ≤ nrows df.
Proof. apply compress_length. Qed.

Lemma loc_wf df mask : wf_frame df → length mask = nrows df → wf_frame (loc df mask).
Proof.
  intros (Hc & Hi & Hh) Hm. split_and!.
  - by rewrite columns_loc.
  - eapply sublist_NoDup; [done | apply compress_sublist].
  - unfold loc; cbn. apply Forall_fmap. eapply Forall_impl; [done|].
    intros [n v] Hv; cbn in *.
    unfold nrows in *. rewrite !compress_length_mask; congruence.
Qed.

Lemma loc_all_true df mask :
  wf_frame df → length mask = nrows df → Forall (λ b, b = true) mask →
  loc df mask = df.
Proof.
  intros (_ & _ & Hh) Hm Ht. destruct df as [idx data]; unfold loc; cbn in *.
  f_equal; [by apply compress_all_true|].
  rewrite <-(list_fmap_id data) at 2. apply Forall_fmap_ext_1.
  eapply Forall_impl; [done|]. intros [n v] Hv; cbn in *.
  f_equal. apply compress_all_true; [done | congruence].
Qed.

Lemma nrows_loc_all_false df mask :
  Forall (λ b, b = false) mask → nrows (loc df mask) = 0.
Proof. intros. unfold nrows, loc; cbn. by rewrite compress_all_false. Qed.

Lemma getitem_loc_all_false df mask c v :
  Forall (λ b, b = false) mask → getitem (loc df mask) c = Ok v → v = [].
Proof.
  intros Hf. rewrite getitem_loc. intros (? & _ & ->)%res_fmap_Ok_inv.
  by apply compress_all_false.
Qed.

(** Filtering by [m1 & m2] is filtering by [m1], then by what is left of
    [m2]. *)
Lemma loc_mask_and df m1 m2 :
  loc df (mask_and m1 m2) = loc (loc df m1) (compress m1 m2).
Proof.
  unfold loc, mask_and; cbn. f_equal; [apply compress_and|].
  rewrite <-list_fmap_compose. apply list_fmap_ext.
  intros _ [n v] _; cbn. f_equal. apply compress_and.
Qed.
End shape.

(** ** Rows of a frame and of its filtered part *)

Section rows.
Implicit Types (df : DataFrame) (mask : list bool) (c : string)
  (data : list (string * list cell)).

Lemma rows_of_length n data : length (rows_of n data) = n.
Proof. revert data; induction n as [|n IH]; intros data; cbn; [done|]. by rewrite IH. Qed.

Lemma rows_length df : length (rows df) = nrows df.
Proof. unfold rows, nrows. rewrite length_zip_with, rows_of_length. lia. Qed.

Lemma rows_of_tail_height n data :
  Forall (λ col, length col.2 = S n) data →
  Forall (λ col, length col.2 = n) (prod_map id tail <$> data).
Proof.
  intros H. apply Forall_fmap. eapply Forall_impl; [done|].
  intros [k [|a v]] [=]. done.
Qed.

(** Filtering the columns by a mask filters the rows by that mask. *)
Lemma rows_of_compress mask data :
  Forall (λ col, length col.2 = length mask) data →
  rows_of (mask_count mask) (prod_map id (compress mask) <$> data)
  = compress mask (rows_of (length mask) data).
Proof.
  revert data; induction mask as [|b mask IH]; intros data Hh; [done|].
  pose proof (rows_of_tail_height _ _ Hh) as Ht. specialize (IH _ Ht).
  assert (Hcols : ∀ col, col ∈ data → ∃ a v, col.2 = a :: v).
  { intros [k [|a v]] Hin; [|by eauto].
    by apply (proj1 (Forall_forall _ _) Hh) in Hin. }
  assert (Hext : ∀ {X} (F G : string * list cell → X),
             (∀ k a v, F (k, a :: v) = G (k, a :: v)) → F <$> data = G <$> data).
  { intros X F G HFG. apply list_fmap_ext.
    intros _ [k v] Hin%list_elem_of_lookup_2.
    destruct (Hcols _ Hin) as (a & v' & Heq); cbn in Heq; subst. apply HFG. }
  rewrite mask_count_cons. cbn [length rows_of]. rewrite compress_cons_tail.
  cbn [head tail]. rewrite <-IH, <-!list_fmap_compose.
  destruct b; simpl option_list; simpl app; simpl Nat.add; cbn [rows_of];
    rewrite <-?list_fmap_compose; [f_equal; [|f_equal] | f_equal];
    by apply Hext.
Qed.

Lemma rows_loc df mask :
  wf_frame df → length mask = nrows df →
  rows (loc df mask) = compress mask (rows df).
Proof.
  intros (_ & _ & Hh) Hm. unfold rows. rewrite compress_zip, nrows_loc by done.
  cbn. rewrite rows_of_compress, Hm; [done|]. by rewrite Hm.
Qed.

(** A column is the projection of the rows on its name. *)
Lemma rows_of_column n data c v :
  Forall (λ col, length col.2 = n) data → assoc c data = Some v →
  v = (λ r, default Null (assoc c r)) <$> rows_of n data.
Proof.
  revert data v; induction n as [|n IH]; intros data v Hh Hc.
  - apply assoc_elem_of in Hc. apply (proj1 (Forall_forall _ _) Hh) in Hc.
    by destruct v.
  - cbn. rewrite assoc_fmap, Hc; cbn.
    pose proof (assoc_elem_of _ _ _ Hc) as Hin.
    apply (proj1 (Forall_forall _ _) Hh) in Hin. destruct v as [|a v]; [done|].
    cbn. f_equal. apply IH; [by apply rows_of_tail_height|].
    by rewrite assoc_fmap, Hc.
Qed.

Lemma getitem_rows df c v :
  wf_frame df → getitem df c = Ok v → v = (λ r, row_get r c) <$> rows df.
Proof.
  intros (_ & _ & Hh) Hc. unfold getitem in Hc; res_inv.
  rewrite (rows_of_column _ _ _ _ Hh Hc) at 1. unfold rows, row_get.
  generalize (rows_of_length (nrows df) (df_data df)). unfold nrows.
  generalize (rows_of (length (df_index df)) (df_data df)).
  induction (df_index df) as [|i idx IH]; intros [|r rs] [=]; cbn; [done|].
  f_equal. by apply IH.
Qed.

Lemma column_rows df c :
  wf_frame df → c ∈ columns df → column df c = column_of c (rows df).
Proof. intros Hwf Hc. by apply getitem_rows, getitem_column. Qed.

Lemma column_loc df mask c : column (loc df mask) c = compress mask (column df c).
Proof.
  unfold column, loc; cbn. rewrite assoc_fmap.
  destruct (assoc c (df_data df)); cbn; [done|]. by rewrite compress_nil_r.
Qed.

(** The rows of [df[mask]], when the mask is a test on rows, are the rows
    that pass the test, in their order. *)
Lemma rows_loc_filter df (p : row → bool) :
  wf_frame df →
  rows (loc df (p <$> rows df)) = filter (λ r, p r = true) (rows df).
Proof.
  intros Hwf. rewrite rows_loc, compress_map; [done..|].
  by rewrite length_fmap, rows_length.
Qed.
End rows.

(** ** Assignment and projection *)

Section columns.
Implicit Types (df : DataFrame) (mask : list bool) (c : string) (v : list cell).

Lemma nrows_setitem df c v : nrows (setitem df c v) = nrows df.
Proof. unfold setitem. by destruct (has_column df c). Qed.

Lemma columns_setitem df c v :
  columns (setitem df c v) = if has_column df c then columns df else columns df ++ [c].
Proof.
  unfold setitem, columns. destruct (has_column df c); cbn.
  - rewrite <-list_fmap_compose. apply list_fmap_ext.
    intros _ [k w] _; cbn. by case_decide.
  - by rewrite fmap_app.
Qed.

Lemma getitem_setitem df c v : getitem (setitem df c v) c = Ok v.
Proof.
  unfold getitem, setitem. destruct (has_column df c) eqn:E; cbn.
  - apply has_column_true in E. unfold columns in E.
    induction (df_data df) as [|[k w] data IH]; cbn in *; [by apply elem_of_nil in E|].
    case_decide; cbn; [by rewrite decide_True|]. rewrite decide_False by done.
    apply IH. by apply elem_of_cons in E as [|].
  - rewrite assoc_app. apply not_true_iff_false in E.
    rewrite has_column_true in E. apply assoc_None in E. rewrite E; cbn.
    by rewrite decide_True.
Qed.

Lemma getitem_setitem_ne df c c' v :
  c ≠ c' → getitem (setitem df c v) c' = getitem df c'.
Proof.
  intros Hne. unfold getitem, setitem. destruct (has_column df c); cbn.
  - f_equal. induction (df_data df) as [|[k w] data IH]; cbn; [done|].
    repeat case_decide; cbn; rewrite ?decide_True, ?decide_False by congruence;
      congruence.
  - rewrite assoc_app. destruct (assoc c' (df_data df)); [done|]. cbn.
    by rewrite decide_False.
Qed.

Lemma has_column_setitem df c v : has_column (setitem df c v) c = true.
Proof.
  apply has_column_true. rewrite columns_setitem.
  destruct (has_column df c) eqn:E; [by apply has_column_true|].
  apply elem_of_app. right. by left.
Qed.

(** A second assignment to a column overwrites the first. *)
Lemma setitem_setitem df c v w : setitem (setitem df c v) c w = setitem df c w.
Proof.
  unfold setitem at 1. rewrite has_column_setitem.
  unfold setitem. destruct (has_column df c) eqn:E; cbn; f_equal.
  - rewrite <-list_fmap_compose. apply list_fmap_ext. intros _ [k u] _; cbn.
    by repeat case_decide.
  - apply not_true_iff_false in E. rewrite has_column_true in E.
    rewrite fmap_app; cbn. rewrite decide_True by done. f_equal.
    unfold columns in E. induction (df_data df) as [|[k u] data IH]; [done|].
    cbn in *. apply not_elem_of_cons in E as [Hk E].
    rewrite decide_False by done. f_equal. by apply IH.
Qed.

Lemma setitem_wf df c v :
  wf_frame df → length v = nrows df → wf_frame (setitem df c v).
Proof.
  intros (Hc & Hi & Hh) Hv. split_and!.
  - rewrite columns_setitem. destruct (has_column df c) eqn:E; [done|].
    apply not_true_iff_false in E. rewrite has_column_true in E.
    apply NoDup_app. split_and!; [done| |apply NoDup_singleton].
    intros x Hx ->%list_elem_of_singleton. done.
  - unfold setitem. by destruct (has_column df c).
  - rewrite Forall_forall. intros [k w] Hin. rewrite nrows_setitem. cbn.
    unfold setitem in Hin. destruct (has_column df c); cbn in Hin.
    + apply list_elem_of_fmap in Hin as ([k' w'] & Heq & Hin).
      apply (proj1 (Forall_forall _ _) Hh) in Hin. cbn in *.
      case_decide; by simplify_eq.
    + apply elem_of_app in Hin as [Hin|Hin%list_elem_of_singleton].
      * by apply (proj1 (Forall_forall _ _) Hh) in Hin.
      * by simplify_eq.
Qed.

Lemma select_Ok df cols :
  cols ⊆ columns df →
  select df cols = Ok (mkDF (df_index df) ((λ c, (c, column df c)) <$> cols)).
Proof.
  intros Hsub. unfold select.
  replace (filter (λ c, c ∉ columns df) cols) with (@nil string); [done|].
  symmetry. apply filter_none, Forall_forall. intros c Hc Hn. apply Hn, Hsub, Hc.
Qed.

Lemma select_KeyError df cols e :
  select df cols = Raise e ↔
  e = KeyError (filter (λ c, c ∉ columns df) cols) ∧ ¬ cols ⊆ columns df.
Proof.
  unfold select. destruct (filter _ cols) as [|m missing] eqn:E.
  - split; [done|]. intros [_ Hn]. destruct Hn. intros c Hc.
    apply filter_none in E. apply dec_stable. intros Hnc.
    by apply (proj1 (Forall_forall _ _) E c Hc).
  - split; [intros [= <-]; split; [done|] | by intros [-> _]].
    intros Hsub. assert (Hm : m ∈ filter (λ c, c ∉ columns df) cols)
      by (rewrite E; left).
    apply list_elem_of_filter in Hm as [Hm1 Hm2]. by apply Hm1, Hsub.
Qed.

Lemma select_columns df cols df' : select df cols = Ok df' → columns df' = cols.
Proof.
  unfold select. destruct (filter _ cols); [|done]. intros [= <-].
  unfold columns; cbn. rewrite <-list_fmap_compose. apply list_fmap_id.
Qed.

Lemma select_nrows df cols df' : select df cols = Ok df' → nrows df' = nrows df.
Proof. unfold select. destruct (filter _ cols); [|done]. by intros [= <-]. Qed.

Lemma select_incl df cols df' : select df cols = Ok df' → cols ⊆ columns df.
Proof.
  intros H c Hc. apply dec_stable. intros Hn.
  assert (Hr : ∃ e, select df cols = Raise e); [|destruct Hr; congruence].
  eexists. apply select_KeyError. split; [done|]. intros Hsub. by apply Hn, Hsub.
Qed.

Lemma getitem_select df cols df' c :
  select df cols = Ok df' → c ∈ cols → getitem df' c = getitem df c.
Proof.
  intros H Hc. pose proof (select_incl _ _ _ H) as Hsub.
  rewrite select_Ok in H by done. injection H as <-. unfold getitem; cbn. f_equal.
  induction cols as [|c' cols IH]; [by apply elem_of_nil in Hc|]. cbn.
  case_decide as Hd; [subst c'|].
  - assert (is_Some (assoc c (df_data df))) as [v Hv].
    { apply assoc_is_Some, Hsub. by left. }
    unfold column. by rewrite Hv.
  - apply elem_of_cons in Hc as [->|Hc]; [done|]. apply IH; [done|].
    intros x Hx. apply Hsub. by right.
Qed.

Lemma select_wf df cols df' :
  wf_frame df → NoDup cols → select df cols = Ok df' → wf_frame df'.
Proof.
  intros (Hc & Hi & Hh) Hnd H. pose proof (select_incl _ _ _ H) as Hsub.
  split_and!.
  - by rewrite (select_columns _ _ _ H).
  - rewrite select_Ok in H by done. by injection H as <-.
  - rewrite (select_nrows _ _ _ H). rewrite select_Ok in H by done.
    injection H as <-. cbn. apply Forall_fmap, Forall_forall. intros c Hin; cbn.
    apply Hsub, assoc_is_Some in Hin as [v Hv]. unfold column. rewrite Hv; cbn.
    apply assoc_elem_of in Hv. by apply (proj1 (Forall_forall _ _) Hh) in Hv.
Qed.

(** Projection and row filtering commute. *)
Lemma select_loc df mask cols :
  select (loc df mask) cols = (λ d, loc d mask) <$> select df cols.
Proof.
  unfold select. rewrite columns_loc. destruct (filter _ cols); [|done].
  cbn. unfold loc; cbn. do 2 f_equal. rewrite <-list_fmap_compose.
  apply list_fmap_ext. intros _ c _; cbn. f_equal. unfold column; cbn.
  rewrite assoc_fmap. destruct (assoc c (df_data df)); cbn; [done|].
  by rewrite compress_nil_r.
Qed.
End columns.

(** ** Sums *)

Section sums.
Implicit Types (df : DataFrame) (mask : list bool) (s v : list cell) (z : Z).

(** [series_sum] against its reference: the sum of the cells' values,
    defined when every cell is a number or a gap. *)
Lemma series_sum_Ok s z :
  series_sum s = Ok z ↔
  Forall (λ c, numeric c = true) s ∧ z = Zsum (cell_val <$> s).
Proof.
  unfold series_sum. rewrite res_fmap_Ok_inv. split.
  - intros (zs & Hzs & ->). apply res_mapM_Ok_Forall2 in Hzs.
    induction Hzs as [|c z' s zs Hc%cell_num_Ok _ [IH1 IH2]]; [done|].
    destruct Hc as [Hn ->]. split; [by constructor|].
    cbn [fmap list_fmap]. by rewrite !Zsum_cons, IH2.
  - intros [Hn ->]. exists (cell_val <$> s). split; [|done].
    apply res_mapM_Ok_Forall2, Forall2_fmap_r, Forall_Forall2_diag.
    eapply Forall_impl; [done|]. apply cell_num_numeric.
Qed.

Lemma series_sum_numeric s :
  Forall (λ c, numeric c = true) s → series_sum s = Ok (Zsum (cell_val <$> s)).
Proof. intros. by apply series_sum_Ok. Qed.

Lemma series_sum_Raise s e :
  series_sum s = Raise e ↔ e = TypeError ∧ Exists (λ c, numeric c = false) s.
Proof.
  unfold series_sum. rewrite res_fmap_Raise_inv.
  induction s as [|c s IH]; cbn.
  - split; [done|]. intros [_ H]. by apply Exists_nil in H.
  - rewrite Exists_cons. destruct (cell_num c) as [z|e'] eqn:E; cbn.
    + apply cell_num_Ok in E as [Hn _].
      destruct (res_mapM cell_num s) as [zs|e'']; cbn.
      * split; [done|]. intros [He [?|Hs]]; [congruence|].
        by pose proof (proj2 IH (conj He Hs)).
      * rewrite IH. naive_solver congruence.
    + apply cell_num_Raise in E as [Hn ->]. naive_solver.
Qed.

Lemma series_sum_nil : series_sum [] = Ok 0%Z.
Proof. done. Qed.

Lemma series_sum_app s1 s2 :
  series_sum (s1 ++ s2) = a ← series_sum s1; b ← series_sum s2; Ok (a + b)%Z.
Proof.
  unfold series_sum. rewrite res_mapM_app.
  destruct (res_mapM cell_num s1); cbn; [|done].
  destruct (res_mapM cell_num s2); cbn; [|done]. by rewrite Zsum_app.
Qed.

(** Filtering rows never makes a sum fail, and splits it in two. *)
Lemma series_sum_split mask s z :
  length mask = length s → series_sum s = Ok z →
  ∃ z1 z2, series_sum (compress mask s) = Ok z1 ∧
           series_sum (compress (negb <$> mask) s) = Ok z2 ∧ z = (z1 + z2)%Z.
Proof.
  intros Hm [Hn ->]%series_sum_Ok. do 2 eexists. split_and!.
  - by apply series_sum_numeric, Forall_compress.
  - by apply series_sum_numeric, Forall_compress.
  - rewrite <-!compress_fmap. apply Zsum_compress_split. by rewrite length_fmap.
Qed.

Lemma series_sum_compress mask s z :
  series_sum s = Ok z → is_ok (series_sum (compress mask s)) = true.
Proof.
  intros [Hn _]%series_sum_Ok. apply is_ok_true. eexists.
  by apply series_sum_numeric, Forall_compress.
Qed.

(** A column of quantities between [lo] and [hi] (gaps aside) sums to a
    value between [lo] and [hi] times its length, provided 0 is in range. *)
Lemma series_sum_bounds lo hi s z :
  (lo ≤ 0 ≤ hi)%Z → Forall (λ c, lo ≤ cell_val c ≤ hi)%Z s →
  series_sum s = Ok z →
  (lo * Z.of_nat (length s) ≤ z ≤ hi * Z.of_nat (length s))%Z.
Proof.
  intros _ Hb [_ ->]%series_sum_Ok.
  rewrite <-(length_fmap cell_val s). by apply Zsum_bounds, Forall_fmap.
Qed.

(** ** [frame_sum] *)

Lemma frame_sum_labels df sums : frame_sum df = Ok sums → sums.*1 = columns df.
Proof.
  unfold frame_sum, columns. rewrite res_mapM_Ok_Forall2.
  induction 1 as [|[k v] [k' z] data sums H _ IH]; [done|].
  cbn in *. res_inv. by rewrite IH.
Qed.

Lemma frame_sum_values df sums :
  frame_sum df = Ok sums →
  Forall2 (λ col kz, series_sum col.2 = Ok kz.2) (df_data df) sums.
Proof.
  unfold frame_sum. rewrite res_mapM_Ok_Forall2. intros H.
  eapply Forall2_impl; [done|]. intros [k v] [k' z] H'; cbn in *. by res_inv.
Qed.

Lemma frame_sum_assoc df sums c v :
  frame_sum df = Ok sums → getitem df c = Ok v →
  ∃ z, series_sum v = Ok z ∧ assoc c sums = Some z.
Proof.
  unfold frame_sum, getitem. rewrite res_mapM_Ok_Forall2, of_option_Ok.
  induction 1 as [|[k w] [k' z] data sums H _ IH]; [done|].
  cbn in *. res_inv. case_decide; [|done]. intros [= ->]. eauto.
Qed.

Lemma frame_sum_total df :
  Forall (λ col, Forall (λ c, numeric c = true) col.2) (df_data df) →
  frame_sum df =
  Ok ((λ col, (col.1, Zsum (cell_val <$> col.2))) <$> df_data df).
Proof.
  intros H. unfold frame_sum. rewrite <-res_mapM_pure. apply res_mapM_ext.
  intros [k v] Hin. apply (proj1 (Forall_forall _ _) H) in Hin. cbn [fst snd] in *.
  by rewrite series_sum_numeric.
Qed.
End sums.

(** ** The operations, in one statement each *)

(** Boolean indexing [df[mask]] keeps the frame well formed with
    the same columns; its rows are the rows of [df] at which the mask
    holds, in order, and there are as many as the mask has [True]. *)
Lemma loc_spec df mask :
  wf_frame df → length mask = nrows df →
  wf_frame (loc df mask) ∧ columns (loc df mask) = columns df ∧
  rows (loc df mask) = compress mask (rows df) ∧
  nrows (loc df mask) = mask_count mask.
Proof.
  intros Hwf Hm. split_and!;
    auto using loc_wf, columns_loc, rows_loc, nrows_loc.
Qed.

(** Assigning a column of the frame's height keeps the frame well
    formed and its row labels; the assigned column reads back, every
    other column is unchanged. *)
Lemma setitem_spec df c v :
  wf_frame df → length v = nrows df →
  wf_frame (setitem df c v) ∧ df_index (setitem df c v) = df_index df ∧
  getitem (setitem df c v) c = Ok v ∧
  ∀ c', c ≠ c' → getitem (setitem df c v) c' = getitem df c'.
Proof.
  intros Hwf Hv. split_and!; auto using setitem_wf, getitem_setitem,
    getitem_setitem_ne.
  unfold setitem. by destruct (has_column df c).
Qed.

(** Projection [df[cols]] on a list of distinct labels either
    returns a well-formed frame with exactly these columns, in this
    order, each as it is in [df], or raises the [KeyError] of the labels
    that [df] does not have. *)
Lemma select_spec df cols :
  wf_frame df → NoDup cols →
  match select df cols with
  | Ok df' =>
      cols ⊆ columns df ∧ wf_frame df' ∧ columns df' = cols ∧
      nrows df' = nrows df ∧ ∀ c, c ∈ cols → getitem df' c = getitem df c
  | Raise e =>
      e = KeyError (filter (λ c, c ∉ columns df) cols) ∧ ¬ cols ⊆ columns df
  end.
Proof.
  intros Hwf Hnd. destruct (select df cols) as [df'|e] eqn:E.
  - split_and!; eauto using select_incl, select_wf, select_columns,
      select_nrows, getitem_select.
  - by apply select_KeyError.
Qed.

(** ** The operations on a two-row frame *)

Definition two_rows : DataFrame :=
  mkDF (RangeIndex 2) [("LINK", [Str "L1"; Str "L2"]); ("QTY", [Num 5; Null])].

Lemma loc_spec_witness :
  wf_frame (loc two_rows [false; true]) ∧
  columns (loc two_rows [false; true]) = columns two_rows ∧
  rows (loc two_rows [false; true]) = compress [false; true] (rows two_rows) ∧
  nrows (loc two_rows [false; true]) = mask_count [false; true].
Proof. apply loc_spec; compute_done. Defined.

Lemma setitem_spec_witness :
  wf_frame (setitem two_rows "QTY" [Num 1; Num 2]) ∧
  df_index (setitem two_rows "QTY" [Num 1; Num 2]) = df_index two_rows ∧
  getitem (setitem two_rows "QTY" [Num 1; Num 2]) "QTY" = Ok [Num 1; Num 2] ∧
  ∀ c', "QTY" ≠ c' →
    getitem (setitem two_rows "QTY" [Num 1; Num 2]) c' = getitem two_rows c'.
Proof. apply setitem_spec; compute_done. Defined.

Lemma select_spec_witness :
  match select two_rows ["QTY"; "AREA"] with
  | Ok df' =>
      ["QTY"; "AREA"] ⊆ columns two_rows ∧ wf_frame df' ∧
      columns df' = ["QTY"; "AREA"] ∧ nrows df' = nrows two_rows ∧
      ∀ c, c ∈ ["QTY"; "AREA"] → getitem df' c = getitem two_rows c
  | Raise e =>
      e = KeyError (filter (λ c, c ∉ columns two_rows) ["QTY"; "AREA"]) ∧
      ¬ ["QTY"; "AREA"] ⊆ columns two_rows
  end.
Proof. apply select_spec; compute_done. Defined.
