(* ===== verification/Sorting.v ===== *)
(** * Sorting: the order of cells and the sorts pandas applies

    [groupby] returns its groups in the order of their sorted keys and
    [value_counts] its labels by falling count.  This file holds what both
    need:

    - [isort], a stable insertion sort by a decidable relation, with the
      lemmas that make it a sort (permutation, sortedness, uniqueness of the
      result for an order, stability);
    - [string_le], the order Python puts on [str] (code points, which on
      the UTF-8 bytes of a Rocq string is the byte-wise lexicographic
      order), and [cell_le], the order of cells: numbers by value,
      timestamps by time, text by [string_le], numbers and timestamps
      before text and the missing value last, which is how pandas' sort of
      a mixed object array arranges them;
    - [sort_values], the sort of the distinct keys of a [groupby]: pandas
      compares numbers with timestamps to sort them and raises [TypeError]
      there, so the order [cell_le] gives those two kinds is never
      observed;
    - [count_occ_cell], the number of cells of a column equal to a value. *)

From stdpp Require Import sorting.
From S2P Require Import Prelude Cell.

#[local] Set Warnings "-clear-no-such-hyp".

(** ** Insertion sort *)

Section isort.
Context {A : Type} (R : relation A) `{!RelDecision R}.
Implicit Types (x y : A) (l : list A).

Fixpoint insert_sorted (x : A) (l : list A) : list A :=
  match l with
  | [] => [x]
  | y :: l' => if decide (R x y) then x :: l else y :: insert_sorted x l'
  end.

Definition isort (l : list A) : list A := foldr insert_sorted [] l.

Lemma insert_sorted_Permutation x l : insert_sorted x l ≡ₚ x :: l.
Proof.
  induction l as [|y l IH]; cbn; [done|]. case_decide; [done|].
  by rewrite IH, Permutation_swap.
Qed.

Lemma isort_Permutation l : isort l ≡ₚ l.
Proof.
  induction l as [|x l IH]; cbn; [done|].
  by rewrite insert_sorted_Permutation, IH.
Qed.

Lemma elem_of_isort x l : x ∈ isort l ↔ x ∈ l.
Proof. by rewrite isort_Permutation. Qed.

Lemma isort_length l : length (isort l) = length l.
Proof. by rewrite isort_Permutation. Qed.

Lemma isort_NoDup l : NoDup (isort l) ↔ NoDup l.
Proof. by rewrite isort_Permutation. Qed.

Lemma Forall_isort (P : A → Prop) l : Forall P (isort l) ↔ Forall P l.
Proof. by rewrite isort_Permutation. Qed.

Lemma isort_nil_inv l : isort l = [] → l = [].
Proof.
  intros H. apply Permutation_nil_r. by rewrite <-H, isort_Permutation.
Qed.

Lemma insert_sorted_Sorted `{!Total R} x l :
  Sorted R l → Sorted R (insert_sorted x l).
Proof.
  induction 1 as [|y l Hl IH Hy]; cbn; [by repeat constructor|].
  case_decide as Hxy; [by repeat constructor|].
  constructor; [done|]. destruct (total R x y) as [?|Hyx]; [done|].
  destruct Hy as [|z l' Hz]; cbn; [by constructor|].
  case_decide; by constructor.
Qed.

Lemma isort_Sorted `{!Total R} l : Sorted R (isort l).
Proof.
  induction l; cbn; [constructor | by apply insert_sorted_Sorted].
Qed.

Lemma isort_StronglySorted `{!Transitive R, !Total R} l :
  StronglySorted R (isort l).
Proof. apply Sorted_StronglySorted, isort_Sorted; apply _. Qed.

(** A sort by an order has one result: any sorted permutation of the
    input. *)
Lemma isort_unique `{!Transitive R, !Total R, !AntiSymm (=) R} l l' :
  StronglySorted R l' → l' ≡ₚ l → isort l = l'.
Proof.
  intros Hs Hp. apply (StronglySorted_unique R); [apply isort_StronglySorted|done|].
  by rewrite isort_Permutation.
Qed.

Lemma insert_sorted_hd x l : Forall (R x) l → insert_sorted x l = x :: l.
Proof. destruct 1; cbn; [done|]. by rewrite decide_True. Qed.

Lemma isort_sorted_id l : StronglySorted R l → isort l = l.
Proof.
  induction 1 as [|x l Hl IH Hx]; [done|].
  change (isort (x :: l)) with (insert_sorted x (isort l)).
  by rewrite IH, insert_sorted_hd.
Qed.

(** Stability: a sort does not reorder the elements a predicate selects
    when those are pairwise in relation both ways (the ties). *)
Lemma insert_sorted_filter (P : A → Prop) `{!∀ x, Decision (P x)} x l :
  (∀ y, y ∈ l → P x → P y → R x y) →
  filter P (insert_sorted x l) = filter P (x :: l).
Proof.
  induction l as [|y l IH]; intros Hties; cbn; [done|].
  case_decide as Hxy; [done|].
  rewrite !filter_cons, IH by (intros; apply Hties; [by right|done..]).
  rewrite filter_cons. destruct (decide (P x)), (decide (P y)); try done.
  destruct Hxy. apply Hties; [by left|done..].
Qed.

Lemma isort_stable (P : A → Prop) `{!∀ x, Decision (P x)} l :
  (∀ x y, P x → P y → R x y) → filter P (isort l) = filter P l.
Proof.
  intros Hties. induction l as [|x l IH]; [done|].
  change (isort (x :: l)) with (insert_sorted x (isort l)).
  rewrite insert_sorted_filter by auto. by rewrite !filter_cons, IH.
Qed.
End isort.

(** ** The order of strings *)

Definition string_le (s1 s2 : string) : Prop := String.leb s1 s2 = true.

#[export] Instance string_le_dec : RelDecision string_le.
Proof. intros s1 s2. unfold string_le. apply _. Defined.

Lemma ascii_compare_Lt_trans a b c :
  Ascii.compare a b = Lt → Ascii.compare b c = Lt → Ascii.compare a c = Lt.
Proof. unfold Ascii.compare. rewrite !N.compare_lt_iff. lia. Qed.

Lemma ascii_compare_refl a : Ascii.compare a a = Eq.
Proof. apply N.compare_refl. Qed.

Lemma string_compare_refl s : String.compare s s = Eq.
Proof. induction s; cbn; [done|]. by rewrite ascii_compare_refl. Qed.

Lemma string_compare_Lt_trans s1 s2 s3 :
  String.compare s1 s2 = Lt → String.compare s2 s3 = Lt →
  String.compare s1 s3 = Lt.
Proof.
  revert s2 s3. induction s1 as [|a s1 IH]; intros [|b s2] [|c s3]; cbn; try done.
  destruct (Ascii.compare a b) eqn:Eab; try done;
    destruct (Ascii.compare b c) eqn:Ebc; try done; intros H12 H23.
  - apply Ascii.compare_eq_iff in Eab as ->, Ebc as ->.
    rewrite ascii_compare_refl. eauto.
  - apply Ascii.compare_eq_iff in Eab as ->. by rewrite Ebc.
  - apply Ascii.compare_eq_iff in Ebc as <-. by rewrite Eab.
  - by rewrite (ascii_compare_Lt_trans a b c).
Qed.

#[export] Instance string_le_refl : Reflexive string_le.
Proof. intros s. unfold string_le, String.leb. by rewrite string_compare_refl. Qed.

#[export] Instance string_le_trans : Transitive string_le.
Proof.
  intros s1 s2 s3. unfold string_le, String.leb.
  destruct (String.compare s1 s2) eqn:E12; try done;
    destruct (String.compare s2 s3) eqn:E23; try done; intros _ _.
  - apply String.compare_eq_iff in E12 as ->. by rewrite E23.
  - apply String.compare_eq_iff in E12 as ->. by rewrite E23.
  - apply String.compare_eq_iff in E23 as <-. by rewrite E12.
  - by rewrite (string_compare_Lt_trans s1 s2 s3).
Qed.

#[export] Instance string_le_total : Total string_le.
Proof. intros s1 s2. apply String.leb_total. Qed.

#[export] Instance string_le_antisym : AntiSymm (=) string_le.
Proof. intros s1 s2. apply String.leb_antisym. Qed.

(** ** The order of cells *)

(** The block a cell falls in when pandas sorts an object array. *)
Definition cell_rank (c : cell) : Z :=
  match c with Num _ => 0 | Date _ => 1 | Str _ => 2 | Null => 3 end.

Definition cell_le (a b : cell) : Prop :=
  match a, b with
  | Num x, Num y => (x ≤ y)%Z
  | Date x, Date y => (x ≤ y)%Z
  | Str x, Str y => string_le x y
  | _, _ => (cell_rank a ≤ cell_rank b)%Z
  end.

#[export] Instance cell_le_dec : RelDecision cell_le.
Proof. intros [] []; cbn; apply _. Defined.

#[export] Instance cell_le_refl : Reflexive cell_le.
Proof. intros []; cbn; done. Qed.

#[export] Instance cell_le_trans : Transitive cell_le.
Proof.
  intros [] [] []; cbn; try done; try lia. apply string_le_trans.
Qed.

#[export] Instance cell_le_total : Total cell_le.
Proof. intros [] []; cbn; try lia. apply string_le_total. Qed.

#[export] Instance cell_le_antisym : AntiSymm (=) cell_le.
Proof.
  intros [] []; cbn; try done; try lia.
  - intros. f_equal. lia.
  - intros. f_equal. by apply string_le_antisym.
  - intros. f_equal. lia.
Qed.

(** A list pandas can sort: it does not hold both a number and a
    timestamp. *)
Definition is_num (c : cell) : bool := match c with Num _ => true | _ => false end.
Definition is_date (c : cell) : bool := match c with Date _ => true | _ => false end.

Definition sortable (l : list cell) : bool :=
  negb (existsb is_num l && existsb is_date l).

(** The sorted keys, or the [TypeError] of comparing a number with a
    timestamp. *)
Definition sort_values (l : list cell) : res (list cell) :=
  if sortable l then Ok (isort cell_le l) else Raise TypeError.

(** The number of cells of [s] that are [v]. *)
Definition count_occ_cell (v : cell) (s : list cell) : nat :=
  length (filter (λ c, c = v) s).

Section sort_values.
Implicit Types (c v : cell) (l s : list cell).

Lemma sort_values_Ok l l' :
  sort_values l = Ok l' ↔ sortable l = true ∧ l' = isort cell_le l.
Proof. unfold sort_values. destruct (sortable l); naive_solver. Qed.

Lemma sort_values_Raise l e :
  sort_values l = Raise e ↔ sortable l = false ∧ e = TypeError.
Proof. unfold sort_values. destruct (sortable l); naive_solver. Qed.

Lemma sort_values_Permutation l l' : sort_values l = Ok l' → l' ≡ₚ l.
Proof. intros [_ ->]%sort_values_Ok. apply isort_Permutation. Qed.

Lemma sort_values_sorted l l' :
  sort_values l = Ok l' → StronglySorted cell_le l'.
Proof. intros [_ ->]%sort_values_Ok. apply isort_StronglySorted; apply _. Qed.

Lemma sortable_text l :
  Forall (λ c, is_num c = false) l → sortable l = true.
Proof.
  intros H. unfold sortable.
  replace (existsb is_num l) with false; [done|]. symmetry.
  induction H as [|c l Hc _ IH]; cbn; [done|]. by rewrite Hc.
Qed.

Lemma count_occ_cell_nil v : count_occ_cell v [] = 0.
Proof. done. Qed.

Lemma count_occ_cell_cons v c s :
  count_occ_cell v (c :: s)
  = (if decide (c = v) then 1 else 0) + count_occ_cell v s.
Proof. unfold count_occ_cell. rewrite filter_cons. by case_decide. Qed.

Lemma count_occ_cell_pos v s : 0 < count_occ_cell v s ↔ v ∈ s.
Proof.
  induction s as [|c s IH]; [rewrite elem_of_nil; cbn; lia|].
  rewrite count_occ_cell_cons, elem_of_cons. case_decide; naive_solver lia.
Qed.

Lemma count_occ_cell_mask v s :
  v ≠ Null → count_occ_cell v s = mask_count ((λ c, cell_eq c v) <$> s).
Proof.
  intros Hv. induction s as [|c s IH]; [done|].
  rewrite count_occ_cell_cons, fmap_cons, mask_count_cons, IH.
  destruct (cell_eq c v) eqn:E.
  - apply cell_eq_true in E as [-> _]. by rewrite decide_True.
  - apply cell_eq_false in E. rewrite decide_False; naive_solver.
Qed.
End sort_values.
