(* ===== verification/Float.v ===== *)
(** * Float: the binary64 numbers of the two percentages

    The percentages of lines 72 and 73 are computed in IEEE 754 binary64:
    an integer is converted to a double, two doubles are divided, the
    quotient is multiplied by 100.0, each step rounded to nearest, ties to
    even.  The operations are those of the specification of binary
    floating-point numbers that comes with Rocq ([SpecFloat]), at
    precision 53 and maximal exponent 1024; nothing is assumed of them.

    [round_even] is the rounding of a non-negative fraction to the nearest
    integer, ties to even; it is what the conversion of a double to a
    decimal string with a fixed number of places applies to the exact
    value of the double.  [tenths] is a number in tenths, so rounded.

    The last two sections say when a result is not a number: rounding
    never makes a NaN ([binary_round_aux_not_nan]), so a quotient or a
    product is NaN only for 0/0, inf/inf, 0 * inf or a NaN operand
    ([fdiv_not_nan], [fmul_not_nan]); and an integer below [2^53] in
    magnitude converts to a finite double that has its value
    ([float_of_Z_exact]). *)

From Stdlib Require Import SpecFloat.
From S2P Require Import Prelude.

#[local] Set Warnings "-clear-no-such-hyp".
#[local] Open Scope Z_scope.

Definition prec : Z := 53.
Definition emax : Z := 1024.

#[export] Instance spec_float_eq_dec : EqDecision spec_float.
Proof. solve_decision. Defined.

(** [float(z)] for a Python or numpy integer. *)
Definition float_of_Z (z : Z) : spec_float :=
  binary_normalize prec emax z 0 false.

Definition fdiv (x y : spec_float) : spec_float := SFdiv prec emax x y.

Definition fmul (x y : spec_float) : spec_float := SFmul prec emax x y.

(** [num / den] rounded to the nearest integer, ties to even, for
    [0 ≤ num] and [0 < den]. *)
Definition round_even (num den : Z) : Z :=
  let q := num / den in
  match 2 * (num mod den) ?= den with
  | Lt => q
  | Gt => q + 1
  | Eq => if Z.even q then q else q + 1
  end.

(** The magnitude [m * 2^e] of a finite double in tenths, rounded. *)
Definition tenths (m : positive) (e : Z) : Z :=
  if decide (0 ≤ e) then Z.pos m * 2 ^ e * 10
  else round_even (Z.pos m * 10) (2 ^ (- e)).

(** [x / y * 100] on integers, as numpy and Python compute it. *)
Definition percent (x y : Z) : spec_float :=
  fmul (fdiv (float_of_Z x) (float_of_Z y)) (float_of_Z 100).

(** [math.isnan] and [math.isfinite] (for a double that is not zero). *)
Definition is_nan (x : spec_float) : bool :=
  match x with S754_nan => true | _ => false end.

Definition is_finite (x : spec_float) : bool :=
  match x with S754_finite _ _ _ => true | _ => false end.

Section round_even.
Implicit Types (num den q : Z).

(** [round_even] is within half a unit of the fraction. *)
Lemma round_even_bounds num den :
  0 < den →
  2 * num - den ≤ 2 * den * round_even num den ≤ 2 * num + den.
Proof.
  intros Hden. unfold round_even.
  pose proof (Z.div_mod num den ltac:(lia)) as Hdm.
  pose proof (Z.mod_pos_bound num den Hden) as Hr.
  destruct (Z.compare_spec (2 * (num mod den)) den); [destruct (Z.even _)|..]; nia.
Qed.

Lemma round_even_nonneg num den : 0 ≤ num → 0 < den → 0 ≤ round_even num den.
Proof.
  intros Hnum Hden. unfold round_even.
  pose proof (Z.div_pos num den Hnum Hden).
  destruct (_ ?= _); [destruct (Z.even _)|..]; lia.
Qed.

Lemma round_even_cases num den :
  round_even num den = num / den ∨ round_even num den = num / den + 1.
Proof. unfold round_even. destruct (_ ?= _); [destruct (Z.even _)|..]; auto. Qed.

(** A multiple of the denominator is not rounded. *)
Lemma round_even_exact q den : 0 < den → round_even (q * den) den = q.
Proof.
  intros Hden. unfold round_even.
  rewrite Z.mod_mul, Z.div_mul by lia. cbn.
  by destruct den.
Qed.

Lemma round_even_mono num1 num2 den :
  0 < den → num1 ≤ num2 → round_even num1 den ≤ round_even num2 den.
Proof.
  intros Hden Hle.
  destruct (decide (num1 / den = num2 / den)) as [Heq|Hne].
  - unfold round_even. rewrite <-Heq.
    pose proof (Z.div_mod num1 den ltac:(lia)).
    pose proof (Z.div_mod num2 den ltac:(lia)).
    assert (num1 mod den ≤ num2 mod den) by nia.
    destruct (Z.even (num1 / den));
      destruct (Z.compare_spec (2 * (num1 mod den)) den);
      destruct (Z.compare_spec (2 * (num2 mod den)) den); lia.
  - assert (num1 / den < num2 / den).
    { pose proof (Z.div_le_mono num1 num2 den Hden Hle). lia. }
    destruct (round_even_cases num1 den), (round_even_cases num2 den); lia.
Qed.
End round_even.

Section floats.

Lemma float_of_Z_0 : float_of_Z 0 = S754_zero false.
Proof. done. Qed.

Lemma float_of_Z_100 : float_of_Z 100 = S754_finite false 7036874417766400 (-46).
Proof. vm_compute. reflexivity. Qed.

(** Nothing over nothing is not a number. *)
Lemma percent_0_0 : percent 0 0 = S754_nan.
Proof. vm_compute. reflexivity. Qed.

Lemma fmul_nan_l y : fmul S754_nan y = S754_nan.
Proof. done. Qed.

Lemma tenths_nonneg m e : 0 ≤ tenths m e.
Proof.
  unfold tenths. case_decide.
  - apply Z.mul_nonneg_nonneg; [apply Z.mul_nonneg_nonneg|]; lia.
  - apply round_even_nonneg; [lia|]. apply Z.pow_pos_nonneg; lia.
Qed.
End floats.

(** ** Rounding never makes a NaN *)

Section rounding.
Implicit Types (m e : Z) (p : positive) (mrs : shr_record) (l : location).

Lemma iter_pos_invariant {A} (P : A → Prop) (f : A → A) p x :
  (∀ y, P y → P (f y)) → P x → P (SpecFloat.iter_pos f p x).
Proof. intros Hf. revert x. induction p; cbn; auto. Qed.

Lemma shr_1_nonneg mrs : 0 ≤ shr_m mrs → 0 ≤ shr_m (shr_1 mrs).
Proof. destruct mrs as [[|[]|[]] r s]; cbn; lia. Qed.

Lemma shr_nonneg mrs e n : 0 ≤ shr_m mrs → 0 ≤ shr_m (shr mrs e n).1.
Proof.
  intros H. destruct n; cbn; try done.
  by apply (iter_pos_invariant (λ mrs, 0 ≤ shr_m mrs)), H; apply shr_1_nonneg.
Qed.

Lemma shr_fexp_nonneg m e l : 0 ≤ m → 0 ≤ shr_m (shr_fexp prec emax m e l).1.
Proof. intros H. apply shr_nonneg. by destruct l as [|[]]. Qed.

Lemma round_nearest_even_nonneg m l : 0 ≤ m → 0 ≤ round_nearest_even m l.
Proof. intros H. destruct l as [|[]]; cbn; try lia. destruct (Z.even m); lia. Qed.

Lemma binary_round_aux_not_nan sx m e l :
  0 ≤ m → is_nan (binary_round_aux prec emax sx m e l) = false.
Proof.
  intros H. unfold binary_round_aux.
  pose proof (shr_fexp_nonneg m e l H) as H1.
  destruct (shr_fexp prec emax m e l) as [mrs' e']. cbn [fst] in H1.
  pose proof (shr_fexp_nonneg _ e' loc_Exact
    (round_nearest_even_nonneg _ (loc_of_shr_record mrs') H1)) as H2.
  destruct (shr_fexp prec emax _ e' loc_Exact) as [mrs'' e'']. cbn [fst] in H2.
  destruct (shr_m mrs''); [done| by case_match | lia].
Qed.
End rounding.

Section classes.
Implicit Types (x y : spec_float) (z : Z) (p : positive).

Lemma float_of_Z_not_nan z : is_nan (float_of_Z z) = false.
Proof.
  destruct z as [|p|p]; [done|..]; unfold float_of_Z; cbn [binary_normalize];
    unfold binary_round; destruct (shl_align _ _ _);
    by apply binary_round_aux_not_nan.
Qed.

Lemma SFdiv_core_binary_nonneg m1 e1 m2 e2 :
  0 ≤ m1 → 0 < m2 → 0 ≤ (SFdiv_core_binary prec emax m1 e1 m2 e2).1.1.
Proof.
  intros H1 H2. unfold SFdiv_core_binary.
  set (s := _ - _ - _). set (m' := match s with 0 => _ | _ => _ end).
  assert (0 ≤ m') as Hm'.
  { unfold m'. destruct s; [done| |done]. by apply Z.shiftl_nonneg. }
  pose proof (Z_div_mod m' m2 ltac:(lia)) as Hdm.
  destruct (Z.div_eucl m' m2) as [q r]. cbn. nia.
Qed.

(** A quotient is not a number only for 0/0, inf/inf and a NaN operand. *)
Lemma fdiv_not_nan x y :
  is_nan x = false → is_finite y = true → is_nan (fdiv x y) = false.
Proof.
  destruct x as [sx|sx| |sx mx ex], y as [sy|sy| |sy my ey]; try done.
  intros _ _. unfold fdiv, SFdiv.
  pose proof (SFdiv_core_binary_nonneg (Z.pos mx) ex (Z.pos my) ey) as H.
  destruct (SFdiv_core_binary _ _ _ _ _ _) as [[mz ez] lz].
  apply binary_round_aux_not_nan, H; lia.
Qed.

Lemma fmul_not_nan x y :
  is_nan x = false → is_finite y = true → is_nan (fmul x y) = false.
Proof.
  destruct x as [sx|sx| |sx mx ex], y as [sy|sy| |sy my ey]; try done.
  intros _ _. by apply binary_round_aux_not_nan.
Qed.
End classes.

(** ** Integers below [2^53] convert exactly *)

Section exact.
Implicit Types (z e : Z) (p q : positive) (s : bool).

Lemma digits2_pos_bounds p :
  2 ^ (Z.pos (digits2_pos p) - 1) ≤ Z.pos p < 2 ^ Z.pos (digits2_pos p).
Proof.
  induction p as [p IH|p IH|]; cbn [digits2_pos]; [| |done];
    rewrite Pos2Z.inj_succ, Z.pow_succ_r by lia;
    replace (Z.succ (Z.pos (digits2_pos p)) - 1)
      with (Z.succ (Z.pos (digits2_pos p) - 1)) by lia;
    rewrite Z.pow_succ_r by lia; lia.
Qed.

Lemma digits2_pos_le p n : Z.pos p < 2 ^ n → Z.pos (digits2_pos p) ≤ n.
Proof.
  intros H. pose proof (digits2_pos_bounds p) as [Hlo _].
  destruct (decide (Z.pos (digits2_pos p) ≤ n)) as [|Hn]; [done|].
  assert (2 ^ n ≤ 2 ^ (Z.pos (digits2_pos p) - 1)); [|lia].
  destruct (decide (0 ≤ n)); [apply Z.pow_le_mono_r; lia|].
  rewrite (Z.pow_neg_r 2 n) by lia. apply Z.pow_nonneg. lia.
Qed.

Lemma iter_xO_value p q : Z.pos (Pos.iter xO p q) = Z.pos p * 2 ^ Z.pos q.
Proof.
  induction q as [|q IH] using Pos.peano_ind; [cbn; lia|].
  rewrite Pos.iter_succ, Pos2Z.inj_xO, IH, Pos2Z.inj_succ, Z.pow_succ_r by lia. lia.
Qed.

Lemma digits2_pos_iter_xO p q :
  Z.pos (digits2_pos (Pos.iter xO p q)) = Z.pos (digits2_pos p) + Z.pos q.
Proof.
  induction q as [|q IH] using Pos.peano_ind; [cbn; lia|].
  rewrite Pos.iter_succ. cbn [digits2_pos]. lia.
Qed.

(** A mantissa that has the exponent of its format is not rounded. *)
Lemma binary_round_aux_canonical s p e :
  fexp prec emax (Z.pos (digits2_pos p) + e) = e → e ≤ emax - prec →
  binary_round_aux prec emax s (Z.pos p) e loc_Exact = S754_finite s p e.
Proof.
  intros Hc He. unfold binary_round_aux, shr_fexp.
  cbn [Zdigits2 shr_record_of_loc]. rewrite Hc, Z.sub_diag.
  cbn [shr shr_m loc_of_shr_record round_nearest_even Zdigits2 shr_record_of_loc].
  rewrite Hc, Z.sub_diag. cbn [shr shr_m].
  by rewrite (proj2 (Z.leb_le _ _) He).
Qed.

Lemma binary_round_exact s p :
  Z.pos p < 2 ^ prec →
  ∃ m e, binary_round prec emax s p 0 = S754_finite s m e ∧
         e ≤ 0 ∧ Z.pos m = Z.pos p * 2 ^ (- e).
Proof.
  intros Hp. apply digits2_pos_le in Hp. unfold binary_round, shl_align.
  set (d := Z.pos (digits2_pos p)) in *.
  assert (fexp prec emax (d + 0) = d - prec) as ->.
  { unfold fexp, SpecFloat.emin, prec, emax in *. lia. }
  rewrite Z.sub_0_r.
  destruct (d - prec) as [|k|k] eqn:Hk; [|unfold prec in *; lia|].
  - exists p, 0. rewrite binary_round_aux_canonical; [split; [done|lia]|..].
    + fold d. unfold fexp, SpecFloat.emin, prec, emax in *. lia.
    + unfold emax, prec; lia.
  - exists (Pos.iter xO p k), (Z.neg k).
    rewrite binary_round_aux_canonical; [|..].
    + split; [done|]. split; [lia|]. by rewrite iter_xO_value.
    + rewrite digits2_pos_iter_xO. fold d.
      unfold fexp, SpecFloat.emin, prec, emax in *. lia.
    + unfold emax, prec; lia.
Qed.

(** [float(z)] has the value [z]: its mantissa is [|z|] shifted left by
    the opposite of its exponent. *)
Lemma float_of_Z_exact z :
  z ≠ 0 → Z.abs z < 2 ^ prec →
  ∃ m e, float_of_Z z = S754_finite (bool_decide (z < 0)) m e ∧
         e ≤ 0 ∧ Z.pos m = Z.abs z * 2 ^ (- e).
Proof.
  intros Hz Hb. destruct z as [|p|p]; [done|..]; by apply binary_round_exact.
Qed.

Lemma float_of_Z_finite z :
  z ≠ 0 → Z.abs z < 2 ^ prec → is_finite (float_of_Z z) = true.
Proof.
  intros Hz Hb. by destruct (float_of_Z_exact z Hz Hb) as (m & e & -> & _).
Qed.

(** A percentage of integers is a number unless the denominator is 0 or
    too large to convert. *)
Lemma percent_not_nan x y :
  y ≠ 0 → Z.abs y < 2 ^ prec → is_nan (percent x y) = false.
Proof.
  intros Hy Hb. unfold percent.
  apply fmul_not_nan; [|done].
  apply fdiv_not_nan; [apply float_of_Z_not_nan | by apply float_of_Z_finite].
Qed.
End exact.
