(* ===== verification/Format.v ===== *)
(** * Format: the strings of the metric cards (lines 76-79)

    [format_int] is the f-string [f"{int(x):,}"]: the decimal digits of an
    integer in groups of three separated by commas, a minus sign first for
    a negative one.  [format_1f] is [f"{x:.1f}"] on a double: the exact
    value of the double rounded to one decimal place, ties to even, which
    is what Python's conversion does; [nan], [inf] and the sign of a zero
    are printed as Python prints them.

    The digits of a number are computed least significant first by
    [rdigits] with fuel: one more than the binary logarithm of the number,
    which is at least its number of decimal digits ([rdigits_value]).
    [parse_int] reads a string of [format_int] back; it models no code
    and serves as the reference for the round trip
    [parse_int_format_int], which holds for every integer. *)

From Stdlib Require Import SpecFloat Ascii.
From S2P Require Import Prelude Float.

#[local] Set Warnings "-clear-no-such-hyp".
#[local] Open Scope Z_scope.

(** The decimal digits of [n ≥ 0], least significant first. *)
Fixpoint rdigits (fuel : nat) (n : Z) : list Z :=
  match fuel with
  | O => []
  | S fuel => n mod 10 :: (if decide (n < 10) then [] else rdigits fuel (n / 10))
  end.

Definition digits_fuel (n : Z) : nat := S (Z.to_nat (Z.log2 n)).

(** The number a list of digits, least significant first, stands for. *)
Definition rvalue (ds : list Z) : Z := foldr (λ d a, d + 10 * a) 0 ds.

Definition digit_char (d : Z) : ascii := ascii_of_N (Z.to_N (48 + d)).

Definition digit_val (c : ascii) : option Z :=
  let n := Z.of_N (N_of_ascii c) in
  if decide (48 ≤ n ≤ 57) then Some (n - 48) else None.

(** The characters of [str(n)] for [n ≥ 0], last character first. *)
Definition rstr_nat (n : Z) : list ascii :=
  digit_char <$> rdigits (digits_fuel n) n.

Definition str_nat (n : Z) : list ascii := reverse (rstr_nat n).

(** A comma after every third character that has a successor, on a list
    given last character first. *)
Fixpoint group3 (l : list ascii) : list ascii :=
  match l with
  | a :: l1 =>
      match l1 with
      | b :: l2 =>
          match l2 with
          | c :: rest =>
              match rest with
              | [] => l
              | _ :: _ => a :: b :: c :: ","%char :: group3 rest
              end
          | [] => l
          end
      | [] => l
      end
  | [] => l
  end.

Definition sign_chars (negative : bool) : list ascii :=
  if negative then ["-"%char] else [].

(** [f"{z:,}"]. *)
Definition format_int (z : Z) : string :=
  String.string_of_list_ascii
    (sign_chars (bool_decide (z < 0)) ++ reverse (group3 (rstr_nat (Z.abs z)))).

(** [f"{x:.1f}"]. *)
Definition format_1f (x : spec_float) : string :=
  String.string_of_list_ascii
    match x with
    | S754_nan => String.list_ascii_of_string "nan"
    | S754_infinity s => sign_chars s ++ String.list_ascii_of_string "inf"
    | S754_zero s => sign_chars s ++ String.list_ascii_of_string "0.0"
    | S754_finite s m e =>
        let t := tenths m e in
        sign_chars s ++ str_nat (t / 10) ++ "."%char :: str_nat (t mod 10)
    end.

(** Reading back: the digits of a string, and [int(s.replace(",", ""))]. *)
Definition parse_nat (cs : list ascii) : option Z :=
  match cs with
  | [] => None
  | _ => rvalue <$> mapM digit_val (reverse cs)
  end.

Definition parse_int (s : string) : option Z :=
  match filter (λ c, c ≠ ","%char) (String.list_ascii_of_string s) with
  | c :: cs => if decide (c = "-"%char) then Z.opp <$> parse_nat cs
               else parse_nat (c :: cs)
  | [] => None
  end.

(** ** Digits *)

Section digits.
Implicit Types (n d : Z) (fuel : nat) (ds : list Z).

Lemma rdigits_range fuel n : 0 ≤ n → Forall (λ d, 0 ≤ d < 10) (rdigits fuel n).
Proof.
  revert n; induction fuel as [|fuel IH]; intros n Hn; cbn; [constructor|].
  constructor; [apply Z.mod_pos_bound; lia|].
  case_decide; [constructor|]. apply IH, Z.div_pos; lia.
Qed.

(** With enough fuel the digits stand for the number. *)
Lemma rdigits_value_fuel fuel n :
  0 ≤ n < 10 ^ Z.of_nat fuel → rvalue (rdigits fuel n) = n.
Proof.
  revert n; induction fuel as [|fuel IH]; intros n Hn; [cbn in *; lia|].
  cbn [rdigits]. unfold rvalue; cbn [foldr]; fold (rvalue).
  case_decide as H10.
  - cbn. rewrite Z.mod_small by lia. lia.
  - change (foldr _ 0 ?l) with (rvalue l). rewrite IH.
    + pose proof (Z.div_mod n 10). lia.
    + rewrite Nat2Z.inj_succ, Z.pow_succ_r in Hn by lia.
      split; [apply Z.div_pos; lia | apply Z.div_lt_upper_bound; lia].
Qed.

Lemma digits_fuel_enough n : 0 ≤ n → n < 10 ^ Z.of_nat (digits_fuel n).
Proof.
  intros Hn. unfold digits_fuel.
  rewrite Nat2Z.inj_succ, Z2Nat.id by apply Z.log2_nonneg.
  destruct (decide (n = 0)) as [->|]; [done|].
  pose proof (Z.log2_spec n ltac:(lia)) as [_ Hlt].
  eapply Z.lt_le_trans; [exact Hlt|].
  apply Z.pow_le_mono_l. lia.
Qed.

Lemma rdigits_value n : 0 ≤ n → rvalue (rdigits (digits_fuel n) n) = n.
Proof.
  intros Hn. apply rdigits_value_fuel. split; [done|]. by apply digits_fuel_enough.
Qed.

Lemma rdigits_nonempty n : rdigits (digits_fuel n) n ≠ [].
Proof. done. Qed.

Lemma digit_val_char d : 0 ≤ d < 10 → digit_val (digit_char d) = Some d.
Proof.
  intros Hd. unfold digit_val, digit_char.
  rewrite N_ascii_embedding by lia. rewrite Z2N.id by lia.
  rewrite decide_True by lia. f_equal. lia.
Qed.

Lemma digit_char_not_comma d : 0 ≤ d < 10 → digit_char d ≠ ","%char.
Proof.
  intros Hd E. apply (f_equal digit_val) in E.
  by rewrite digit_val_char in E.
Qed.

Lemma digit_char_not_minus d : 0 ≤ d < 10 → digit_char d ≠ "-"%char.
Proof.
  intros Hd E. apply (f_equal digit_val) in E.
  by rewrite digit_val_char in E.
Qed.

Lemma parse_nat_rstr n : 0 ≤ n → parse_nat (reverse (rstr_nat n)) = Some n.
Proof.
  intros Hn. unfold parse_nat, rstr_nat.
  destruct (reverse _) eqn:E.
  { apply (f_equal length) in E. rewrite length_reverse, length_fmap in E.
    by destruct (rdigits _ _) eqn:E'. }
  rewrite <-E, reverse_involutive.
  rewrite mapM_fmap_Forall_Some.
  - change (Some (rvalue (rdigits (digits_fuel n) n)) = Some n).
    by rewrite rdigits_value.
  - eapply Forall_impl; [by apply rdigits_range|]. apply digit_val_char.
Qed.
End digits.

(** ** Round trips *)

Section roundtrip.
Implicit Types (z n : Z) (l : list ascii).

Lemma group3_cons4 a b c d l :
  group3 (a :: b :: c :: d :: l) = a :: b :: c :: ","%char :: group3 (d :: l).
Proof. done. Qed.

(** Removing the commas undoes the grouping. *)
Lemma group3_filter l :
  Forall (λ c, c ≠ ","%char) l →
  filter (λ c, c ≠ ","%char) (group3 l) = l.
Proof.
  induction l as [l IH] using (induction_ltof1 _ length).
  unfold ltof in IH. intros H.
  destruct l as [|a [|b [|c [|d rest]]]]; try by apply filter_all.
  rewrite group3_cons4. repeat (apply Forall_cons in H as [? H]).
  rewrite !filter_cons_True, filter_cons_False by naive_solver.
  do 3 f_equal. apply IH; [cbn; lia|by constructor].
Qed.

Lemma rstr_nat_digits n :
  0 ≤ n → Forall (λ c, c ≠ ","%char ∧ c ≠ "-"%char) (rstr_nat n).
Proof.
  intros Hn. apply Forall_fmap. eapply Forall_impl; [by apply rdigits_range|].
  intros d Hd. split; [by apply digit_char_not_comma | by apply digit_char_not_minus].
Qed.

Lemma rstr_nat_cons n : ∃ c l, reverse (rstr_nat n) = c :: l.
Proof.
  destruct (reverse (rstr_nat n)) as [|c l] eqn:E; [|by eauto].
  apply (f_equal length) in E. by rewrite length_reverse in E.
Qed.

(** C19.  A formatted integer reads back as the integer: the digits are
    those of the number (the fuel of [rdigits] is enough for every
    integer), the sign is kept and the commas change nothing else. *)
Theorem parse_int_format_int z : parse_int (format_int z) = Some z.
Proof.
  unfold parse_int, format_int.
  rewrite String.list_ascii_of_string_of_list_ascii, filter_app, filter_reverse.
  pose proof (rstr_nat_digits (Z.abs z) ltac:(lia)) as Hd.
  rewrite group3_filter by (eapply Forall_impl; [done|]; naive_solver).
  pose proof (parse_nat_rstr (Z.abs z) ltac:(lia)) as Hp.
  destruct (rstr_nat_cons (Z.abs z)) as (c & l & E). rewrite E in *.
  case_bool_decide as Hz; cbn [sign_chars].
  - rewrite filter_cons_True, filter_nil by done. cbn [app].
    rewrite decide_True, Hp by done. cbn. f_equal. lia.
  - rewrite filter_nil. cbn [app]. assert (c ≠ "-"%char) as Hc.
    { assert (c ∈ rstr_nat (Z.abs z)) as Hin.
      { apply elem_of_reverse. rewrite E. left. }
      by apply (proj1 (Forall_forall _ _) Hd) in Hin as [_ ?]. }
    rewrite decide_False by done. rewrite Hp. f_equal. lia.
Qed.

(** Appending a suffix is injective. *)
Lemma list_ascii_of_string_app (s1 s2 : string) :
  String.list_ascii_of_string (s1 +:+ s2)
  = String.list_ascii_of_string s1 ++ String.list_ascii_of_string s2.
Proof. induction s1 as [|c s1 IH]; [done|]. simpl. by rewrite IH. Qed.

Lemma string_app_inj_r (s s1 s2 : string) : s1 +:+ s = s2 +:+ s → s1 = s2.
Proof.
  intros H. apply (f_equal String.list_ascii_of_string) in H.
  rewrite !list_ascii_of_string_app in H. apply app_inv_tail in H.
  by rewrite <-(String.string_of_list_ascii_of_string s1), H,
    String.string_of_list_ascii_of_string.
Qed.

(** Only [nan] is printed as nan. *)
Lemma format_1f_nan x : format_1f x = "nan" ↔ x = S754_nan.
Proof.
  split; [|by intros ->]. unfold format_1f. intros H.
  apply (f_equal String.list_ascii_of_string) in H.
  rewrite String.list_ascii_of_string_of_list_ascii in H.
  destruct x as [[]|[]| |s m e]; try done. exfalso.
  assert (Hin : "."%char ∈ String.list_ascii_of_string "nan").
  { rewrite <-H, !elem_of_app, elem_of_cons. auto. }
  cbn in Hin. rewrite !elem_of_cons, elem_of_nil in Hin. naive_solver.
Qed.
End roundtrip.
