(* ===== verification/Scenario.v ===== *)
(** * Scenario: a small extract on which the theorems are exercised

    Three frames shaped like the three sheets, small enough to evaluate:
    a date index with three links (two routes in June and one row whose
    route is missing), orders for them (one with a missing area and one
    with a gap in a quantity), and the despatch rows.  The order and
    despatch quantities of link L1 for "BI White" are the [10; 20] and
    [8; 19] of the design document's example.  Nothing here models code:
    these are inputs. *)

From stdpp Require Import gmap.
From S2P Require Import Prelude Cell Frame.

(** 1 June 2025 is day 20240 of the epoch. *)
Definition june (day : Z) : cell := Timestamp_of_date (20239 + day).

Definition scn_index : DataFrame :=
  mkDF (RangeIndex 3)
    [("DATE", [june 1; june 1; june 2]);
     ("MONTH", [Str "June"; Str "June"; Str "June"]);
     ("ROUTE", [Str "R1"; Str "R2"; Null]);
     ("LINK", [Str "L1"; Str "L2"; Str "L3"])].

Definition scn_orders : DataFrame :=
  mkDF (RangeIndex 4)
    [("LINK", [Str "L1"; Str "L1"; Str "L2"; Str "L1"]);
     ("AREA", [Str "AreaX"; Str "AreaY"; Str "AreaY"; Null]);
     ("DATE", [june 1; june 1; june 1; june 1]);
     ("BI White", [Num 10; Num 20; Num 7; Num 3]);
     ("BI Brown", [Num 1; Null; Num 2; Num 0]);
     ("BI Whole Wheat", [Num 0; Num 0; Num 0; Num 0]);
     ("Mr Chingwa", [Num 4; Num 0; Num 0; Num 0]);
     ("Mrs Chingwa", [Num 0; Num 0; Num 1; Num 0]);
     ("Dr Chingwa", [Num 0; Num 5; Num 0; Num 0]);
     ("MUNCHIE COOKIES 150G", [Num 6; Num 0; Num 0; Num 0]);
     ("MUNCHIE COOKIES 1KG", [Num 0; Num 0; Num 0; Num 0]);
     ("MUNCHIE COOKIES 2KG", [Num 0; Num 2; Num 0; Num 0])]%Z.

Definition scn_despatch : DataFrame :=
  mkDF (RangeIndex 3)
    [("LINK", [Str "L1"; Str "L1"; Str "L2"]);
     ("DATE", [june 1; june 1; june 1]);
     ("BI White", [Num 8; Num 19; Num 7]);
     ("BI Brown", [Num 1; Num 0; Num 2]);
     ("BI Whole Wheat", [Num 0; Num 0; Num 0]);
     ("Mr Chingwa", [Num 4; Num 0; Num 0]);
     ("Mrs Chingwa", [Num 0; Num 0; Num 1]);
     ("Dr Chingwa", [Num 0; Num 4; Num 0]);
     ("MUNCHIE COOKIES 150G", [Num 6; Num 0; Num 0]);
     ("MUNCHIE COOKIES 1KG", [Num 0; Num 0; Num 0]);
     ("MUNCHIE COOKIES 2KG", [Num 0; Num 1; Num 0]);
     ("DEPARTURE COMPLIANCE STATUS", [Str "On-time"; Str "Late"; Str "On-time"]);
     ("LOADING COMPLIANCE STATUS",
      [Str "Compliant"; Str "Non-compliant"; Str "Compliant"])]%Z.

(** The three workbooks on disk. *)
Definition scn_files : gmap string (gmap string DataFrame) :=
  {[ "JUNE 2025 ORDERS CONSOLIDATED.xlsx" := {[ "Orders" := scn_orders ]};
     "2025 June Superlinx Daily Despatch Tracker.xlsx" :=
       {[ "Template" := scn_despatch ]};
     "DATE INDEX.xlsx" := {[ "Sheet2" := scn_index ]} ]}.

Lemma scn_index_wf : wf_frame scn_index.
Proof. compute_done. Qed.

Lemma scn_orders_wf : wf_frame scn_orders.
Proof. compute_done. Qed.

Lemma scn_despatch_wf : wf_frame scn_despatch.
Proof. compute_done. Qed.
