(* ===== verification/Loader.v ===== *)
(** * Loader: reading the three extracts and coercing dates (lines 29-36)

    The file system is a finite map from path to workbook, a workbook a
    finite map from sheet name to the frame [read_excel] makes of that
    sheet.  [read_excel] raises [FileNotFoundError] for an absent path and
    [ValueError] for an absent sheet; a file that is there but cannot be
    parsed as a workbook is not modelled.

    [to_datetime] is [pd.to_datetime(..., errors='coerce')] on a column:
    a timestamp stays, a number is a count of nanoseconds since the epoch,
    a text is parsed, and whatever does not make a timestamp in the int64
    range becomes the missing value.  How a text is parsed is not defined
    here: [parse_date] is a parameter of the section.  [clean] is the body
    of the loop of lines 34-36 and [load] lines 29-36 in order. *)

From stdpp Require Import gmap.
From S2P Require Import Prelude Cell Frame Scenario.

#[local] Set Warnings "-clear-no-such-hyp".

Definition workbook : Type := gmap string DataFrame.

(** Lines 29-31: one call. *)
Definition read_excel (fs : gmap string workbook) (path sheet_name : string) :
    res DataFrame :=
  match fs !! path with
  | None => Raise (FileNotFoundError path)
  | Some wb =>
      match wb !! sheet_name with
      | None => Raise (ValueError sheet_name)
      | Some df => Ok df
      end
  end.

Arguments read_excel : simpl never.

(** Timestamps are int64 nanoseconds; the least int64 is the missing
    value's own representation. *)
Definition valid_ns (ns : Z) : Prop := (- 2 ^ 63 < ns < 2 ^ 63)%Z.

#[export] Instance valid_ns_dec ns : Decision (valid_ns ns).
Proof. unfold valid_ns. apply _. Defined.

Definition Timestamp (ns : Z) : cell :=
  if decide (valid_ns ns) then Date ns else Null.

(** A cell of a [DATE] column after cleaning: missing or a timestamp in
    range. *)
Definition is_datetime (c : cell) : Prop :=
  match c with
  | Null => True
  | Date ns => valid_ns ns
  | _ => False
  end.

#[export] Instance is_datetime_dec c : Decision (is_datetime c).
Proof. destruct c; apply _. Defined.

Lemma read_excel_Ok fs path sheet df :
  read_excel fs path sheet = Ok df ↔
  ∃ wb, fs !! path = Some wb ∧ wb !! sheet = Some df.
Proof.
  unfold read_excel. destruct (fs !! path) as [wb|]; [|naive_solver].
  destruct (wb !! sheet) eqn:E; naive_solver.
Qed.

Section clean.
Context (parse_date : string → option Z).

Definition to_datetime_cell (c : cell) : cell :=
  match c with
  | Null => Null
  | Date ns => Timestamp ns
  | Num ns => Timestamp ns
  | Str s => from_option Timestamp Null (parse_date s)
  end.

Definition to_datetime (s : list cell) : list cell := to_datetime_cell <$> s.

(** Lines 35-36, for one frame. *)
Definition clean (df : DataFrame) : res DataFrame :=
  if has_column df "DATE"
  then DATE ← getitem df "DATE"; Ok (setitem df "DATE" (to_datetime DATE))
  else Ok df.

(** Lines 29-36. *)
Definition load (fs : gmap string workbook) :
    res (DataFrame * DataFrame * DataFrame) :=
  orders_df ← read_excel fs "JUNE 2025 ORDERS CONSOLIDATED.xlsx" "Orders";
  despatch_df ←
    read_excel fs "2025 June Superlinx Daily Despatch Tracker.xlsx" "Template";
  date_index_df ← read_excel fs "DATE INDEX.xlsx" "Sheet2";
  orders_df ← clean orders_df;
  despatch_df ← clean despatch_df;
  date_index_df ← clean date_index_df;
  Ok (orders_df, despatch_df, date_index_df).

(** ** Cells *)

Lemma Timestamp_is_datetime ns : is_datetime (Timestamp ns).
Proof. unfold Timestamp. by case_decide. Qed.

Lemma to_datetime_cell_is_datetime c : is_datetime (to_datetime_cell c).
Proof.
  destruct c as [|z|s|ns]; cbn; try apply Timestamp_is_datetime; [done|].
  destruct (parse_date s); [apply Timestamp_is_datetime | done].
Qed.

Lemma to_datetime_cell_fixed c : is_datetime c → to_datetime_cell c = c.
Proof.
  destruct c as [|z|s|ns]; cbn; try done.
  intros H. unfold Timestamp. by rewrite decide_True.
Qed.

Lemma to_datetime_cell_idemp c :
  to_datetime_cell (to_datetime_cell c) = to_datetime_cell c.
Proof. apply to_datetime_cell_fixed, to_datetime_cell_is_datetime. Qed.

Lemma to_datetime_length s : length (to_datetime s) = length s.
Proof. apply length_fmap. Qed.

Lemma to_datetime_idemp s : to_datetime (to_datetime s) = to_datetime s.
Proof.
  unfold to_datetime. rewrite <-list_fmap_compose. apply list_fmap_ext.
  intros _ c _. apply to_datetime_cell_idemp.
Qed.

(** ** The cleaning step *)

Lemma clean_Ok df :
  clean df = Ok (if has_column df "DATE"
                 then setitem df "DATE" (to_datetime (column df "DATE"))
                 else df).
Proof.
  unfold clean. destruct (has_column df "DATE") eqn:E; [|done].
  by rewrite getitem_column by by apply has_column_true.
Qed.

(** C33.  Cleaning never fails, keeps the frame well formed with the same
    columns and rows, leaves every column but [DATE] as it was, and leaves
    in [DATE] only timestamps in range and missing values. *)
Theorem clean_spec df :
  wf_frame df →
  ∃ df', clean df = Ok df' ∧ wf_frame df' ∧
    columns df' = columns df ∧ df_index df' = df_index df ∧
    (∀ c, c ≠ "DATE" → getitem df' c = getitem df c) ∧
    Forall is_datetime (column df' "DATE").
Proof.
  intros Hwf. eexists. split; [apply clean_Ok|].
  destruct (has_column df "DATE") eqn:E.
  - assert (Hlen : length (to_datetime (column df "DATE")) = nrows df).
    { rewrite to_datetime_length. eapply wf_frame_height; [done|].
      by apply getitem_column, has_column_true. }
    split_and!.
    + by apply setitem_wf.
    + by rewrite columns_setitem, E.
    + unfold setitem. by rewrite E.
    + intros c Hc. by apply getitem_setitem_ne.
    + pose proof (getitem_setitem df "DATE" (to_datetime (column df "DATE"))) as H.
      apply getitem_Ok in H as [_ <-]. apply Forall_fmap, Forall_forall.
      intros c _. apply to_datetime_cell_is_datetime.
  - split_and!; try done. unfold column.
    apply not_true_iff_false in E. rewrite has_column_true in E.
    apply assoc_None in E. by rewrite E.
Qed.

(** C35.  Cleaning twice is cleaning once. *)
Theorem clean_idemp df df' : clean df = Ok df' → clean df' = Ok df'.
Proof.
  rewrite !clean_Ok. intros [= <-]. destruct (has_column df "DATE") eqn:E.
  - rewrite has_column_setitem. f_equal.
    pose proof (getitem_setitem df "DATE" (to_datetime (column df "DATE"))) as H.
    apply getitem_Ok in H as [_ <-].
    by rewrite to_datetime_idemp, setitem_setitem.
  - by rewrite E.
Qed.

Lemma clean_columns df df' : clean df = Ok df' → columns df' = columns df.
Proof.
  rewrite clean_Ok. intros [= <-]. destruct (has_column df "DATE") eqn:E; [|done].
  by rewrite columns_setitem, E.
Qed.

(** ** Loading *)

Definition sources : list (string * string) :=
  [("JUNE 2025 ORDERS CONSOLIDATED.xlsx", "Orders");
   ("2025 June Superlinx Daily Despatch Tracker.xlsx", "Template");
   ("DATE INDEX.xlsx", "Sheet2")].

(** Loading succeeds exactly when each of the three workbooks exists and
    has its sheet; the frames it returns are the cleaned sheets. *)
Lemma load_Ok fs o d i :
  load fs = Ok (o, d, i) ↔
  ∃ o0 d0 i0,
    read_excel fs "JUNE 2025 ORDERS CONSOLIDATED.xlsx" "Orders" = Ok o0 ∧
    read_excel fs "2025 June Superlinx Daily Despatch Tracker.xlsx" "Template"
      = Ok d0 ∧
    read_excel fs "DATE INDEX.xlsx" "Sheet2" = Ok i0 ∧
    clean o0 = Ok o ∧ clean d0 = Ok d ∧ clean i0 = Ok i.
Proof.
  unfold load. split.
  - intros H. res_step H as o0 Ho0. res_step H as d0 Hd0. res_step H as i0 Hi0.
    res_step H as o' Ho. res_step H as d' Hd. res_step H as i' Hi.
    injection H as <- <- <-. by exists o0, d0, i0.
  - intros (o0 & d0 & i0 & -> & -> & -> & Ho & Hd & Hi). cbn.
    by rewrite Ho, Hd, Hi.
Qed.

(** C34.  Loading fails exactly when one of the three reads fails, and
    then with the exception of the first read that fails, in the order
    orders, despatch, date index: cleaning adds no failure. *)
Theorem load_Raise fs e :
  load fs = Raise e ↔
  ∃ p, head (filter (λ p, is_ok (read_excel fs p.1 p.2) = false) sources)
       = Some p ∧ read_excel fs p.1 p.2 = Raise e.
Proof.
  unfold load, sources. rewrite !filter_cons, filter_nil. cbn [fst snd].
  destruct (read_excel fs "JUNE 2025 ORDERS CONSOLIDATED.xlsx" "Orders")
    as [o0|e1] eqn:E1; cbn.
  2:{ rewrite decide_True by done. cbn. split; [intros [= <-]; eauto|].
      intros (p & [= <-] & H). cbn in H. congruence. }
  destruct (read_excel fs "2025 June Superlinx Daily Despatch Tracker.xlsx"
              "Template") as [d0|e2] eqn:E2; cbn.
  2:{ rewrite decide_False, decide_True by done. cbn. split; [intros [= <-]; eauto|].
      intros (p & [= <-] & H). cbn in H. congruence. }
  destruct (read_excel fs "DATE INDEX.xlsx" "Sheet2") as [i0|e3] eqn:E3; cbn.
  2:{ rewrite !decide_False, decide_True by done. cbn. split; [intros [= <-]; eauto|].
      intros (p & [= <-] & H). cbn in H. congruence. }
  rewrite !decide_False by done. rewrite !clean_Ok. cbn.
  split; [done | by intros (p & [=] & _)].
Qed.
End clean.

(** ** The theorems on a raw sheet *)

(** A sheet whose [DATE] column mixes a timestamp, an unreadable text, a
    number and a gap, cleaned with a parser that reads no text at all. *)
Definition raw_sheet : DataFrame :=
  mkDF (RangeIndex 4)
    [("LINK", [Str "L1"; Str "L2"; Str "L3"; Str "L4"]);
     ("DATE", [june 1; Str "n/a"; Num 86400000000000; Null])].

Definition cleaned_sheet : DataFrame :=
  mkDF (RangeIndex 4)
    [("LINK", [Str "L1"; Str "L2"; Str "L3"; Str "L4"]);
     ("DATE", [june 1; Null; Date 86400000000000; Null])].

Lemma clean_spec_witness :
  ∃ df', clean (λ _, None) raw_sheet = Ok df' ∧ wf_frame df' ∧
    columns df' = columns raw_sheet ∧ df_index df' = df_index raw_sheet ∧
    (∀ c, c ≠ "DATE" → getitem df' c = getitem raw_sheet c) ∧
    Forall is_datetime (column df' "DATE").
Proof. apply clean_spec. compute_done. Defined.

Lemma clean_idemp_witness : clean (λ _, None) cleaned_sheet = Ok cleaned_sheet.
Proof. apply (clean_idemp (λ _, None) raw_sheet). vm_compute. reflexivity. Defined.

Lemma load_Raise_witness :
  load (λ _, None) (delete "DATE INDEX.xlsx" scn_files)
  = Raise (FileNotFoundError "DATE INDEX.xlsx").
Proof.
  apply load_Raise. exists ("DATE INDEX.xlsx", "Sheet2"). split; vm_compute; reflexivity.
Defined.
