(* ===== verification/Filter.v ===== *)
(** * Filter: the sidebar filters and the merge (lines 41-61)

    The sidebar is a record of what its widgets return: the date mode, the
    picked day, and for each widget whose options the script computes from
    the data (month, routes, areas) a function from the option list to the
    returned value.  [sidebar_ok] states what Streamlit guarantees of
    them: a select box returns one of its options (or nothing when there
    is none), a multi-select a sub-list of its options.

    [filtered_index], [filtered_links], [orders_filtered] and
    [despatch_filtered] are the four filtering statements; [filters] runs
    them in the script's order, so that the exception it raises is the
    one the script raises first. *)

From S2P Require Import Prelude Cell Frame Scenario.

#[local] Set Warnings "-clear-no-such-hyp".

Inductive date_mode : Type := Daily | Monthly.

#[export] Instance date_mode_eq_dec : EqDecision date_mode.
Proof. solve_decision. Defined.

Record sidebar : Type := mkSidebar {
  date_option : date_mode;
  selected_date : Z;
  select_month : list cell → cell;
  select_routes : list cell → list cell;
  select_areas : list cell → list cell
}.

Record sidebar_ok (sb : sidebar) : Prop := {
  select_month_in : ∀ opts, opts ≠ [] → select_month sb opts ∈ opts;
  select_month_none : select_month sb [] = Null;
  select_routes_incl : ∀ opts, select_routes sb opts ⊆ opts;
  select_areas_incl : ∀ opts, select_areas sb opts ⊆ opts
}.

(** The sidebar as it is before the user touches it: the first date mode,
    today, the first month, every route and every area. *)
Definition default_sidebar (today : Z) : sidebar :=
  mkSidebar Daily today (λ opts, hd Null opts) id id.

(** Line 46, line 51, line 55: the options offered. *)
Definition months (date_index_df : DataFrame) : res (list cell) :=
  options_of <$> getitem date_index_df "MONTH".

Definition routes (date_index_df : DataFrame) : res (list cell) :=
  options_of <$> getitem date_index_df "ROUTE".

Definition areas (orders_df : DataFrame) : res (list cell) :=
  options_of <$> getitem orders_df "AREA".

(** Lines 41-48: the index rows of the picked day or month. *)
Definition filtered_index (sb : sidebar) (date_index_df : DataFrame) :
    res DataFrame :=
  match date_option sb with
  | Daily =>
      DATE ← getitem date_index_df "DATE";
      Ok (loc date_index_df
            (eq_mask DATE (Timestamp_of_date (selected_date sb))))
  | Monthly =>
      months ← months date_index_df;
      let selected_month := select_month sb months in
      MONTH ← getitem date_index_df "MONTH";
      Ok (loc date_index_df (eq_mask MONTH selected_month))
  end.

(** Line 59: the links of the index rows whose route is selected. *)
Definition filtered_links (filtered_index : DataFrame)
    (selected_routes : list cell) : res (list cell) :=
  ROUTE ← getitem filtered_index "ROUTE";
  getitem (loc filtered_index (isin_mask ROUTE selected_routes)) "LINK".

(** Line 60: orders by link and by area. *)
Definition orders_filtered (orders_df : DataFrame)
    (filtered_links selected_areas : list cell) : res DataFrame :=
  LINK ← getitem orders_df "LINK";
  AREA ← getitem orders_df "AREA";
  Ok (loc orders_df (mask_and (isin_mask LINK filtered_links)
                              (isin_mask AREA selected_areas))).

(** Line 61: despatch by link. *)
Definition despatch_filtered (despatch_df : DataFrame)
    (filtered_links : list cell) : res DataFrame :=
  LINK ← getitem despatch_df "LINK";
  Ok (loc despatch_df (isin_mask LINK filtered_links)).

(** Lines 41-61 in order. *)
Definition filters (sb : sidebar)
    (orders_df despatch_df date_index_df : DataFrame) :
    res (DataFrame * DataFrame) :=
  filtered_index ← filtered_index sb date_index_df;
  routes ← routes date_index_df;
  let selected_routes := select_routes sb routes in
  areas ← areas orders_df;
  let selected_areas := select_areas sb areas in
  filtered_links ← filtered_links filtered_index selected_routes;
  orders_filtered ← orders_filtered orders_df filtered_links selected_areas;
  despatch_filtered ← despatch_filtered despatch_df filtered_links;
  Ok (orders_filtered, despatch_filtered).

(** ** Row-wise specification of the filters

    What each statement keeps, as a test on one row. *)

(** The value [selected] that line 44 or line 48 compares a row with, and
    the column it is compared in. *)
Definition date_column (sb : sidebar) : string :=
  match date_option sb with Daily => "DATE" | Monthly => "MONTH" end.

Definition date_matches (column : string) (selected : cell) (r : row) : bool :=
  cell_eq (row_get r column) selected.

Definition route_selected (selected_routes : list cell) (r : row) : bool :=
  isin (row_get r "ROUTE") selected_routes.

Definition order_kept (links selected_areas : list cell) (r : row) : bool :=
  isin (row_get r "LINK") links && isin (row_get r "AREA") selected_areas.

Definition despatch_kept (links : list cell) (r : row) : bool :=
  isin (row_get r "LINK") links.

Definition date_selected (sb : sidebar) (rs : list row) : cell :=
  match date_option sb with
  | Daily => Timestamp_of_date (selected_date sb)
  | Monthly => select_month sb (options_of (column_of "MONTH" rs))
  end.

Definition index_kept (sb : sidebar) (rs : list row) (r : row) : bool :=
  date_matches (date_column sb) (date_selected sb rs) r
  && route_selected (select_routes sb (options_of (column_of "ROUTE" rs))) r.

(** The reference: links of the index rows of the period on a selected
    route, then the order rows and the despatch rows they admit. *)
Definition links_of (sb : sidebar) (index_rows : list row) : list cell :=
  column_of "LINK"
    (filter (λ r, index_kept sb index_rows r = true) index_rows).

Definition resolve (sb : sidebar) (order_rows despatch_rows index_rows : list row) :
    list row * list row :=
  let links := links_of sb index_rows in
  let selected_areas :=
    select_areas sb (options_of (column_of "AREA" order_rows)) in
  (filter (λ r, order_kept links selected_areas r = true) order_rows,
   filter (λ r, despatch_kept links r = true) despatch_rows).

(** The column lookups of lines 41-61 in the order the script makes them. *)
Definition lookups (sb : sidebar)
    (orders_df despatch_df date_index_df : DataFrame) :
    list (DataFrame * string) :=
  [(date_index_df, date_column sb); (date_index_df, "ROUTE");
   (orders_df, "AREA"); (date_index_df, "LINK");
   (orders_df, "LINK"); (despatch_df, "LINK")].

(** What the pages rely on in the two frames the filters hand them:
    both are well formed and no order row lacks its area. *)
Record filtered_ok (o d : DataFrame) : Prop := {
  filtered_orders_wf : wf_frame o;
  filtered_despatch_wf : wf_frame d;
  filtered_area_notna : Forall (λ r, row_get r "AREA" ≠ Null) (rows o)
}.

(** ** Masks as tests on rows *)

Section masks.
Implicit Types (df : DataFrame) (c : string) (v values : list cell).

Lemma eq_mask_rows df c v selected :
  wf_frame df → getitem df c = Ok v →
  eq_mask v selected = date_matches c selected <$> rows df.
Proof.
  intros Hwf Hc. rewrite (getitem_rows _ _ _ Hwf Hc) at 1.
  unfold eq_mask. by rewrite <-list_fmap_compose.
Qed.

Lemma isin_mask_rows df c v values :
  wf_frame df → getitem df c = Ok v →
  isin_mask v values = (λ r, isin (row_get r c) values) <$> rows df.
Proof.
  intros Hwf Hc. rewrite (getitem_rows _ _ _ Hwf Hc) at 1.
  unfold isin_mask. by rewrite <-list_fmap_compose.
Qed.

Lemma eq_mask_length v selected : length (eq_mask v selected) = length v.
Proof. apply length_fmap. Qed.

Lemma isin_mask_length v values : length (isin_mask v values) = length v.
Proof. apply length_fmap. Qed.

Lemma isin_mask_nil v : Forall (λ b, b = false) (isin_mask v []).
Proof. apply Forall_fmap, Forall_forall. intros c _. apply isin_nil. Qed.

Lemma mask_and_false_l m1 m2 :
  Forall (λ b, b = false) m1 → Forall (λ b, b = false) (mask_and m1 m2).
Proof.
  intros H; revert m2; induction H as [|? m1 -> _ IH]; intros [|b m2];
    cbn; constructor; auto.
Qed.

Lemma mask_and_false_r m1 m2 :
  Forall (λ b, b = false) m2 → Forall (λ b, b = false) (mask_and m1 m2).
Proof.
  intros H; revert m1; induction H as [|? m2 -> _ IH]; intros [|b m1];
    cbn; constructor; auto using andb_false_r.
Qed.
End masks.

(** ** The four statements, row by row *)

Section statements.
Context (sb : sidebar).
Implicit Types (df orders_df despatch_df date_index_df : DataFrame).

Lemma filtered_index_Ok date_index_df fi :
  wf_frame date_index_df → filtered_index sb date_index_df = Ok fi →
  ∃ v, getitem date_index_df (date_column sb) = Ok v ∧
    fi = loc date_index_df (eq_mask v (date_selected sb (rows date_index_df))).
Proof.
  intros Hwf. unfold filtered_index, date_column, date_selected, months.
  destruct (date_option sb); intros H; res_inv; [by eauto|].
  destruct (getitem date_index_df "MONTH") as [v|] eqn:E; [|done].
  simplify_eq/=. eexists. split; [done|]. unfold column_of.
  by rewrite <-(getitem_rows _ _ _ Hwf E).
Qed.

Lemma filtered_index_rows date_index_df fi :
  wf_frame date_index_df → filtered_index sb date_index_df = Ok fi →
  rows fi =
  filter (λ r, date_matches (date_column sb)
                 (date_selected sb (rows date_index_df)) r = true)
         (rows date_index_df).
Proof.
  intros Hwf (v & Hv & ->)%filtered_index_Ok; [|done].
  rewrite (eq_mask_rows _ _ _ _ Hwf Hv). by apply rows_loc_filter.
Qed.

Lemma filtered_index_wf date_index_df fi :
  wf_frame date_index_df → filtered_index sb date_index_df = Ok fi → wf_frame fi.
Proof.
  intros Hwf (v & Hv & ->)%filtered_index_Ok; [|done].
  apply loc_wf; [done|]. rewrite eq_mask_length. by eapply wf_frame_height.
Qed.

Lemma filtered_links_rows fi selected_routes links :
  wf_frame fi → filtered_links fi selected_routes = Ok links →
  links = column_of "LINK"
            (filter (λ r, route_selected selected_routes r = true) (rows fi)).
Proof.
  intros Hwf H. unfold filtered_links in H. res_inv.
  rename x into ROUTE, H0 into HR.
  assert (Hm : length (isin_mask ROUTE selected_routes) = nrows fi).
  { rewrite isin_mask_length. by eapply wf_frame_height. }
  rewrite (getitem_rows _ _ _ (loc_wf _ _ Hwf Hm) H).
  by rewrite (isin_mask_rows _ _ _ _ Hwf HR), rows_loc_filter.
Qed.

Lemma orders_filtered_Ok orders_df links selected_areas o :
  wf_frame orders_df →
  orders_filtered orders_df links selected_areas = Ok o →
  o = loc orders_df (order_kept links selected_areas <$> rows orders_df).
Proof.
  intros Hwf H. unfold orders_filtered in H. res_inv. unfold mask_and.
  rewrite (isin_mask_rows _ _ _ _ Hwf H0), (isin_mask_rows _ _ _ _ Hwf H1).
  by rewrite zip_with_fmap_same.
Qed.

Lemma despatch_filtered_Ok despatch_df links d :
  wf_frame despatch_df → despatch_filtered despatch_df links = Ok d →
  d = loc despatch_df (despatch_kept links <$> rows despatch_df).
Proof.
  intros Hwf H. unfold despatch_filtered in H. res_inv.
  by rewrite (isin_mask_rows _ _ _ _ Hwf H0).
Qed.
End statements.

(** ** The composition against the row-wise reference *)

Section filters.
Context (sb : sidebar) (orders_df despatch_df date_index_df : DataFrame).
Context (Ho : wf_frame orders_df) (Hd : wf_frame despatch_df)
        (Hi : wf_frame date_index_df).

Lemma options_rows df c (opts : list cell) :
  wf_frame df → options_of <$> getitem df c = Ok opts →
  opts = options_of (column_of c (rows df)).
Proof.
  intros Hwf (v & Hv & ->)%res_fmap_Ok_inv. unfold column_of.
  by rewrite <-(getitem_rows _ _ _ Hwf Hv).
Qed.

Lemma links_of_filtered fi links :
  filtered_index sb date_index_df = Ok fi →
  filtered_links fi (select_routes sb (options_of (column_of "ROUTE" (rows date_index_df))))
    = Ok links →
  links = links_of sb (rows date_index_df).
Proof.
  intros Hfi Hl. pose proof (filtered_index_wf _ _ _ Hi Hfi) as Hwf.
  rewrite (filtered_links_rows _ _ _ Hwf Hl), (filtered_index_rows _ _ _ Hi Hfi).
  unfold links_of. f_equal. rewrite list_filter_filter. apply list_filter_iff.
  intros r. unfold index_kept. rewrite andb_true_iff. tauto.
Qed.

(** The frames [filters] returns, as row filters of its inputs. *)
Lemma filters_Ok_inv o d :
  filters sb orders_df despatch_df date_index_df = Ok (o, d) →
  let links := links_of sb (rows date_index_df) in
  let selected_areas :=
    select_areas sb (options_of (column_of "AREA" (rows orders_df))) in
  o = loc orders_df (order_kept links selected_areas <$> rows orders_df) ∧
  d = loc despatch_df (despatch_kept links <$> rows despatch_df).
Proof.
  intros H. unfold filters in H.
  res_step H as fi Hfi. res_step H as rs Hrs. res_step H as ars Hars.
  res_step H as links Hl. res_step H as o' Ho'. res_step H as d' Hd'.
  injection H as <- <-.
  apply (options_rows _ _ _ Hi) in Hrs as ->.
  apply (options_rows _ _ _ Ho) in Hars as ->.
  apply (links_of_filtered _ _ Hfi) in Hl as ->.
  apply (orders_filtered_Ok _ _ _ _ Ho) in Ho' as ->.
  by apply (despatch_filtered_Ok _ _ _ Hd) in Hd' as ->.
Qed.

Lemma links_of_no_routes :
  (∀ opts, select_routes sb opts = []) → links_of sb (rows date_index_df) = [].
Proof.
  intros Hnone. unfold links_of, column_of.
  rewrite (proj2 (filter_none _ _)); [done|].
  apply Forall_forall. intros r _. unfold index_kept, route_selected.
  by rewrite Hnone, isin_nil, andb_false_r.
Qed.

(** C1.  The outputs of the filtering statements of lines 41-61, read row
    by row, are the rows that the reference [resolve] keeps: an order row
    iff its link is a link of an index row of the period on a selected
    route and its area is selected, a despatch row iff its link is such a
    link. *)
Theorem filters_resolve o d :
  filters sb orders_df despatch_df date_index_df = Ok (o, d) →
  (rows o, rows d) =
  resolve sb (rows orders_df) (rows despatch_df) (rows date_index_df).
Proof.
  intros [-> ->]%filters_Ok_inv. unfold resolve. by rewrite !rows_loc_filter.
Qed.


(** C21.  With no route selected both outputs are empty. *)
Theorem filters_no_routes o d :
  (∀ opts, select_routes sb opts = []) →
  filters sb orders_df despatch_df date_index_df = Ok (o, d) →
  nrows o = 0 ∧ nrows d = 0.
Proof.
  intros Hnone [-> ->]%filters_Ok_inv. rewrite (links_of_no_routes Hnone).
  split; apply nrows_loc_all_false, Forall_fmap, Forall_forall; intros r _;
    unfold order_kept, despatch_kept; cbn; by rewrite isin_nil.
Qed.

(** C36.  With no area selected no order row is kept. *)
Theorem filters_no_areas o d :
  (∀ opts, select_areas sb opts = []) →
  filters sb orders_df despatch_df date_index_df = Ok (o, d) →
  nrows o = 0.
Proof.
  intros Hnone [-> _]%filters_Ok_inv.
  apply nrows_loc_all_false, Forall_fmap, Forall_forall. intros r _.
  unfold order_kept; cbn. by rewrite Hnone, isin_nil, andb_false_r.
Qed.

Lemma order_kept_area_notna links col r :
  sidebar_ok sb →
  order_kept links (select_areas sb (options_of col)) r = true →
  row_get r "AREA" ≠ Null.
Proof.
  intros Hsb. unfold order_kept. rewrite andb_true_iff, !isin_true.
  intros [_ Ha%(select_areas_incl _ Hsb)].
  unfold options_of in Ha. by apply elem_of_unique, elem_of_dropna in Ha as [_ ?].
Qed.

(** C14.  An order row with a missing area is never kept, whatever the
    user selects: the options offered exclude the missing value. *)
Theorem orders_filtered_area_notna o d r :
  sidebar_ok sb →
  filters sb orders_df despatch_df date_index_df = Ok (o, d) →
  r ∈ rows o → row_get r "AREA" ≠ Null.
Proof.
  intros Hsb [-> _]%filters_Ok_inv.
  rewrite rows_loc_filter, list_elem_of_filter by done.
  intros [Hkept _]. by eapply order_kept_area_notna.
Qed.

(** C15.  Rows without a link are joined to each other: when an index
    row of the period on a selected route has no link, every despatch
    row that has no link is kept.  Line 61 matches links with [isin],
    under which a missing value is a member of a list that holds one,
    where [==] would match no missing value. *)
Theorem filters_missing_link o d i r :
  filters sb orders_df despatch_df date_index_df = Ok (o, d) →
  i ∈ rows date_index_df → index_kept sb (rows date_index_df) i = true →
  row_get i "LINK" = Null →
  r ∈ rows despatch_df → row_get r "LINK" = Null →
  r ∈ rows d.
Proof.
  intros [_ ->]%filters_Ok_inv Hi' Hkept Hnull Hr Hrnull.
  rewrite rows_loc_filter, list_elem_of_filter by done. split; [|done].
  unfold despatch_kept. rewrite Hrnull, isin_true, <-Hnull.
  apply (list_elem_of_fmap_2 (λ r, row_get r "LINK")).
  by apply list_elem_of_filter.
Qed.

(** The filters establish what the pages rely on. *)
Lemma filters_filtered_ok o d :
  sidebar_ok sb →
  filters sb orders_df despatch_df date_index_df = Ok (o, d) →
  filtered_ok o d.
Proof.
  intros Hsb [-> ->]%filters_Ok_inv.
  split; [apply loc_wf; by rewrite ?length_fmap, ?rows_length..|].
  rewrite rows_loc_filter by done. apply Forall_forall.
  intros r [Hkept _]%list_elem_of_filter. by eapply order_kept_area_notna.
Qed.
End filters.

(** Each output is a selection of rows of its input, whatever the shape
    of the frames. *)
Lemma filters_loc sb orders_df despatch_df date_index_df o d :
  filters sb orders_df despatch_df date_index_df = Ok (o, d) →
  ∃ mo md, o = loc orders_df mo ∧ d = loc despatch_df md.
Proof.
  intros H. unfold filters in H.
  res_step H as fi Hfi. res_step H as rs Hrs. res_step H as ars Hars.
  res_step H as links Hl. res_step H as o' Ho'. res_step H as d' Hd'.
  injection H as <- <-. unfold orders_filtered in Ho'. unfold despatch_filtered in Hd'.
  res_step Ho' as LINK HLINK. res_step Ho' as AREA HAREA. injection Ho' as <-.
  res_step Hd' as LINK' HLINK'. injection Hd' as <-. eauto.
Qed.

(** Filtering keeps the columns of both frames. *)
Lemma filters_columns sb orders_df despatch_df date_index_df o d :
  filters sb orders_df despatch_df date_index_df = Ok (o, d) →
  columns o = columns orders_df ∧ columns d = columns despatch_df.
Proof. intros (mo & md & -> & ->)%filters_loc. by rewrite !columns_loc. Qed.

(** ** Exceptions: which lookup fails first *)

Section errors.
Context (sb : sidebar) (orders_df despatch_df date_index_df : DataFrame).

Definition missing_lookups : list (DataFrame * string) :=
  filter (λ p, negb (has_column p.1 p.2))
         (lookups sb orders_df despatch_df date_index_df).

Lemma getitem_has df c :
  has_column df c = true → ∃ v, getitem df c = Ok v.
Proof. rewrite getitem_if. intros ->. eauto. Qed.

Lemma getitem_missing df c :
  has_column df c = false → getitem df c = Raise (KeyError [c]).
Proof. rewrite getitem_if. by intros ->. Qed.

Lemma filtered_index_has :
  has_column date_index_df (date_column sb) = true →
  ∃ mask, filtered_index sb date_index_df = Ok (loc date_index_df mask).
Proof.
  unfold filtered_index, months, date_column.
  destruct (date_option sb); intros [v Hv]%getitem_has; rewrite !Hv; cbn; eauto.
Qed.

Lemma filtered_index_missing :
  has_column date_index_df (date_column sb) = false →
  filtered_index sb date_index_df = Raise (KeyError [date_column sb]).
Proof.
  unfold filtered_index, months, date_column.
  by destruct (date_option sb); intros ->%getitem_missing.
Qed.

Lemma filtered_links_cases fi selected_routes :
  match has_column fi "ROUTE", has_column fi "LINK" with
  | true, true => is_ok (filtered_links fi selected_routes) = true
  | true, false => filtered_links fi selected_routes = Raise (KeyError ["LINK"])
  | false, _ => filtered_links fi selected_routes = Raise (KeyError ["ROUTE"])
  end.
Proof.
  unfold filtered_links. rewrite getitem_if.
  destruct (has_column fi "ROUTE"); cbn; [|done].
  rewrite getitem_if, has_column_loc. by destruct (has_column fi "LINK").
Qed.

Lemma orders_filtered_cases links selected_areas :
  match has_column orders_df "LINK", has_column orders_df "AREA" with
  | true, true => is_ok (orders_filtered orders_df links selected_areas) = true
  | true, false =>
      orders_filtered orders_df links selected_areas = Raise (KeyError ["AREA"])
  | false, _ =>
      orders_filtered orders_df links selected_areas = Raise (KeyError ["LINK"])
  end.
Proof.
  unfold orders_filtered. rewrite !getitem_if.
  by destruct (has_column orders_df "LINK"), (has_column orders_df "AREA").
Qed.

Lemma despatch_filtered_cases links :
  if has_column despatch_df "LINK"
  then is_ok (despatch_filtered despatch_df links) = true
  else despatch_filtered despatch_df links = Raise (KeyError ["LINK"]).
Proof.
  unfold despatch_filtered. rewrite getitem_if.
  by destruct (has_column despatch_df "LINK").
Qed.

Lemma filters_cases :
  match head missing_lookups with
  | Some p => filters sb orders_df despatch_df date_index_df
              = Raise (KeyError [p.2])
  | None => is_ok (filters sb orders_df despatch_df date_index_df) = true
  end.
Proof.
  unfold missing_lookups, lookups, filters, routes, areas.
  rewrite !filter_cons, filter_nil. cbn [fst snd].
  destruct (has_column date_index_df (date_column sb)) eqn:E1; cbn;
    [|by rewrite filtered_index_missing].
  destruct (filtered_index_has E1) as [mask ->]; cbn.
  rewrite (getitem_if date_index_df "ROUTE"), (getitem_if orders_df "AREA").
  pose proof (filtered_links_cases (loc date_index_df mask)) as Hl.
  rewrite !has_column_loc in Hl.
  destruct (has_column date_index_df "ROUTE"); cbn; [|done].
  destruct (has_column orders_df "AREA") eqn:E3; cbn; [|done].
  match goal with |- context [filtered_links ?fi ?rs] =>
    specialize (Hl rs); destruct (has_column date_index_df "LINK"); cbn;
    [apply is_ok_true in Hl as [links ->] | by rewrite Hl]
  end; cbn.
  pose proof (orders_filtered_cases links) as Ho. rewrite E3 in Ho.
  match goal with |- context [orders_filtered _ _ ?a] => specialize (Ho a) end.
  destruct (has_column orders_df "LINK"); cbn;
    [apply is_ok_true in Ho as [o ->] | by rewrite Ho]; cbn.
  pose proof (despatch_filtered_cases links) as Hd.
  destruct (has_column despatch_df "LINK"); cbn;
    [apply is_ok_true in Hd as [d ->] | by rewrite Hd]; done.
Qed.

(** C7.  The filtering statements raise exactly when a column they look
    up is absent, and then the exception is the [KeyError] of the first
    absent one in the script's order of lookups. *)
Theorem filters_Raise e :
  filters sb orders_df despatch_df date_index_df = Raise e ↔
  ∃ p, head missing_lookups = Some p ∧ e = KeyError [p.2].
Proof.
  pose proof filters_cases as H. destruct (head missing_lookups) as [p|].
  - rewrite H. naive_solver.
  - apply is_ok_true in H as [v ->]. naive_solver.
Qed.

(** The filtering statements succeed iff the six columns they look up
    are present: they have no other way to fail. *)
Lemma filters_is_ok :
  is_ok (filters sb orders_df despatch_df date_index_df) =
  forallb (λ p, has_column p.1 p.2)
          (lookups sb orders_df despatch_df date_index_df).
Proof.
  pose proof filters_cases as H. unfold missing_lookups in H.
  destruct (head _) as [p|] eqn:E.
  - rewrite H. symmetry. apply not_true_iff_false. intros Hall.
    apply head_Some_elem_of, list_elem_of_filter in E as [Hp Hin].
    rewrite forallb_forall in Hall. apply list_elem_of_In, Hall in Hin.
    by rewrite Hin in Hp.
  - rewrite H. symmetry. apply forallb_forall. intros p Hin%list_elem_of_In.
    apply head_None, filter_none in E.
    apply (proj1 (Forall_forall _ _) E) in Hin. by destruct (has_column _ _).
Qed.
End errors.

(** ** Areas do not reach the despatch output *)

(** C13.  The despatch output does not depend on the areas selected: two
    sidebars that differ in the area selection only give the same
    despatch rows, and fail alike. *)
Theorem despatch_filtered_ignores_areas sb pick orders_df despatch_df date_index_df :
  snd <$> filters sb orders_df despatch_df date_index_df =
  snd <$> filters (mkSidebar (date_option sb) (selected_date sb)
                     (select_month sb) (select_routes sb) pick)
            orders_df despatch_df date_index_df.
Proof.
  destruct sb as [m day sm sr sa]. unfold filters, filtered_index, orders_filtered.
  cbn [date_option selected_date select_month select_routes select_areas].
  destruct (match m with Daily => _ | Monthly => _ end) as [fi|]; [|done].
  cbn [mbind res_bind]. destruct (routes date_index_df) as [rs|]; [|done].
  cbn [mbind res_bind]. destruct (areas orders_df) as [ars|]; [|done].
  cbn [mbind res_bind]. destruct (filtered_links fi (sr rs)) as [links|]; [|done].
  cbn [mbind res_bind].
  destruct (getitem orders_df "LINK") as [LINK|]; [|done].
  cbn [mbind res_bind].
  destruct (getitem orders_df "AREA") as [AREA|]; [|done].
  cbn [mbind res_bind]. by destruct (despatch_filtered despatch_df links).
Qed.

(** ** The theorems on the scenario *)

(** June selected by month, route R1 only, every area. *)
Definition scn_sidebar : sidebar :=
  mkSidebar Monthly 20240 (λ opts, hd Null opts)
            (λ opts, filter (λ c, c = Str "R1") opts) id.

(** No route, and no area. *)
Definition scn_no_routes : sidebar :=
  mkSidebar Monthly 20240 (λ opts, hd Null opts) (λ _, []) id.

Definition scn_no_areas : sidebar :=
  mkSidebar Monthly 20240 (λ opts, hd Null opts) id (λ _, []).

(** What the scenario sidebar keeps: the two order rows of link L1 with
    an area, and the two despatch rows of L1. *)
Definition scn_orders_filtered : DataFrame :=
  loc scn_orders [true; true; false; false].

Definition scn_despatch_filtered : DataFrame :=
  loc scn_despatch [true; true; false].

Lemma scn_filters :
  filters scn_sidebar scn_orders scn_despatch scn_index
  = Ok (scn_orders_filtered, scn_despatch_filtered).
Proof. vm_compute. reflexivity. Qed.

Lemma scn_sidebar_ok : sidebar_ok scn_sidebar.
Proof.
  split; cbn; try done.
  - intros [|c opts] H; [done|]. by left.
  - intros opts c [_ H]%list_elem_of_filter. done.
Qed.

Lemma filters_resolve_witness :
  (rows scn_orders_filtered, rows scn_despatch_filtered) =
  resolve scn_sidebar (rows scn_orders) (rows scn_despatch) (rows scn_index).
Proof.
  apply filters_resolve;
    [exact scn_orders_wf | exact scn_despatch_wf | exact scn_index_wf
    | exact scn_filters].
Defined.


Lemma filters_no_routes_witness :
  nrows (loc scn_orders [false; false; false; false]) = 0 ∧
  nrows (loc scn_despatch [false; false; false]) = 0.
Proof.
  apply (filters_no_routes scn_no_routes scn_orders scn_despatch scn_index);
    [exact scn_orders_wf | exact scn_despatch_wf | exact scn_index_wf
    | done | vm_compute; reflexivity].
Defined.

Lemma filters_no_areas_witness :
  nrows (loc scn_orders [false; false; false; false]) = 0.
Proof.
  apply (filters_no_areas scn_no_areas scn_orders scn_despatch scn_index
           scn_orders_wf scn_despatch_wf scn_index_wf
           (loc scn_orders [false; false; false; false])
           (loc scn_despatch [true; true; true]));
    [done | vm_compute; reflexivity].
Defined.

Lemma orders_filtered_area_notna_witness :
  row_get (hd (Null, []) (rows scn_orders_filtered)) "AREA" ≠ Null.
Proof.
  apply (orders_filtered_area_notna scn_sidebar scn_orders scn_despatch
           scn_index scn_orders_wf scn_despatch_wf scn_index_wf
           scn_orders_filtered scn_despatch_filtered);
    [exact scn_sidebar_ok | exact scn_filters | compute_done].
Defined.

(** The scenario with gaps in the links: the index row of route R1 has
    no link, and so has the third despatch row, which is the one kept. *)
Definition scn_index_gap : DataFrame :=
  setitem scn_index "LINK" [Null; Str "L2"; Str "L3"].

Definition scn_despatch_gap : DataFrame :=
  setitem scn_despatch "LINK" [Str "L1"; Str "L1"; Null].

Lemma scn_filters_gap :
  filters scn_sidebar scn_orders scn_despatch_gap scn_index_gap
  = Ok (loc scn_orders [false; false; false; false],
        loc scn_despatch_gap [false; false; true]).
Proof. vm_compute. reflexivity. Qed.

Lemma filters_missing_link_witness :
  default (Null, []) (rows scn_despatch_gap !! 2)
  ∈ rows (loc scn_despatch_gap [false; false; true]).
Proof.
  apply (filters_missing_link scn_sidebar scn_orders scn_despatch_gap
           scn_index_gap ltac:(compute_done) ltac:(compute_done)
           ltac:(compute_done)
           (loc scn_orders [false; false; false; false])
           (loc scn_despatch_gap [false; false; true])
           (default (Null, []) (rows scn_index_gap !! 0)));
    [exact scn_filters_gap | compute_done | vm_compute; reflexivity
    | vm_compute; reflexivity | compute_done | vm_compute; reflexivity].
Defined.

Lemma filters_Raise_witness :
  filters scn_sidebar scn_index scn_despatch scn_index = Raise (KeyError ["AREA"]).
Proof.
  apply filters_Raise. exists (scn_index, "AREA"). split; [|done].
  vm_compute. reflexivity.
Defined.
