(* ===== verification/Aggregate.v ===== *)
(** * Aggregate: the KPIs and the per-SKU tables (lines 64-73, 82, 87-91,
    104-108, 117-121)

    [bread_columns] and [biscuit_columns] are the two SKU lists.
    [grand_total] is [df[cols].sum().sum()], the shape of lines 70 and 71;
    [dc_percent] the mean of the on-time test times 100, where the mean of
    no rows is NaN ([None]); [order_fill] the guarded ratio of line 73;
    [product_mix] the per-SKU sums of line 82; [column_sums] the list
    comprehension [[df[col].sum() for col in cols]] and [sku_df] the frame
    the three pages build from two of them.

    The two percentages are exact rationals here: the value the formula
    of the line has, before binary64 rounds it.  What the script computes
    and prints is in [Metrics] ([dc_percent_float], [order_fill_float]).
    A rational divided by 0 is 0, so the guard of line 73 cannot be seen
    in [order_fill]; it is [Metrics.order_fill_card] that depends on it. *)

From Stdlib Require Import QArith Qcanon.
From S2P Require Import Prelude Cell Frame Scenario Filter.

#[local] Close Scope Q_scope.
#[local] Close Scope Qc_scope.

#[local] Set Warnings "-clear-no-such-hyp".

(** Lines 64-65. *)
Definition bread_columns : list string :=
  ["BI White"; "BI Brown"; "BI Whole Wheat";
   "Mr Chingwa"; "Mrs Chingwa"; "Dr Chingwa"].

Definition biscuit_columns : list string :=
  ["MUNCHIE COOKIES 150G"; "MUNCHIE COOKIES 1KG"; "MUNCHIE COOKIES 2KG"].

(** [df[cols].sum()]: the sums of the listed columns, labelled. *)
Definition product_mix (df : DataFrame) (cols : list string) :
    res (list (string * Z)) :=
  sel ← select df cols; frame_sum sel.

(** [df[cols].sum().sum()]. *)
Definition grand_total (df : DataFrame) (cols : list string) : res Z :=
  sums ← product_mix df cols; Ok (Zsum sums.*2).

(** Lines 70-71. *)
Definition total_orders (orders_filtered : DataFrame) : res Z :=
  grand_total orders_filtered bread_columns.

Definition total_loaded (despatch_filtered : DataFrame) : res Z :=
  grand_total despatch_filtered bread_columns.

(** [Series.mean()] of a boolean Series, in exact arithmetic: the share
    of [True], NaN when the Series is empty. *)
Definition mask_mean (mask : list bool) : option Qc :=
  match mask with
  | [] => None
  | _ => Some (Qc_of_Z (Z.of_nat (mask_count mask))
               / Qc_of_Z (Z.of_nat (length mask)))%Qc
  end.

(** Line 72, in exact arithmetic. *)
Definition dc_percent (despatch_filtered : DataFrame) : res (option Qc) :=
  status ← getitem despatch_filtered "DEPARTURE COMPLIANCE STATUS";
  Ok ((λ mean, mean * Qc_of_Z 100)%Qc <$> mask_mean (eq_mask status (Str "On-time"))).

(** Line 73, in exact arithmetic. *)
Definition order_fill (total_loaded total_orders : Z) : Qc :=
  if decide (0 < total_orders)%Z
  then (Qc_of_Z total_loaded / Qc_of_Z total_orders * Qc_of_Z 100)%Qc
  else 0%Qc.

(** The four numbers of the summary cards, computed in the order of lines
    70-73. *)
Record kpis : Type := mkKpis {
  kpi_total_orders : Z;
  kpi_total_loaded : Z;
  kpi_dc_percent : option Qc;
  kpi_order_fill : Qc
}.

Definition summary_kpis (orders_filtered despatch_filtered : DataFrame) :
    res kpis :=
  total_orders ← total_orders orders_filtered;
  total_loaded ← total_loaded despatch_filtered;
  dc_percent ← dc_percent despatch_filtered;
  Ok (mkKpis total_orders total_loaded dc_percent
             (order_fill total_loaded total_orders)).

(** [[df[col].sum() for col in cols]]. *)
Definition column_sums (df : DataFrame) (cols : list string) : res (list Z) :=
  res_mapM (λ col, s ← getitem df col; series_sum s) cols.

(** Lines 87-91, 104-108 and 117-121: the SKU, ordered and loaded
    columns. *)
Definition sku_df (cols : list string)
    (orders_filtered despatch_filtered : DataFrame) : res DataFrame :=
  Ordered ← column_sums orders_filtered cols;
  Loaded ← column_sums despatch_filtered cols;
  Ok (mkDF (RangeIndex (length cols))
           [("SKU", Str <$> cols);
            ("Ordered", Num <$> Ordered);
            ("Loaded", Num <$> Loaded)]).

(** Lines 104-108 and lines 117-121: the tables of the other two pages. *)
Definition bread_sku_df (orders_filtered despatch_filtered : DataFrame) :
    res DataFrame :=
  sku_df bread_columns orders_filtered despatch_filtered.

Definition biscuits_df (orders_filtered despatch_filtered : DataFrame) :
    res DataFrame :=
  sku_df biscuit_columns orders_filtered despatch_filtered.

(** ** Row-wise reference for the totals *)

(** What one row contributes to the total over [cols]. *)
Definition row_total (cols : list string) (r : row) : Z :=
  Zsum ((λ c, cell_val (row_get r c)) <$> cols).

(** The number of rows whose departure status is on time. *)
Definition on_time (r : row) : bool :=
  cell_eq (row_get r "DEPARTURE COMPLIANCE STATUS") (Str "On-time").

(** ** Per-column sums *)

Section column_sums.
Implicit Types (df : DataFrame) (cols : list string) (zs : list Z).

(** The columns [sum] accepts: present, and holding numbers and gaps. *)
Definition summable (df : DataFrame) (c : string) : Prop :=
  c ∈ columns df ∧ Forall (λ x, numeric x = true) (column df c).

#[export] Instance summable_dec df c : Decision (summable df c).
Proof. unfold summable. apply _. Defined.

Lemma column_sum_Ok df c z :
  (s ← getitem df c; series_sum s) = Ok z ↔
  summable df c ∧ z = Zsum (cell_val <$> column df c).
Proof.
  rewrite res_bind_Ok_inv. setoid_rewrite getitem_Ok.
  setoid_rewrite series_sum_Ok. unfold summable. naive_solver.
Qed.

Lemma column_sums_Ok df cols zs :
  column_sums df cols = Ok zs ↔
  Forall (summable df) cols ∧
  zs = (λ c, Zsum (cell_val <$> column df c)) <$> cols.
Proof.
  unfold column_sums. rewrite res_mapM_Ok_Forall2, <-Forall2_fun.
  apply Forall2_ext. intros c z. apply column_sum_Ok.
Qed.

Lemma column_sums_length df cols zs :
  column_sums df cols = Ok zs → length zs = length cols.
Proof. intros [_ ->]%column_sums_Ok. apply length_fmap. Qed.

Lemma summable_incl df cols : Forall (summable df) cols → cols ⊆ columns df.
Proof. rewrite Forall_forall. intros H c Hc. by apply H. Qed.

(** Line 82 against the list comprehension of lines 89-90: the same
    numbers, labelled. *)
Lemma product_mix_column_sums df cols :
  cols ⊆ columns df →
  product_mix df cols = zip cols <$> column_sums df cols.
Proof.
  intros Hsub. unfold product_mix, column_sums, frame_sum.
  rewrite select_Ok by done. cbn. rewrite res_mapM_fmap.
  induction cols as [|c cols IH]; [done|]. cbn.
  rewrite getitem_column by (apply Hsub; left). cbn.
  destruct (series_sum (column df c)); cbn; [|done].
  rewrite IH by (intros x Hx; apply Hsub; by right).
  match goal with |- context [res_mapM ?f cols] => by destruct (res_mapM f cols) end.
Qed.

Lemma product_mix_Ok df cols sums :
  product_mix df cols = Ok sums ↔
  Forall (summable df) cols ∧
  sums = (λ c, (c, Zsum (cell_val <$> column df c))) <$> cols.
Proof.
  assert (Hzip : ∀ h : string → Z, zip cols (h <$> cols) = (λ c, (c, h c)) <$> cols).
  { intros h. induction cols as [|c cols IH]; cbn; [done|]. by rewrite IH. }
  split.
  - intros H. assert (Hsub : cols ⊆ columns df).
    { unfold product_mix in H. res_step H as sel Hsel. by eapply select_incl. }
    rewrite product_mix_column_sums in H by done.
    apply res_fmap_Ok_inv in H as (zs & [Hs ->]%column_sums_Ok & ->).
    by rewrite Hzip.
  - intros [Hs ->]. rewrite product_mix_column_sums by by apply summable_incl.
    rewrite (proj2 (column_sums_Ok _ _ _) (conj Hs eq_refl)). cbn. by rewrite Hzip.
Qed.

(** The total is defined exactly on summable columns, and is then the sum
    of their sums. *)
Lemma grand_total_Ok df cols t :
  grand_total df cols = Ok t ↔
  Forall (summable df) cols ∧
  t = Zsum ((λ c, Zsum (cell_val <$> column df c)) <$> cols).
Proof.
  unfold grand_total. rewrite res_bind_Ok_inv. setoid_rewrite product_mix_Ok.
  split.
  - intros (sums & [Hs ->] & [= <-]). by rewrite <-list_fmap_compose.
  - intros [Hs ->]. eexists. split; [done|]. by rewrite <-list_fmap_compose.
Qed.

(** Column sums add up to row totals. *)
Lemma column_totals_rows df cols :
  wf_frame df → cols ⊆ columns df →
  Zsum ((λ c, Zsum (cell_val <$> column df c)) <$> cols) =
  Zsum (row_total cols <$> rows df).
Proof.
  intros Hwf Hsub.
  change (row_total cols) with
    (λ r : row, Zsum ((λ c, (λ r c, cell_val (row_get r c)) r c) <$> cols)).
  rewrite <-(Zsum_exchange (λ (r : row) c, cell_val (row_get r c))). f_equal.
  apply list_fmap_ext. intros _ c Hc%list_elem_of_lookup_2; cbn.
  rewrite column_rows; [|done|by apply Hsub].
  unfold column_of. by rewrite <-list_fmap_compose.
Qed.

(** C26.  The total of line 70 (and 71) is defined exactly when every
    listed column is present and numeric, and is then the sum of the
    per-SKU sums that the bar chart and the SKU table show. *)
Theorem grand_total_column_sums df cols t :
  grand_total df cols = Ok t ↔
  ∃ zs, column_sums df cols = Ok zs ∧ t = Zsum zs.
Proof.
  rewrite grand_total_Ok. setoid_rewrite column_sums_Ok. naive_solver.
Qed.

(** C3.  The total is the sum over the rows of what each row holds in
    the listed columns, gaps counting as 0: summing column by column, as
    pandas does, or row by row gives the same number. *)
Theorem grand_total_rows df cols t :
  wf_frame df → grand_total df cols = Ok t →
  t = Zsum (row_total cols <$> rows df).
Proof.
  intros Hwf [Hs ->]%grand_total_Ok.
  by apply column_totals_rows, summable_incl.
Qed.

Lemma grand_total_total df cols :
  Forall (summable df) cols → is_ok (grand_total df cols) = true.
Proof.
  intros Hs. apply is_ok_true. eexists. by apply grand_total_Ok.
Qed.
End column_sums.

(** ** Totals under filtering *)

Section totals.
Implicit Types (df : DataFrame) (cols : list string) (mask : list bool).

Lemma summable_loc df mask c : summable df c → summable (loc df mask) c.
Proof.
  intros [Hc Hn]. split; [by rewrite columns_loc|].
  rewrite column_loc. by apply Forall_compress.
Qed.

Lemma grand_total_summable_rows df cols :
  wf_frame df → Forall (summable df) cols →
  grand_total df cols = Ok (Zsum (row_total cols <$> rows df)).
Proof.
  intros Hwf Hs. apply grand_total_Ok. split; [done|].
  symmetry. by apply column_totals_rows, summable_incl.
Qed.

Lemma grand_total_loc df cols mask :
  wf_frame df → length mask = nrows df → Forall (summable df) cols →
  grand_total (loc df mask) cols =
  Ok (Zsum (row_total cols <$> compress mask (rows df))).
Proof.
  intros Hwf Hm Hs. rewrite <-rows_loc by done.
  apply grand_total_summable_rows; [by apply loc_wf|].
  eapply Forall_impl; [done|]. intros c. apply summable_loc.
Qed.

(** C27.  A total over a frame is the total over the rows a mask keeps
    plus the total over the rows it drops; in particular filtering never
    turns a total that was defined into an exception. *)
Theorem grand_total_loc_split df cols mask t :
  wf_frame df → length mask = nrows df → grand_total df cols = Ok t →
  ∃ t1 t2, grand_total (loc df mask) cols = Ok t1 ∧
           grand_total (loc df (negb <$> mask)) cols = Ok t2 ∧
           t = (t1 + t2)%Z.
Proof.
  intros Hwf Hm Ht. pose proof (proj1 (grand_total_Ok _ _ _) Ht) as [Hs _].
  rewrite grand_total_summable_rows in Ht by done. injection Ht as <-.
  do 2 eexists. split_and!; [apply grand_total_loc; by rewrite ?length_fmap..|].
  rewrite <-!compress_fmap. apply Zsum_compress_split.
  by rewrite length_fmap, rows_length.
Qed.

(** A frame without rows totals 0 over any columns it has. *)
Lemma grand_total_empty df cols :
  wf_frame df → nrows df = 0 → cols ⊆ columns df →
  grand_total df cols = Ok 0%Z.
Proof.
  intros Hwf Hn Hsub.
  assert (Hcol : ∀ c, c ∈ cols → column df c = []).
  { intros c Hc. apply nil_length_inv. rewrite <-Hn.
    eapply wf_frame_height; [done|]. by apply getitem_column, Hsub. }
  apply grand_total_Ok. split.
  - apply Forall_forall. intros c Hc. split; [by apply Hsub|]. by rewrite Hcol.
  - symmetry. apply Zsum_zero, Forall_fmap, Forall_forall. intros c Hc; cbn.
    by rewrite Hcol.
Qed.

(** Quantities within [lo, hi] bound the total by rows * columns * bound. *)
Definition cells_within (lo hi : Z) (df : DataFrame) (cols : list string) : Prop :=
  Forall (λ c, Forall (λ x, lo ≤ cell_val x ≤ hi)%Z (column df c)) cols.

#[export] Instance cells_within_dec lo hi df cols :
  Decision (cells_within lo hi df cols).
Proof. unfold cells_within. apply _. Defined.

(** C30.  If every quantity of the listed columns lies between [lo] and
    [hi] (with [lo ≤ 0 ≤ hi]), the total lies between [lo] and [hi] times
    rows times columns: for realistic extracts it is far from the 2^53 at
    which a float64 sum would stop being exact, and from the int64 range. *)
Theorem total_bound lo hi df cols t :
  wf_frame df → (lo ≤ 0 ≤ hi)%Z → cells_within lo hi df cols →
  grand_total df cols = Ok t →
  (lo * Z.of_nat (nrows df * length cols) ≤ t
   ≤ hi * Z.of_nat (nrows df * length cols))%Z.
Proof.
  intros Hwf H0 Hb [Hs ->]%grand_total_Ok.
  assert (Hz : Forall (λ z, lo * Z.of_nat (nrows df) ≤ z ≤ hi * Z.of_nat (nrows df))%Z
                 ((λ c, Zsum (cell_val <$> column df c)) <$> cols)).
  { apply Forall_fmap, Forall_forall. intros c Hc; cbn.
    pose proof (proj1 (Forall_forall _ _) Hb c Hc) as Hbc.
    pose proof (proj1 (Forall_forall _ _) Hs c Hc) as [Hin _].
    rewrite <-(wf_frame_height df c (column df c)), <-(length_fmap cell_val);
      [|done|by apply getitem_column].
    by apply Zsum_bounds, Forall_fmap. }
  apply Zsum_bounds in Hz. rewrite length_fmap in Hz. nia.
Qed.
End totals.

(** ** Percentages *)

Section percentages.
Implicit Types (mask : list bool) (q : Qc) (d : DataFrame).
#[local] Open Scope Qc_scope.

Lemma Qc_of_nat_pos (n : nat) : n ≠ 0%nat → 0 < Qc_of_Z (Z.of_nat n).
Proof. intros. rewrite <-Z2Qc_inj_0, <-Z2Qc_inj_lt. lia. Qed.

Lemma Qc_of_Z_ne_0 (z : Z) : z ≠ 0%Z → Qc_of_Z z ≠ 0.
Proof. intros Hz. rewrite <-Z2Qc_inj_0. by intros ?%Z2Qc_inj. Qed.

Lemma mask_mean_None mask : mask_mean mask = None ↔ mask = [].
Proof. by destruct mask. Qed.

(** The mean, without division: mean * length = count. *)
Lemma mask_mean_Some mask q :
  mask_mean mask = Some q ↔
  mask ≠ [] ∧ q * Qc_of_Z (Z.of_nat (length mask))
              = Qc_of_Z (Z.of_nat (mask_count mask)).
Proof.
  destruct mask as [|b mask]; [naive_solver|].
  unfold mask_mean.
  set (n := Qc_of_Z (Z.of_nat (length (b :: mask)))).
  set (k := Qc_of_Z (Z.of_nat (mask_count (b :: mask)))).
  assert (Hn : n ≠ 0) by (apply Qc_of_Z_ne_0; cbn; lia).
  split.
  - intros [= <-]. split; [done|]. by field.
  - intros [_ <-]. f_equal. by field.
Qed.

Lemma mask_mean_range mask q : mask_mean mask = Some q → 0 ≤ q ≤ 1.
Proof.
  intros [Hne H]%mask_mean_Some.
  assert (Hn : 0 < Qc_of_Z (Z.of_nat (length mask))).
  { apply Qc_of_nat_pos. by destruct mask. }
  split; apply (Qcmult_lt_0_le_reg_r _ _ _ Hn); rewrite H.
  - rewrite Qcmult_0_l, <-Z2Qc_inj_0, <-Z2Qc_inj_le. lia.
  - rewrite Qcmult_1_l, <-Z2Qc_inj_le. pose proof (mask_count_le mask). lia.
Qed.

(** C5.  The departure-compliance percentage of line 72: on a despatch
    frame with n > 0 rows of which k are on time it is the rational p with
    p * n = 100 * k; on a frame with no rows it is NaN, not 0. *)
Theorem dc_percent_rows d p :
  wf_frame d → dc_percent d = Ok p →
  match p with
  | None => nrows d = 0%nat
  | Some q =>
      nrows d ≠ 0%nat ∧
      q * Qc_of_Z (Z.of_nat (nrows d)) =
      Qc_of_Z (100 * Z.of_nat (length (filter (λ r, on_time r = true) (rows d))))
  end.
Proof.
  intros Hwf H. unfold dc_percent in H. res_step H as status Hs.
  injection H as <-.
  pose proof (wf_frame_height _ _ _ Hwf Hs) as Hlen.
  rewrite (getitem_rows _ _ _ Hwf Hs). unfold eq_mask.
  rewrite <-list_fmap_compose.
  change ((λ c, cell_eq c (Str "On-time")) ∘ _) with on_time.
  destruct (mask_mean (on_time <$> rows d)) as [q|] eqn:E; cbn.
  - apply mask_mean_Some in E as [Hne E].
    rewrite length_fmap, rows_length, mask_count_fmap in E. split.
    + intros Hn. apply Hne. apply nil_length_inv.
      by rewrite length_fmap, rows_length.
    + rewrite Z2Qc_inj_mul, <-E. ring.
  - apply mask_mean_None, fmap_nil_inv in E. by rewrite <-rows_length, E.
Qed.

(** C31.  When it is a number, the departure-compliance percentage lies
    between 0 and 100. *)
Theorem dc_percent_range d q :
  dc_percent d = Ok (Some q) → 0 ≤ q ≤ Qc_of_Z 100.
Proof.
  intros H. unfold dc_percent in H. res_step H as status Hs.
  injection H as H. destruct (mask_mean _) as [m|] eqn:E; [|done].
  injection H as <-. apply mask_mean_range in E as [E0 E1]. split.
  - apply Qcmult_nonneg_nonneg; [done|]. by rewrite <-Z2Qc_inj_0, <-Z2Qc_inj_le.
  - rewrite <-(Qcmult_1_l (Qc_of_Z 100)) at 2.
    apply Qcmult_le_mono_nonneg_r; [|done]. by rewrite <-Z2Qc_inj_0, <-Z2Qc_inj_le.
Qed.

(** The order-fill percentage of line 73: 0 when nothing was
    ordered (whatever was loaded), and otherwise the rational p with
    p * ordered = 100 * loaded. *)
Lemma order_fill_spec (total_loaded total_orders : Z) :
  ((total_orders ≤ 0)%Z ∧ order_fill total_loaded total_orders = 0) ∨
  ((0 < total_orders)%Z ∧
   order_fill total_loaded total_orders * Qc_of_Z total_orders
   = Qc_of_Z (100 * total_loaded)).
Proof.
  destruct (decide (0 < total_orders)%Z) as [Hpos|Hn].
  - right. split; [done|]. unfold order_fill. rewrite decide_True, Z2Qc_inj_mul by done.
    assert (Qc_of_Z total_orders ≠ 0) by (apply Qc_of_Z_ne_0; lia). by field.
  - left. split; [lia|]. unfold order_fill. by rewrite decide_False.
Qed.

Lemma order_fill_pos (total_loaded total_orders : Z) :
  (0 < total_orders)%Z →
  order_fill total_loaded total_orders * Qc_of_Z total_orders
  = Qc_of_Z (100 * total_loaded).
Proof.
  intros Hpos. unfold order_fill. rewrite decide_True, Z2Qc_inj_mul by done.
  assert (Qc_of_Z total_orders ≠ 0) by (apply Qc_of_Z_ne_0; lia). by field.
Qed.

(** The fill is 100 exactly when what was loaded is what was ordered. *)
Lemma order_fill_full (total_loaded total_orders : Z) :
  (0 < total_orders)%Z →
  order_fill total_loaded total_orders = Qc_of_Z 100 ↔ total_loaded = total_orders.
Proof.
  intros Hpos. pose proof (order_fill_pos total_loaded _ Hpos) as H. split.
  - intros Heq. rewrite Heq, <-Z2Qc_inj_mul in H. apply Z2Qc_inj in H. lia.
  - intros ->. unfold order_fill. rewrite decide_True by done.
    field. apply Qc_of_Z_ne_0. lia.
Qed.
End percentages.

(** ** The summary on empty input *)

(** C10.  With no order row and no despatch row (the outcome of an empty
    route selection) the totals and the order fill are 0 and the
    departure-compliance percentage is NaN: the card shows "nan%". *)
Theorem summary_kpis_empty o d :
  wf_frame o → wf_frame d → nrows o = 0 → nrows d = 0 →
  bread_columns ⊆ columns o → bread_columns ⊆ columns d →
  "DEPARTURE COMPLIANCE STATUS" ∈ columns d →
  summary_kpis o d = Ok (mkKpis 0 0 None 0%Qc).
Proof.
  intros Ho Hd Hno Hnd Hbo Hbd Hs. unfold summary_kpis, total_orders, total_loaded.
  rewrite !grand_total_empty by done. cbn.
  unfold dc_percent. rewrite getitem_column by done. cbn.
  assert (column d "DEPARTURE COMPLIANCE STATUS" = []) as ->; [|done].
  apply nil_length_inv. rewrite <-Hnd.
  eapply wf_frame_height; [done|]. by apply getitem_column.
Qed.

(** ** The per-SKU table *)

Section sku_df.
Implicit Types (o d s : DataFrame) (cols : list string).

Lemma rows_of_fmap3 {A} (k1 k2 k3 : string) (f1 f2 f3 : A → cell) (l : list A) :
  rows_of (length l) [(k1, f1 <$> l); (k2, f2 <$> l); (k3, f3 <$> l)] =
  (λ x, [(k1, f1 x); (k2, f2 x); (k3, f3 x)]) <$> l.
Proof. induction l as [|x l IH]; cbn; [done|]. by rewrite <-IH. Qed.

(** The per-SKU sum of one frame, as the table shows it. *)
Definition sku_sum (df : DataFrame) (c : string) : cell :=
  Num (Zsum (cell_val <$> column df c)).

Lemma sku_df_Ok cols o d s :
  sku_df cols o d = Ok s ↔
  Forall (summable o) cols ∧ Forall (summable d) cols ∧
  s = mkDF (RangeIndex (length cols))
        [("SKU", Str <$> cols); ("Ordered", sku_sum o <$> cols);
         ("Loaded", sku_sum d <$> cols)].
Proof.
  unfold sku_df. rewrite res_bind_Ok_inv. setoid_rewrite res_bind_Ok_inv.
  setoid_rewrite column_sums_Ok. split.
  - intros (zo & [Ho ->] & zl & [Hd ->] & [= <-]). split_and!; [done..|].
    by rewrite <-!list_fmap_compose.
  - intros (Ho & Hd & ->). do 2 (eexists; split; [done|]).
    by rewrite <-!list_fmap_compose.
Qed.

(** C28.  The per-SKU table has one row per SKU of the list, in the
    list's order, holding the SKU's name, the sum of its column over the
    order rows and the sum of its column over the despatch rows. *)
Theorem sku_df_rows cols o d s :
  sku_df cols o d = Ok s →
  (rows s).*2 =
  (λ c, [("SKU", Str c); ("Ordered", sku_sum o c); ("Loaded", sku_sum d c)])
    <$> cols.
Proof.
  intros (_ & _ & ->)%sku_df_Ok. unfold rows, nrows; cbn [df_index df_data].
  rewrite RangeIndex_length, rows_of_fmap3, snd_zip; [done|].
  by rewrite RangeIndex_length, length_fmap.
Qed.

(** C37.  The per-SKU table is a well-formed frame. *)
Theorem sku_df_wf cols o d s : sku_df cols o d = Ok s → wf_frame s.
Proof.
  intros (_ & _ & ->)%sku_df_Ok. split_and!.
  - cbn. by apply (bool_decide_unpack _).
  - apply RangeIndex_NoDup.
  - unfold nrows; cbn. rewrite RangeIndex_length.
    repeat constructor; cbn; by rewrite length_fmap.
Qed.

Lemma series_sum_Num zs : series_sum (Num <$> zs) = Ok (Zsum zs).
Proof.
  apply series_sum_Ok. split; [by apply Forall_fmap, Forall_true|].
  rewrite <-list_fmap_compose. by rewrite list_fmap_id.
Qed.

Lemma grand_total_summable df cols :
  Forall (summable df) cols →
  grand_total df cols = series_sum (sku_sum df <$> cols).
Proof.
  intros Hs.
  change (sku_sum df) with (Num ∘ (λ c, Zsum (cell_val <$> column df c))).
  rewrite list_fmap_compose, series_sum_Num. by apply grand_total_Ok.
Qed.

(** C29.  The "Total Orders" card and the bread table agree: the total of
    line 70 is the sum of the table's Ordered column, and the total of
    line 71 the sum of its Loaded column. *)
Theorem sku_df_totals o d s :
  sku_df bread_columns o d = Ok s →
  total_orders o = series_sum (column s "Ordered") ∧
  total_loaded d = series_sum (column s "Loaded").
Proof.
  intros (Ho & Hd & ->)%sku_df_Ok. unfold total_orders, total_loaded.
  by rewrite !grand_total_summable.
Qed.
End sku_df.

(** ** The theorems on the scenario *)

Section scenario.
#[local] Open Scope Qc_scope.

Lemma grand_total_rows_witness :
  40%Z = Zsum (row_total bread_columns <$> rows scn_orders_filtered).
Proof.
  apply (grand_total_rows scn_orders_filtered bread_columns 40);
    [compute_done | vm_compute; reflexivity].
Defined.

Definition scn_dc_percent : Qc :=
  Qc_of_Z 1 / Qc_of_Z 2 * Qc_of_Z 100.

Lemma scn_dc_percent_eq :
  dc_percent scn_despatch_filtered = Ok (Some scn_dc_percent).
Proof. vm_compute. reflexivity. Qed.

Lemma dc_percent_rows_witness :
  nrows scn_despatch_filtered ≠ 0%nat ∧
  scn_dc_percent * Qc_of_Z (Z.of_nat (nrows scn_despatch_filtered)) =
  Qc_of_Z (100 * Z.of_nat (length (filter (λ r, on_time r = true)
                                          (rows scn_despatch_filtered)))).
Proof.
  apply (dc_percent_rows scn_despatch_filtered (Some scn_dc_percent));
    [compute_done | exact scn_dc_percent_eq].
Defined.

Lemma dc_percent_range_witness : 0 ≤ scn_dc_percent ≤ Qc_of_Z 100.
Proof. apply (dc_percent_range scn_despatch_filtered), scn_dc_percent_eq. Defined.

Lemma summary_kpis_empty_witness :
  summary_kpis (loc scn_orders [false; false; false; false])
               (loc scn_despatch [false; false; false])
  = Ok (mkKpis 0 0 None 0).
Proof. apply summary_kpis_empty; compute_done. Defined.

Lemma grand_total_loc_split_witness :
  ∃ t1 t2,
    grand_total (loc scn_orders [true; true; false; false]) bread_columns = Ok t1 ∧
    grand_total (loc scn_orders (negb <$> [true; true; false; false]))
      bread_columns = Ok t2 ∧
    53%Z = (t1 + t2)%Z.
Proof.
  apply grand_total_loc_split; [compute_done | done | vm_compute; reflexivity].
Defined.

Definition scn_sku_df : DataFrame :=
  mkDF (RangeIndex 6)
    [("SKU", Str <$> bread_columns);
     ("Ordered", Num <$> [30; 1; 0; 4; 0; 5]%Z);
     ("Loaded", Num <$> [27; 1; 0; 4; 0; 4]%Z)].

Lemma scn_sku_df_eq :
  sku_df bread_columns scn_orders_filtered scn_despatch_filtered = Ok scn_sku_df.
Proof. vm_compute. reflexivity. Qed.

Lemma sku_df_rows_witness :
  (rows scn_sku_df).*2 =
  (λ c, [("SKU", Str c); ("Ordered", sku_sum scn_orders_filtered c);
         ("Loaded", sku_sum scn_despatch_filtered c)]) <$> bread_columns.
Proof. apply sku_df_rows, scn_sku_df_eq. Defined.

Lemma sku_df_wf_witness : wf_frame scn_sku_df.
Proof.
  apply (sku_df_wf bread_columns scn_orders_filtered scn_despatch_filtered),
    scn_sku_df_eq.
Defined.

Lemma sku_df_totals_witness :
  total_orders scn_orders_filtered = series_sum (column scn_sku_df "Ordered") ∧
  total_loaded scn_despatch_filtered = series_sum (column scn_sku_df "Loaded").
Proof. apply sku_df_totals, scn_sku_df_eq. Defined.

Lemma total_bound_witness :
  (0 * Z.of_nat (nrows scn_orders * length bread_columns) ≤ 53
   ≤ 20 * Z.of_nat (nrows scn_orders * length bread_columns))%Z.
Proof.
  apply (total_bound 0 20 scn_orders bread_columns 53);
    [compute_done | lia | compute_done | vm_compute; reflexivity].
Defined.

(** With every area deselected the order rows are gone but the despatch
    rows of the period are all kept, and so is what they loaded. *)
Example no_areas_despatch_kept :
  ∃ o d, filters scn_no_areas scn_orders scn_despatch scn_index = Ok (o, d) ∧
    nrows o = 0%nat ∧ nrows d = 3%nat ∧
    total_orders o = Ok 0%Z ∧ total_loaded d = Ok 46%Z.
Proof. do 2 eexists. split; [vm_compute; reflexivity|]. by vm_compute. Qed.

(** The biscuit table of the scenario. *)
Example scn_biscuits_df :
  (r ← biscuits_df scn_orders_filtered scn_despatch_filtered;
   Ok (column r "Ordered", column r "Loaded"))
  = Ok ([Num 6; Num 0; Num 2], [Num 6; Num 0; Num 1])%Z.
Proof. vm_compute. reflexivity. Qed.
End scenario.
