(* ===== verification/Breakdown.v ===== *)
(** * Breakdown: the per-area table and the compliance counts (lines
    96-98 and 127)

    [groupby_sum] is [df.groupby(key)[cols].sum().sum(axis=1)]: one total
    per distinct non-missing key, the keys sorted.  [area_table] is the
    three statements of lines 96-98: the ordered totals per area of the
    filtered orders, the loaded totals of the filtered despatch grouped by
    its own [AREA] column and aligned on the areas of the orders by
    [reindex], and their difference.  [value_counts] is
    [Series.value_counts()]: the number of occurrences of each
    non-missing label, by falling count; labels of equal count are kept
    in the order of their first occurrence.

    The reference [area_table_spec] says what the table holds row by row,
    in terms of the rows of the two filtered frames.  [text_keyed] is a
    key column whose labels are not numbers, on which the sort of
    [groupby] cannot raise: with summable quantities the table is then
    produced ([area_table_is_Ok]). *)

From stdpp Require Import sorting.
From S2P Require Import Prelude Cell Frame Sorting Scenario Filter Aggregate.

#[local] Set Warnings "-clear-no-such-hyp".

(** [df.groupby(key)[cols].sum().sum(axis=1)] as the list of its (label,
    value) pairs.  The key column is looked up first, then the columns to
    sum; a group is the rows whose key equals a label. *)
Definition groupby_sum (df : DataFrame) (key : string) (cols : list string) :
    res (list (cell * Z)) :=
  KEY ← getitem df key;
  _ ← select df cols;
  keys ← sort_values (unique (dropna KEY));
  res_mapM (λ k, total ← grand_total (loc df (eq_mask KEY k)) cols;
                 Ok (k, total)) keys.

(** [s.reindex(labels).values]: the value at each label, NaN where the
    Series has no such label. *)
Definition reindex (s : list (cell * Z)) (labels : list cell) : list cell :=
  (λ l, from_option Num Null (assoc l s)) <$> labels.

(** Subtraction of two numeric cells; NaN when either is missing. *)
Definition cell_sub (a b : cell) : cell :=
  match a, b with
  | Num x, Num y => Num (x - y)
  | _, _ => Null
  end.

(** Lines 96-98. *)
Definition area_table (orders_filtered despatch_filtered : DataFrame) :
    res DataFrame :=
  ordered ← groupby_sum orders_filtered "AREA" bread_columns;
  let area_table :=
    mkDF (RangeIndex (length ordered))
         [("AREA", ordered.*1); ("Total Ordered", Num <$> ordered.*2)] in
  loaded ← groupby_sum despatch_filtered "AREA" bread_columns;
  AREA ← getitem area_table "AREA";
  let area_table := setitem area_table "Total Loaded" (reindex loaded AREA) in
  Ordered ← getitem area_table "Total Ordered";
  Loaded ← getitem area_table "Total Loaded";
  Ok (setitem area_table "Variance" (zip_with cell_sub Ordered Loaded)).

(** [Series.value_counts()]. *)
Definition count_ge (a b : cell * nat) : Prop := b.2 ≤ a.2.

#[export] Instance count_ge_dec : RelDecision count_ge.
Proof. intros a b. unfold count_ge. apply _. Defined.

Definition value_counts (s : list cell) : list (cell * nat) :=
  isort count_ge ((λ v, (v, count_occ_cell v s)) <$> unique (dropna s)).

(** Line 127. *)
Definition compliance_counts (despatch_filtered : DataFrame) :
    res (list (cell * nat)) :=
  value_counts <$> getitem despatch_filtered "LOADING COMPLIANCE STATUS".

(** A key column that [groupby] can sort: no label is a number. *)
Definition text_keyed (df : DataFrame) (key : string) : Prop :=
  key ∈ columns df ∧ Forall (λ c, is_num c = false) (column df key).

(** ** Row-wise reference *)

(** The rows of a group, the labels of the groups and the total of one
    group. *)
Definition group_rows (key : string) (k : cell) (rs : list row) : list row :=
  filter (λ r, row_get r key = k) rs.

Definition group_keys (key : string) (rs : list row) : list cell :=
  isort cell_le (unique (dropna (column_of key rs))).

Definition group_total (key : string) (cols : list string) (rs : list row)
    (k : cell) : Z :=
  Zsum (row_total cols <$> group_rows key k rs).

(** What the despatch side contributes for an area: its total when some
    despatch row carries that area, the missing value otherwise. *)
Definition area_loaded (despatch_rows : list row) (a : cell) : cell :=
  if decide (a ∈ column_of "AREA" despatch_rows)
  then Num (group_total "AREA" bread_columns despatch_rows a)
  else Null.

Definition area_row (order_rows despatch_rows : list row) (a : cell) :
    list (string * cell) :=
  let ordered := Num (group_total "AREA" bread_columns order_rows a) in
  let loaded := area_loaded despatch_rows a in
  [("AREA", a); ("Total Ordered", ordered); ("Total Loaded", loaded);
   ("Variance", cell_sub ordered loaded)].

Definition area_table_spec (order_rows despatch_rows : list row) :
    list (list (string * cell)) :=
  area_row order_rows despatch_rows <$> group_keys "AREA" order_rows.

(** ** Groups *)

Section groups.
Implicit Types (df : DataFrame) (key : string) (cols : list string) (k : cell).

Lemma group_mask_rows df key k :
  wf_frame df → key ∈ columns df → k ≠ Null →
  rows (loc df (eq_mask (column df key) k)) = group_rows key k (rows df).
Proof.
  intros Hwf Hkey Hk.
  rewrite (eq_mask_rows df key) by by (try apply getitem_column).
  rewrite rows_loc_filter by done. apply list_filter_iff. intros r.
  unfold date_matches. rewrite cell_eq_true. naive_solver.
Qed.

Lemma group_total_Ok df key cols k t :
  wf_frame df → key ∈ columns df → k ≠ Null →
  grand_total (loc df (eq_mask (column df key) k)) cols = Ok t →
  t = group_total key cols (rows df) k.
Proof.
  intros Hwf Hkey Hk [Hs ->]%grand_total_Ok. unfold group_total.
  rewrite <-group_mask_rows by done.
  apply column_totals_rows; [|by apply summable_incl].
  apply loc_wf; [done|]. rewrite eq_mask_length.
  eapply wf_frame_height; [done|]. by apply getitem_column.
Qed.

Lemma group_keys_column df key :
  wf_frame df → key ∈ columns df →
  isort cell_le (unique (dropna (column df key))) = group_keys key (rows df).
Proof. intros Hwf Hkey. unfold group_keys. by rewrite <-column_rows. Qed.

Lemma elem_of_group_keys key rs k :
  k ∈ group_keys key rs ↔ k ∈ column_of key rs ∧ k ≠ Null.
Proof.
  unfold group_keys. by rewrite elem_of_isort, elem_of_unique, elem_of_dropna.
Qed.

Lemma group_keys_NoDup key rs : NoDup (group_keys key rs).
Proof. apply isort_NoDup, NoDup_unique. Qed.

Lemma group_keys_sorted key rs : StronglySorted cell_le (group_keys key rs).
Proof. apply isort_StronglySorted; apply _. Qed.

(** What a successful [groupby_sum] returns. *)
Lemma groupby_sum_Ok_inv df key cols s :
  wf_frame df → groupby_sum df key cols = Ok s →
  key ∈ columns df ∧ cols ⊆ columns df ∧
  s = (λ k, (k, group_total key cols (rows df) k)) <$> group_keys key (rows df).
Proof.
  intros Hwf H. unfold groupby_sum in H.
  res_step H as KEY HKEY. apply getitem_Ok in HKEY as [Hkey ->].
  res_step H as sel Hsel. apply select_incl in Hsel.
  res_step H as keys Hkeys. apply sort_values_Ok in Hkeys as [_ ->].
  rewrite group_keys_column in H by done. split_and!; [done..|].
  eapply res_mapM_Ok_fmap; [|exact H]. cbn. intros k [k' t] Hk Ht.
  res_step Ht as t' Ht'. injection Ht as <- <-. f_equal.
  apply elem_of_group_keys in Hk as [_ Hk]. by eapply group_total_Ok.
Qed.
End groups.

(** ** The per-area table *)

Section area_table.
Implicit Types (o d t : DataFrame) (a : cell).

Lemma assoc_graph {A B} `{EqDecision A} (h : A → B) (l : list A) (x : A) :
  assoc x ((λ y, (y, h y)) <$> l) = if decide (x ∈ l) then Some (h x) else None.
Proof.
  induction l as [|y l IH]; cbn; [done|]. rewrite IH.
  destruct (decide (y = x)) as [->|]; [by rewrite decide_True by left|].
  apply option_eq. intros b. repeat case_decide; set_solver.
Qed.

Lemma reindex_groups (h : cell → Z) (keys labels : list cell) :
  reindex ((λ k, (k, h k)) <$> keys) labels
  = (λ l, if decide (l ∈ keys) then Num (h l) else Null) <$> labels.
Proof.
  unfold reindex. apply list_fmap_ext. intros _ l _. rewrite assoc_graph.
  by case_decide.
Qed.

Lemma area_loaded_keys rs a :
  a ≠ Null →
  (if decide (a ∈ group_keys "AREA" rs)
   then Num (group_total "AREA" bread_columns rs a) else Null)
  = area_loaded rs a.
Proof.
  intros Ha. unfold area_loaded. apply decide_ext.
  rewrite elem_of_group_keys. naive_solver.
Qed.

Lemma area_table_frame (ordered loaded : list (cell * Z)) :
  let area_table :=
    mkDF (RangeIndex (length ordered))
         [("AREA", ordered.*1); ("Total Ordered", Num <$> ordered.*2)] in
  (AREA ← getitem area_table "AREA";
   let area_table := setitem area_table "Total Loaded" (reindex loaded AREA) in
   Ordered ← getitem area_table "Total Ordered";
   Loaded ← getitem area_table "Total Loaded";
   Ok (setitem area_table "Variance" (zip_with cell_sub Ordered Loaded)))
  = Ok (mkDF (RangeIndex (length ordered))
         [("AREA", ordered.*1); ("Total Ordered", Num <$> ordered.*2);
          ("Total Loaded", reindex loaded ordered.*1);
          ("Variance", zip_with cell_sub (Num <$> ordered.*2)
                         (reindex loaded ordered.*1))]).
Proof.
reflexivity. Qed.

Lemma area_table_Ok_inv o d t :
  wf_frame o → wf_frame d → area_table o d = Ok t →
  "AREA" ∈ columns o ∧ bread_columns ⊆ columns o ∧
  "AREA" ∈ columns d ∧ bread_columns ⊆ columns d ∧
  t = let keys := group_keys "AREA" (rows o) in
      let ordered a := Num (group_total "AREA" bread_columns (rows o) a) in
      mkDF (RangeIndex (length keys))
        [("AREA", keys); ("Total Ordered", ordered <$> keys);
         ("Total Loaded", area_loaded (rows d) <$> keys);
         ("Variance",
          (λ a, cell_sub (ordered a) (area_loaded (rows d) a)) <$> keys)].
Proof.
  intros Ho Hd H. unfold area_table in H.
  res_step H as ordered Hordered. cbv zeta in H. res_step H as loaded Hloaded.
  apply (eq_trans (eq_sym (area_table_frame ordered loaded))) in H.
  injection H as <-.
  apply groupby_sum_Ok_inv in Hordered as (Hao & Hco & ->); [|done].
  apply groupby_sum_Ok_inv in Hloaded as (Had & Hcd & ->); [|done].
  split_and!; [done..|]. cbv zeta.
  rewrite reindex_groups, length_fmap, <-!list_fmap_compose, list_fmap_id.
  rewrite zip_with_fmap_same.
  assert (Hext : ∀ (f g : cell → cell),
    (∀ a, a ≠ Null → f a = g a) →
    f <$> group_keys "AREA" (rows o) = g <$> group_keys "AREA" (rows o)).
  { intros f g Hfg. apply list_fmap_ext.
    intros _ a [_ Ha]%list_elem_of_lookup_2%elem_of_group_keys. auto. }
  repeat match goal with
  | |- _ <$> _ = _ <$> _ =>
      apply Hext; intros a Ha; cbn; by rewrite ?area_loaded_keys
  | |- _ => progress f_equal
  end.
Qed.

Lemma rows_of_area_table (f1 f2 f3 : cell → cell) (keys : list cell) :
  rows_of (length keys)
    [("AREA", keys); ("Total Ordered", f1 <$> keys);
     ("Total Loaded", f2 <$> keys); ("Variance", f3 <$> keys)]
  = (λ a, [("AREA", a); ("Total Ordered", f1 a); ("Total Loaded", f2 a);
           ("Variance", f3 a)]) <$> keys.
Proof. induction keys as [|a keys IH]; cbn; [done|]. by rewrite <-IH. Qed.

(** C4.  The per-area table has one row per distinct non-missing area
    of the filtered orders, in sorted order; the row of an area holds the
    bread total of the order rows of that area, the bread total of the
    despatch rows that carry that area (missing when there is none) and
    their difference (missing when the loaded total is). *)
Theorem area_table_rows o d t :
  wf_frame o → wf_frame d → area_table o d = Ok t →
  (rows t).*2 = area_table_spec (rows o) (rows d).
Proof.
  intros Ho Hd (_ & _ & _ & _ & ->)%area_table_Ok_inv; [|done..].
  unfold rows, nrows; cbn [df_index df_data].
  rewrite RangeIndex_length, rows_of_area_table, snd_zip; [done|].
  by rewrite RangeIndex_length, length_fmap.
Qed.

Lemma group_totals_sum key cols rs :
  Forall (λ r, row_get r key ≠ Null) rs →
  Zsum (group_total key cols rs <$> group_keys key rs)
  = Zsum (row_total cols <$> rs).
Proof.
  intros Hna. unfold group_total, group_rows.
  apply Zsum_partition; [apply group_keys_NoDup|].
  apply Forall_forall. intros r Hr. apply elem_of_group_keys. split.
  - apply list_elem_of_fmap. by exists r.
  - by apply (proj1 (Forall_forall _ _) Hna).
Qed.

(** C17.  On the frames the filters return, the Total Ordered column of
    the per-area table adds up to the Total Orders card: no order row is
    lost between the card and the table. *)
Theorem area_table_total o d t n :
  filtered_ok o d → area_table o d = Ok t → total_orders o = Ok n →
  series_sum (column t "Total Ordered") = Ok n.
Proof.
  intros [Ho Hd Hna] (_ & _ & _ & _ & ->)%area_table_Ok_inv; [|done..].
  intros [Hs ->]%grand_total_Ok. cbv zeta.
  rewrite column_totals_rows by by (try apply summable_incl).
  rewrite <-(group_totals_sum "AREA") by done.
  rewrite <-series_sum_Num, <-list_fmap_compose. reflexivity.
Qed.

(** C25.  The areas of the table are the distinct non-missing areas of
    the order rows, each once, in ascending order. *)
Theorem area_table_keys o d t :
  wf_frame o → wf_frame d → area_table o d = Ok t →
  StronglySorted cell_le (column t "AREA") ∧ NoDup (column t "AREA") ∧
  ∀ a, a ∈ column t "AREA" ↔ a ∈ column o "AREA" ∧ a ≠ Null.
Proof.
  intros Ho Hd (Hao & _ & _ & _ & ->)%area_table_Ok_inv; [|done..].
  cbv zeta. change (column (mkDF _ _) "AREA") with (group_keys "AREA" (rows o)).
  split_and!; [apply group_keys_sorted | apply group_keys_NoDup|].
  intros a. by rewrite elem_of_group_keys, <-column_rows.
Qed.

(** The table is a well-formed frame of four columns. *)
Lemma area_table_wf o d t :
  wf_frame o → wf_frame d → area_table o d = Ok t →
  wf_frame t ∧
  columns t = ["AREA"; "Total Ordered"; "Total Loaded"; "Variance"].
Proof.
  intros Ho Hd (_ & _ & _ & _ & ->)%area_table_Ok_inv; [|done..].
  split; [|done]. split_and!.
  - apply (bool_decide_unpack _). by compute.
  - apply RangeIndex_NoDup.
  - unfold nrows; cbn [df_index df_data].
    rewrite RangeIndex_length. repeat constructor; cbn; by rewrite ?length_fmap.
Qed.

(** ** Exceptions of the per-area table *)

Lemma groupby_sum_no_key df key cols :
  key ∉ columns df → groupby_sum df key cols = Raise (KeyError [key]).
Proof.
  intros Hkey. unfold groupby_sum.
  by rewrite (proj2 (getitem_KeyError df key _) (conj Hkey eq_refl)).
Qed.

Lemma area_table_not_ok o d : "AREA" ∉ columns d → is_ok (area_table o d) = false.
Proof.
  intros Hd. unfold area_table.
  destruct (groupby_sum o "AREA" bread_columns); [|done]. cbn.
  by rewrite groupby_sum_no_key.
Qed.

(** C24.  When the despatch frame has no [AREA] column the per-area
    table is never produced: line 97 raises [KeyError: 'AREA'] as soon as
    the order side of line 96 has succeeded. *)
Theorem area_table_no_despatch_area o d :
  "AREA" ∉ columns d →
  area_table o d =
  match groupby_sum o "AREA" bread_columns with
  | Ok _ => Raise (KeyError ["AREA"])
  | Raise e => Raise e
  end.
Proof.
  intros Hd. unfold area_table.
  destruct (groupby_sum o "AREA" bread_columns); [|done]. cbn.
  by rewrite groupby_sum_no_key.
Qed.
End area_table.

(** ** When the per-area table is produced *)

Section totality.
Implicit Types (df o d : DataFrame) (key : string) (cols : list string).

Lemma text_keyed_loc df key mask : text_keyed df key → text_keyed (loc df mask) key.
Proof.
  intros [Hk Hn]. split; [by rewrite columns_loc|].
  rewrite column_loc. by apply Forall_compress.
Qed.

Lemma groupby_sum_is_Ok df key cols :
  text_keyed df key → Forall (summable df) cols →
  ∃ s, groupby_sum df key cols = Ok s.
Proof.
  intros [Hk Hn] Hs. unfold groupby_sum.
  rewrite getitem_column, select_Ok by (done || by apply summable_incl).
  cbn [mbind res_bind]. unfold sort_values. rewrite sortable_text.
  - cbn [mbind res_bind]. apply res_mapM_total, Forall_forall. intros k _.
    destruct (grand_total _ _) as [t|e] eqn:E; [done|].
    assert (∃ t, grand_total (loc df (eq_mask (column df key) k)) cols = Ok t)
      as [t Ht]; [|congruence].
    eexists. apply grand_total_Ok. split; [|done].
    eapply Forall_impl; [done|]. intros c. apply summable_loc.
  - apply Forall_forall. intros c [Hc _]%elem_of_unique%elem_of_dropna.
    by apply (proj1 (Forall_forall _ _) Hn).
Qed.

Lemma area_table_is_Ok o d :
  text_keyed o "AREA" → text_keyed d "AREA" →
  Forall (summable o) bread_columns → Forall (summable d) bread_columns →
  ∃ t, area_table o d = Ok t.
Proof.
  intros Hko Hkd Hso Hsd. unfold area_table.
  destruct (groupby_sum_is_Ok o "AREA" bread_columns Hko Hso) as [ordered ->].
  cbn [mbind res_bind]. cbv zeta.
  destruct (groupby_sum_is_Ok d "AREA" bread_columns Hkd Hsd) as [loaded ->].
  cbn [mbind res_bind]. rewrite area_table_frame. eauto.
Qed.
End totality.

(** ** Counts of labels *)

Section value_counts.
Implicit Types (s : list cell) (v : cell) (n : nat) (d : DataFrame).

#[export] Instance count_ge_trans : Transitive count_ge.
Proof. unfold count_ge. intros ???. lia. Qed.

#[export] Instance count_ge_total : Total count_ge.
Proof. unfold count_ge. intros ??. lia. Qed.

Lemma value_counts_Permutation s :
  value_counts s ≡ₚ (λ v, (v, count_occ_cell v s)) <$> unique (dropna s).
Proof. apply isort_Permutation. Qed.

Lemma count_occ_cell_dropna v s :
  v ≠ Null → count_occ_cell v (dropna s) = count_occ_cell v s.
Proof.
  intros Hv. unfold count_occ_cell, dropna. rewrite list_filter_filter.
  f_equal. apply list_filter_iff. intros c. rewrite notna_true. naive_solver.
Qed.

Lemma elem_of_value_counts s v n :
  (v, n) ∈ value_counts s ↔ v ∈ s ∧ v ≠ Null ∧ n = count_occ_cell v s.
Proof.
  rewrite value_counts_Permutation, list_elem_of_fmap.
  setoid_rewrite elem_of_unique. setoid_rewrite elem_of_dropna. naive_solver.
Qed.

Lemma value_counts_labels s : (value_counts s).*1 ≡ₚ unique (dropna s).
Proof.
  rewrite value_counts_Permutation, <-list_fmap_compose. by rewrite list_fmap_id.
Qed.

(** C22.  The compliance counts hold each non-missing status of the
    filtered despatch rows once, with the number of rows that carry it,
    which is positive. *)
Theorem compliance_counts_spec d counts :
  wf_frame d → compliance_counts d = Ok counts →
  NoDup counts.*1 ∧
  ∀ v n, (v, n) ∈ counts ↔
    v ≠ Null ∧ 0 < n ∧
    n = length (group_rows "LOADING COMPLIANCE STATUS" v (rows d)).
Proof.
  intros Hwf (s & Hs & ->)%res_fmap_Ok_inv.
  apply (getitem_rows _ _ _ Hwf) in Hs as ->. split.
  - rewrite value_counts_labels. apply NoDup_unique.
  - intros v n. rewrite elem_of_value_counts, <-count_occ_cell_pos.
    unfold count_occ_cell, group_rows.
    rewrite filter_fmap, length_fmap. naive_solver lia.
Qed.

(** The counts are listed by falling count. *)
Lemma compliance_counts_sorted d counts :
  compliance_counts d = Ok counts → StronglySorted count_ge counts.
Proof.
  intros (s & _ & ->)%res_fmap_Ok_inv. apply isort_StronglySorted; apply _.
Qed.

Lemma value_counts_total s : sum_list (value_counts s).*2 = length (dropna s).
Proof.
  apply Nat2Z.inj. rewrite <-Zsum_of_nat, value_counts_Permutation.
  rewrite <-Zsum_ones, <-!list_fmap_compose.
  rewrite <-(Zsum_partition id (λ _, 1%Z) (unique (dropna s)) (dropna s)).
  - f_equal. apply list_fmap_ext.
    intros _ v [_ Hv]%list_elem_of_lookup_2%elem_of_unique%elem_of_dropna. cbn.
    by rewrite Zsum_ones, <-count_occ_cell_dropna.
  - apply NoDup_unique.
  - apply Forall_forall. intros v Hv. by apply elem_of_unique.
Qed.

(** C23.  The counts add up to the number of filtered despatch rows that
    have a loading status: the pie chart covers exactly those rows. *)
Theorem compliance_counts_total d counts :
  wf_frame d → compliance_counts d = Ok counts →
  sum_list counts.*2 =
  length (filter (λ r, row_get r "LOADING COMPLIANCE STATUS" ≠ Null) (rows d)).
Proof.
  intros Hwf (s & Hs & ->)%res_fmap_Ok_inv.
  apply (getitem_rows _ _ _ Hwf) in Hs as ->.
  rewrite value_counts_total. unfold dropna.
  rewrite filter_fmap, length_fmap. f_equal. apply list_filter_iff.
  intros r. cbn. by rewrite notna_true.
Qed.

(** Line 127 raises exactly when the status column is absent. *)
Lemma compliance_counts_Raise d e :
  compliance_counts d = Raise e ↔
  ("LOADING COMPLIANCE STATUS" ∉ columns d) ∧
  e = KeyError ["LOADING COMPLIANCE STATUS"].
Proof.
  unfold compliance_counts. rewrite res_fmap_Raise_inv. apply getitem_KeyError.
Qed.
End value_counts.

(** ** The theorems on the scenario *)

Section scenario.

(** The filtered despatch rows of the scenario with an area on each. *)
Definition scn_despatch_area : DataFrame :=
  setitem scn_despatch_filtered "AREA" [Str "AreaY"; Str "AreaY"].

Definition scn_area_table : DataFrame :=
  mkDF (RangeIndex 2)
    [("AREA", [Str "AreaX"; Str "AreaY"]);
     ("Total Ordered", [Num 15; Num 25]);
     ("Total Loaded", [Null; Num 36]);
     ("Variance", [Null; Num (-11)])]%Z.

Lemma scn_area_table_eq :
  area_table scn_orders_filtered scn_despatch_area = Ok scn_area_table.
Proof. vm_compute. reflexivity. Qed.

Lemma scn_filtered_ok : filtered_ok scn_orders_filtered scn_despatch_area.
Proof. split; compute_done. Qed.

Lemma area_table_rows_witness :
  (rows scn_area_table).*2 =
  area_table_spec (rows scn_orders_filtered) (rows scn_despatch_area).
Proof.
  apply (area_table_rows scn_orders_filtered scn_despatch_area);
    [apply scn_filtered_ok.. | exact scn_area_table_eq].
Defined.

Lemma area_table_total_witness :
  series_sum (column scn_area_table "Total Ordered") = Ok 40%Z.
Proof.
  apply (area_table_total scn_orders_filtered scn_despatch_area);
    [exact scn_filtered_ok | exact scn_area_table_eq | vm_compute; reflexivity].
Defined.

Lemma area_table_keys_witness :
  StronglySorted cell_le (column scn_area_table "AREA") ∧
  NoDup (column scn_area_table "AREA") ∧
  ∀ a, a ∈ column scn_area_table "AREA" ↔
       a ∈ column scn_orders_filtered "AREA" ∧ a ≠ Null.
Proof.
  apply (area_table_keys scn_orders_filtered scn_despatch_area);
    [apply scn_filtered_ok.. | exact scn_area_table_eq].
Defined.

(** The despatch sheet of the scenario has no [AREA] column, as the
    design document says of the real one: the summary page stops at line
    97. *)
Lemma area_table_no_despatch_area_witness :
  area_table scn_orders_filtered scn_despatch_filtered
  = Raise (KeyError ["AREA"]).
Proof.
  rewrite (area_table_no_despatch_area scn_orders_filtered scn_despatch_filtered);
    [vm_compute; reflexivity | compute_done].
Defined.

Definition scn_compliance_counts : list (cell * nat) :=
  [(Str "Compliant", 2); (Str "Non-compliant", 1)].

Lemma scn_compliance_counts_eq :
  compliance_counts scn_despatch = Ok scn_compliance_counts.
Proof. vm_compute. reflexivity. Qed.

Lemma compliance_counts_spec_witness :
  NoDup scn_compliance_counts.*1 ∧
  ∀ v n, (v, n) ∈ scn_compliance_counts ↔
    v ≠ Null ∧ 0 < n ∧
    n = length (group_rows "LOADING COMPLIANCE STATUS" v (rows scn_despatch)).
Proof.
  apply (compliance_counts_spec scn_despatch);
    [exact scn_despatch_wf | exact scn_compliance_counts_eq].
Defined.

Lemma compliance_counts_sorted_witness :
  StronglySorted count_ge scn_compliance_counts.
Proof.
  apply (compliance_counts_sorted scn_despatch), scn_compliance_counts_eq.
Defined.

Lemma compliance_counts_total_witness :
  sum_list scn_compliance_counts.*2 =
  length (filter (λ r, row_get r "LOADING COMPLIANCE STATUS" ≠ Null)
                 (rows scn_despatch)).
Proof.
  apply (compliance_counts_total scn_despatch);
    [exact scn_despatch_wf | exact scn_compliance_counts_eq].
Defined.
End scenario.
