(* ===== verification/Metrics.v ===== *)
(** * Metrics: the four cards of the summary page (lines 70-79)

    [Aggregate] gives the two percentages as exact rationals.  Here they
    are the doubles the script computes, and the four cards are the
    strings it shows: [mean_float] is [Series.mean()] of a boolean Series
    (the count of [True] over the length, both as doubles, NaN for an
    empty Series), [dc_percent_float] line 72, [order_fill_float] line 73,
    [summary_metrics] lines 70-79 in order.

    [display_tenths] reads a non-negative double in tenths as line 78
    prints it.  [dc_display_exact] compares it, for every despatch frame
    of up to [display_bound] rows, with the exact percentage rounded to
    one place: they agree except on the three pairs of
    [display_exceptions], where the exact percentage is a tie (28.75,
    61.25, 63.75) and the double falls just beside it: the card shows
    28.7, 61.3 and 63.7 where rounding the exact value gives 28.8, 61.2
    and 63.8.

    The last section says when a card is not a number: the compliance
    card reads nan% exactly when no despatch row is selected
    ([dc_card_nan]), and the order fill card never does, because line 73
    does not divide unless something was ordered ([order_fill_card]). *)

From Stdlib Require Import SpecFloat.
From S2P Require Import Prelude Cell Frame Float Format Scenario Filter Aggregate.

#[local] Set Warnings "-clear-no-such-hyp".

(** [Series.mean()] of a boolean Series. *)
Definition mean_float (mask : list bool) : spec_float :=
  match mask with
  | [] => S754_nan
  | _ => fdiv (float_of_Z (Z.of_nat (mask_count mask)))
              (float_of_Z (Z.of_nat (length mask)))
  end.

(** Line 72. *)
Definition dc_percent_float (despatch_filtered : DataFrame) : res spec_float :=
  status ← getitem despatch_filtered "DEPARTURE COMPLIANCE STATUS";
  Ok (fmul (mean_float (eq_mask status (Str "On-time"))) (float_of_Z 100)).

(** Line 73.  The [0] of the else branch is an integer; under [.1f] it
    prints as the double 0.0 does. *)
Definition order_fill_float (total_loaded total_orders : Z) : spec_float :=
  if decide (0 < total_orders)%Z
  then fmul (fdiv (float_of_Z total_loaded) (float_of_Z total_orders))
            (float_of_Z 100)
  else S754_zero false.

(** One [st.metric] card. *)
Record metric : Type := mkMetric { metric_label : string; metric_value : string }.

#[export] Instance metric_eq_dec : EqDecision metric.
Proof. solve_decision. Defined.

(** Lines 70-79. *)
Definition summary_metrics (orders_filtered despatch_filtered : DataFrame) :
    res (list metric) :=
  total_orders ← total_orders orders_filtered;
  total_loaded ← total_loaded despatch_filtered;
  dc_percent ← dc_percent_float despatch_filtered;
  let order_fill := order_fill_float total_loaded total_orders in
  Ok [mkMetric "Total Orders" (format_int total_orders);
      mkMetric "Total Loaded" (format_int total_loaded);
      mkMetric "Departure Compliance %" (format_1f dc_percent +:+ "%");
      mkMetric "Order Fill %" (format_1f order_fill +:+ "%")].

(** ** What a card shows against the exact percentage *)

(** A non-negative double in tenths, as [.1f] prints it. *)
Definition display_tenths (x : spec_float) : option Z :=
  match x with
  | S754_zero false => Some 0%Z
  | S754_finite false m e => Some (tenths m e)
  | _ => None
  end.

(** The exact percentage [100 * k / n] in tenths, rounded to nearest,
    ties to even. *)
Definition exact_tenths (k n : Z) : Z := round_even (1000 * k) n.

Definition display_bound : Z := 100.

Definition display_exceptions : list (Z * Z) := [(23, 80); (49, 80); (51, 80)]%Z.

(** The comparison for one pair, and for all pairs up to a bound. *)
Definition display_ok (k n : Z) : bool :=
  bool_decide ((k, n) ∈ display_exceptions)
  || bool_decide (display_tenths (percent k n) = Some (exact_tenths k n)).

Definition display_ok_upto (bound : Z) : bool :=
  forallb (λ n, forallb (λ k, display_ok k n) (seqZ 0 (n + 1))) (seqZ 1 bound).

Section metrics.
Implicit Types (o d : DataFrame) (mask : list bool).

Lemma mean_float_percent mask :
  mask ≠ [] →
  fmul (mean_float mask) (float_of_Z 100)
  = percent (Z.of_nat (mask_count mask)) (Z.of_nat (length mask)).
Proof. by destruct mask. Qed.

Lemma display_ok_checked : display_ok_upto display_bound = true.
Proof. vm_compute. reflexivity. Qed.

Lemma display_ok_upto_spec bound k n :
  display_ok_upto bound = true → (0 ≤ k ≤ n)%Z → (0 < n ≤ bound)%Z →
  display_ok k n = true.
Proof.
  unfold display_ok_upto. rewrite forallb_forall. intros H Hk Hn.
  specialize (H n). rewrite forallb_forall in H.
  apply H; apply list_elem_of_In, elem_of_seqZ; lia.
Qed.

(** C18.  For a filtered despatch frame of up to 100 rows, the tenths
    the Departure Compliance card shows are the exact percentage rounded
    to one place, ties to even, unless 23, 49 or 51 rows out of 80 are on
    time. *)
Theorem dc_display_exact d x :
  wf_frame d → dc_percent_float d = Ok x → (0 < nrows d ≤ 100)%nat →
  let k := Z.of_nat (length (filter (λ r, on_time r = true) (rows d))) in
  let n := Z.of_nat (nrows d) in
  (k, n) ∉ display_exceptions →
  display_tenths x = Some (exact_tenths k n).
Proof.
  intros Hwf H Hn. unfold dc_percent_float in H. res_step H as status Hs.
  injection H as <-.
  rewrite (eq_mask_rows _ _ _ _ Hwf Hs).
  set (mask := _ <$> rows d).
  assert (Hm : length mask = nrows d).
  { unfold mask. by rewrite length_fmap, rows_length. }
  rewrite mean_float_percent by (intros E; rewrite E in Hm; cbn in Hm; lia).
  assert (Hk : mask_count mask = length (filter (λ r, on_time r = true) (rows d))).
  { unfold mask, mask_count. by rewrite filter_fmap, length_fmap. }
  cbv zeta. rewrite <-Hk, <-Hm. intros Hex.
  pose proof (mask_count_le mask).
  pose proof (display_ok_upto_spec display_bound (Z.of_nat (mask_count mask))
    (Z.of_nat (length mask)) display_ok_checked) as Hok.
  unfold display_ok, display_bound in Hok.
  rewrite bool_decide_eq_false_2, orb_false_l, bool_decide_eq_true in Hok by done.
  apply Hok; lia.
Qed.

(** On the three exceptional pairs the card is one tenth off the rounded
    exact percentage, in either direction. *)
Lemma dc_display_ties :
  (display_tenths (percent 23 80), exact_tenths 23 80) = (Some 287, 288)%Z ∧
  (display_tenths (percent 49 80), exact_tenths 49 80) = (Some 613, 612)%Z ∧
  (display_tenths (percent 51 80), exact_tenths 51 80) = (Some 637, 638)%Z.
Proof. vm_compute. done. Qed.

Lemma dc_percent_float_empty d :
  wf_frame d → nrows d = 0%nat → "DEPARTURE COMPLIANCE STATUS" ∈ columns d →
  dc_percent_float d = Ok S754_nan.
Proof.
  intros Hwf Hn Hs. unfold dc_percent_float. rewrite getitem_column by done.
  assert (column d "DEPARTURE COMPLIANCE STATUS" = []) as ->; [|done].
  apply nil_length_inv. rewrite <-Hn.
  eapply wf_frame_height; [done|]. by apply getitem_column.
Qed.

(** The percentage raises exactly when the exact one of [Aggregate]
    does: both look up the status column and do nothing else that can
    fail. *)
Lemma dc_percent_float_Raise d e :
  dc_percent_float d = Raise e ↔ dc_percent d = Raise e.
Proof.
  unfold dc_percent_float, dc_percent.
  destruct (getitem d "DEPARTURE COMPLIANCE STATUS"); cbn; naive_solver.
Qed.

Lemma dc_percent_float_is_ok d :
  is_ok (dc_percent_float d) = is_ok (dc_percent d).
Proof.
  unfold dc_percent_float, dc_percent.
  by destruct (getitem d "DEPARTURE COMPLIANCE STATUS").
Qed.

(** C11.  On filtered frames without rows the four cards read 0, 0, nan%
    and 0.0%. *)
Theorem summary_metrics_empty o d :
  wf_frame o → wf_frame d → nrows o = 0%nat → nrows d = 0%nat →
  bread_columns ⊆ columns o → bread_columns ⊆ columns d →
  "DEPARTURE COMPLIANCE STATUS" ∈ columns d →
  summary_metrics o d =
  Ok [mkMetric "Total Orders" "0"; mkMetric "Total Loaded" "0";
      mkMetric "Departure Compliance %" "nan%"; mkMetric "Order Fill %" "0.0%"].
Proof.
  intros Ho Hd Hno Hnd Hbo Hbd Hs. unfold summary_metrics, total_orders, total_loaded.
  rewrite !grand_total_empty by done. cbn.
  by rewrite dc_percent_float_empty.
Qed.

(** C32.  The cards are computed exactly when the four numbers of
    [Aggregate.summary_kpis] are, and fail with the same exception; the
    two integer cards hold the two totals. *)
Theorem summary_metrics_kpis o d :
  (∀ e, summary_metrics o d = Raise e ↔ summary_kpis o d = Raise e) ∧
  ∀ ms, summary_metrics o d = Ok ms →
    ∃ k, summary_kpis o d = Ok k ∧
      metric_value <$> take 2 ms
      = [format_int (kpi_total_orders k); format_int (kpi_total_loaded k)].
Proof.
  unfold summary_metrics, summary_kpis.
  destruct (total_orders o) as [to|e0]; cbn; [|naive_solver].
  destruct (total_loaded d) as [tl|e0]; cbn; [|naive_solver].
  pose proof (dc_percent_float_Raise d) as Hr.
  destruct (dc_percent_float d) as [x|e1], (dc_percent d) as [q|e2]; cbn.
  - split; [naive_solver|]. intros ms [= <-]. eexists. split; done.
  - specialize (Hr e2). naive_solver.
  - specialize (Hr e1). naive_solver.
  - split; [|naive_solver]. intros e. specialize (Hr e). naive_solver.
Qed.
(** ** When a card is not a number *)

Lemma is_nan_true x : is_nan x = true ↔ x = S754_nan.
Proof. by destruct x. Qed.

Lemma format_1f_percent_nan x : format_1f x +:+ "%" = "nan%" ↔ is_nan x = true.
Proof.
  rewrite is_nan_true, <-(format_1f_nan x). split; [|by intros ->].
  change "nan%" with ("nan" +:+ "%"). apply string_app_inj_r.
Qed.

Lemma order_fill_float_not_nan tl to :
  (to < 2 ^ 53)%Z → is_nan (order_fill_float tl to) = false.
Proof.
  intros Hb. unfold order_fill_float. case_decide; [|done].
  apply percent_not_nan; [lia|]. unfold prec. lia.
Qed.

Lemma dc_percent_float_nan d x :
  wf_frame d → dc_percent_float d = Ok x → (Z.of_nat (nrows d) < 2 ^ 53)%Z →
  is_nan x = true ↔ nrows d = 0%nat.
Proof.
  intros Hwf H Hb. unfold dc_percent_float in H. res_step H as status Hs.
  injection H as <-.
  rewrite <-(wf_frame_height _ _ _ Hwf Hs),
    <-(eq_mask_length status (Str "On-time")) in Hb |- *.
  set (mask := eq_mask status (Str "On-time")) in *.
  destruct (decide (mask = [])) as [->|Hne]; [done|].
  assert (length mask ≠ 0%nat) by (by intros ?%nil_length_inv).
  rewrite mean_float_percent, percent_not_nan by (done || unfold prec; lia).
  done.
Qed.

Lemma summary_metrics_Ok o d ms :
  summary_metrics o d = Ok ms ↔
  ∃ to tl x, total_orders o = Ok to ∧ total_loaded d = Ok tl ∧
    dc_percent_float d = Ok x ∧
    ms = [mkMetric "Total Orders" (format_int to);
          mkMetric "Total Loaded" (format_int tl);
          mkMetric "Departure Compliance %" (format_1f x +:+ "%");
          mkMetric "Order Fill %" (format_1f (order_fill_float tl to) +:+ "%")].
Proof.
  unfold summary_metrics.
  destruct (total_orders o) as [to|]; cbn; [|naive_solver].
  destruct (total_loaded d) as [tl|]; cbn; [|naive_solver].
  destruct (dc_percent_float d) as [x|]; cbn; naive_solver.
Qed.

(** C12.  The Departure Compliance card reads nan% exactly when no
    despatch row is selected: for every selection with at least one row
    (and fewer than 2^53) the percentage is a number. *)
Theorem dc_card_nan o d ms :
  wf_frame d → summary_metrics o d = Ok ms → (Z.of_nat (nrows d) < 2 ^ 53)%Z →
  (mkMetric "Departure Compliance %" "nan%" ∈ ms) ↔ nrows d = 0%nat.
Proof.
  intros Hwf (to & tl & x & _ & _ & Hx & ->)%summary_metrics_Ok Hb.
  rewrite <-(dc_percent_float_nan d x), <-format_1f_percent_nan by done.
  rewrite !elem_of_cons, elem_of_nil. split; [|by intros ->; auto].
  by intros [[=]|[[=]|[[= ->]|[[=]|[]]]]].
Qed.

(** C6.  The Order Fill card never reads nan%, and reads 0.0% whenever
    nothing was ordered, whatever was loaded: the guard of line 73 keeps
    0/0 and x/0 off the card. *)
Theorem order_fill_card o d ms t :
  summary_metrics o d = Ok ms → total_orders o = Ok t → (t < 2 ^ 53)%Z →
  (mkMetric "Order Fill %" "nan%" ∉ ms) ∧
  ((t ≤ 0)%Z → mkMetric "Order Fill %" "0.0%" ∈ ms).
Proof.
  intros (to & tl & x & Ho & _ & _ & ->)%summary_metrics_Ok Ht Hb.
  rewrite Ho in Ht. injection Ht as ->. split.
  - rewrite !elem_of_cons, elem_of_nil.
    intros [[=]|[[=]|[[=]|[[= H]|[]]]]]. symmetry in H.
    apply format_1f_percent_nan in H. by rewrite order_fill_float_not_nan in H.
  - intros H0. unfold order_fill_float. rewrite decide_False by lia.
    do 3 right. left.
Qed.
End metrics.

(** ** The theorems on the scenario *)

Section scenario.

(** One of two despatch rows on time: the card reads 50.0%, the exact
    percentage. *)
Lemma dc_display_exact_witness :
  display_tenths (S754_finite false 7036874417766400 (-47))
  = Some (exact_tenths 1 2).
Proof.
  apply (dc_display_exact scn_despatch_filtered);
    [compute_done | vm_compute; reflexivity | cbn; lia | compute_done].
Defined.

Lemma summary_metrics_empty_witness :
  summary_metrics (loc scn_orders [false; false; false; false])
                  (loc scn_despatch [false; false; false])
  = Ok [mkMetric "Total Orders" "0"; mkMetric "Total Loaded" "0";
        mkMetric "Departure Compliance %" "nan%"; mkMetric "Order Fill %" "0.0%"].
Proof. apply summary_metrics_empty; compute_done. Defined.

Lemma dc_card_nan_witness :
  (mkMetric "Departure Compliance %" "nan%"
   ∈ [mkMetric "Total Orders" "0"; mkMetric "Total Loaded" "0";
      mkMetric "Departure Compliance %" "nan%"; mkMetric "Order Fill %" "0.0%"])
  ↔ nrows (loc scn_despatch [false; false; false]) = 0%nat.
Proof.
  apply (dc_card_nan (loc scn_orders [false; false; false; false]));
    [compute_done | vm_compute; reflexivity | cbn; lia].
Defined.

Lemma order_fill_card_witness :
  (mkMetric "Order Fill %" "nan%"
   ∉ [mkMetric "Total Orders" "0"; mkMetric "Total Loaded" "0";
      mkMetric "Departure Compliance %" "nan%"; mkMetric "Order Fill %" "0.0%"]) ∧
  ((0 ≤ 0)%Z →
   mkMetric "Order Fill %" "0.0%"
   ∈ [mkMetric "Total Orders" "0"; mkMetric "Total Loaded" "0";
      mkMetric "Departure Compliance %" "nan%"; mkMetric "Order Fill %" "0.0%"]).
Proof.
  apply (order_fill_card (loc scn_orders [false; false; false; false])
           (loc scn_despatch [false; false; false]));
    [vm_compute; reflexivity | vm_compute; reflexivity | lia].
Defined.

(** The cards of the scenario: 40 ordered, 36 loaded, one of two
    departures on time. *)
Example scn_summary_metrics :
  summary_metrics scn_orders_filtered scn_despatch_filtered
  = Ok [mkMetric "Total Orders" "40"; mkMetric "Total Loaded" "36";
        mkMetric "Departure Compliance %" "50.0%"; mkMetric "Order Fill %" "90.0%"].
Proof. vm_compute. reflexivity. Qed.

(** Thousands are separated and the sign is kept. *)
Example format_int_examples :
  format_int 1234567 = "1,234,567" ∧ format_int (-1000) = "-1,000" ∧
  format_int 999 = "999" ∧ format_int 0 = "0".
Proof. vm_compute. done. Qed.
End scenario.
