(* ===== verification/Render.v ===== *)
(** * Render: the script as a whole (lines 10-132)

    One run of the script is a function of what is on disk ([environment])
    and of what the user has set in the sidebar ([inputs]).  Its result
    is the list of Streamlit calls it has made, in order, and either
    normal termination or the exception that stopped it: the type [ui] is
    a writer of [widget]s over the result monad [res], so that what was
    drawn before an exception stays drawn, as on the screen.

    [script_filters] is lines 39-61 with the sidebar widgets in their
    place; erasing the widgets gives [Filter.filters]
    ([script_filters_erase]).  [summary_page], [bread_page] and
    [biscuits_page] are the three branches of lines 67-129, [main] the
    script.  Calls that draw are total: the model does not cover a
    failure inside Streamlit or Plotly (a missing logo file, a figure
    that cannot be built, a release of Streamlit that wants
    [set_page_config] before every other call and so rejects line 22
    after line 10).

    [schema_ok] is the shape of the three sheets in the design document;
    [main_ends] shows that on such sheets a run ends normally. *)

From stdpp Require Import gmap.
From Stdlib Require Import SpecFloat.
From S2P Require Import Prelude Cell Frame Sorting Float Format Scenario Loader.
From S2P Require Import Filter Aggregate Breakdown Metrics.

#[local] Set Warnings "-clear-no-such-hyp".

(** Line 26: the pages. *)
Inductive page : Type := SummaryPage | BreadSKUs | BiscuitsLoadingCompliance.

#[export] Instance page_eq_dec : EqDecision page.
Proof. solve_decision. Defined.

Definition page_name (p : page) : string :=
  match p with
  | SummaryPage => "Summary Page"
  | BreadSKUs => "Bread SKUs"
  | BiscuitsLoadingCompliance => "Biscuits & Loading Compliance"
  end.

(** The Streamlit calls of the script, with the arguments that depend on
    data.  [st_columns] is [st.columns] of line 75; [metric_card i m] is
    [.metric] on the [i]-th column it returned. *)
Inductive widget : Type :=
  | markdown (body : string)
  | set_page_config (page_title layout : string)
  | sidebar_image (path : string)
  | sidebar_radio (label : string) (options : list string)
  | sidebar_subheader (text : string)
  | sidebar_selectbox (label : string) (options : list cell)
  | sidebar_date_input (label : string) (value : Z)
  | sidebar_multiselect (label : string) (options default : list cell)
  | title (text : string)
  | write (text : string)
  | st_columns (n : nat)
  | metric_card (column : nat) (m : metric)
  | pie_chart (chart_title : string) (names : list cell) (values : list Z)
  | bar_chart (chart_title : string) (df : DataFrame)
  | dataframe (df : DataFrame)
  | caption (text : string).

#[export] Instance widget_eq_dec : EqDecision widget.
Proof. solve_decision. Defined.

(** What a run reads that is not a widget: the files, how a date written
    as text is parsed, and the day [datetime.today()] returns. *)
Record environment : Type := mkEnv {
  files : gmap string workbook;
  parse_date : string → option Z;
  today : Z
}.

Record inputs : Type := mkInputs {
  selected_page : page;
  widgets : sidebar
}.

(** ** The monad of a run *)

Definition ui (A : Type) : Type := (list widget * res A)%type.

#[export] Instance ui_ret : MRet ui := λ A a, ([], Ok a).

#[export] Instance ui_bind : MBind ui := λ A B f m,
  match m.2 with
  | Ok a => (m.1 ++ (f a).1, (f a).2)
  | Raise e => (m.1, Raise e)
  end.

Definition emit (w : widget) : ui unit := ([w], Ok ()).

Definition emit_all (ws : list widget) : ui unit := (ws, Ok ()).

Definition lift {A} (r : res A) : ui A := ([], r).

(** What was drawn, and how the run ended. *)
Definition drawn {A} (m : ui A) : list widget := m.1.
Definition outcome {A} (m : ui A) : res A := m.2.

(** ** The script *)

(** The two double quotes of the style sheet are written with their
    character code. *)
Definition dquote : string := String (Ascii.ascii_of_nat 34) "".

Definition sidebar_style : string :=
  String.concat ""
    ["
<style>
    [data-testid="; dquote; "stSidebar"; dquote; "] {
        background-color: black;
    }
    [data-testid="; dquote; "stSidebar"; dquote; "] * {
        color: white !important;
    }
</style>
"].

(** Lines 10-26. *)
Definition header : ui unit :=
  emit (markdown sidebar_style);;
  emit (set_page_config "Bakers Inn Despatch Dashboard" "wide");;
  emit (sidebar_image "bakers Inn logo.png");;
  emit (sidebar_radio "Navigate"
          (page_name <$> [SummaryPage; BreadSKUs; BiscuitsLoadingCompliance])).

(** Lines 39-61: the filters with their widgets. *)
Definition script_filters (env : environment) (sb : sidebar)
    (orders_df despatch_df date_index_df : DataFrame) :
    ui (DataFrame * DataFrame) :=
  emit (sidebar_subheader "Filters");;
  emit (sidebar_selectbox "Select Date Filter" [Str "Daily"; Str "Monthly"]);;
  filtered_index ←
    match date_option sb with
    | Daily =>
        emit (sidebar_date_input "Select Date" (today env));;
        lift (DATE ← getitem date_index_df "DATE";
              Ok (loc date_index_df
                    (eq_mask DATE (Timestamp_of_date (selected_date sb)))))
    | Monthly =>
        months ← lift (months date_index_df);
        emit (sidebar_selectbox "Select Month" months);;
        let selected_month := select_month sb months in
        lift (MONTH ← getitem date_index_df "MONTH";
              Ok (loc date_index_df (eq_mask MONTH selected_month)))
    end;
  routes ← lift (routes date_index_df);
  emit (sidebar_multiselect "Select Routes" routes routes);;
  let selected_routes := select_routes sb routes in
  areas ← lift (areas orders_df);
  emit (sidebar_multiselect "Select Areas" areas areas);;
  let selected_areas := select_areas sb areas in
  filtered_links ← lift (filtered_links filtered_index selected_routes);
  orders_filtered ←
    lift (orders_filtered orders_df filtered_links selected_areas);
  despatch_filtered ← lift (despatch_filtered despatch_df filtered_links);
  mret (orders_filtered, despatch_filtered).

(** Lines 68-99. *)
Definition summary_page (orders_filtered despatch_filtered : DataFrame) :
    ui unit :=
  emit (title "📊 Bakers Inn Despatch Summary Dashboard");;
  metrics ← lift (summary_metrics orders_filtered despatch_filtered);
  emit (st_columns 4);;
  emit_all (imap (λ i m, metric_card (S i) m) metrics);;
  product_mix ← lift (product_mix orders_filtered bread_columns);
  emit (pie_chart "Product Mix %" (Str <$> product_mix.*1) product_mix.*2);;
  sku_df ← lift (sku_df bread_columns orders_filtered despatch_filtered);
  emit (bar_chart "Orders vs Loaded by SKU" sku_df);;
  area_table ← lift (area_table orders_filtered despatch_filtered);
  emit (dataframe area_table).

(** Lines 102-111. *)
Definition bread_page (orders_filtered despatch_filtered : DataFrame) :
    ui unit :=
  emit (title "🍞 Bread SKUs Performance");;
  emit (write "Analysis of Bakers Bread and Chingwa Brands.");;
  sku_df ← lift (bread_sku_df orders_filtered despatch_filtered);
  emit (bar_chart "Bread SKUs Ordered vs Loaded" sku_df);;
  emit (dataframe sku_df).

(** Lines 114-129. *)
Definition biscuits_page (orders_filtered despatch_filtered : DataFrame) :
    ui unit :=
  emit (title "🍪 Biscuits & Loading Compliance");;
  biscuits_df ← lift (biscuits_df orders_filtered despatch_filtered);
  emit (bar_chart "Biscuits Ordered vs Loaded" biscuits_df);;
  emit (dataframe biscuits_df);;
  compliance_counts ← lift (compliance_counts despatch_filtered);
  emit (pie_chart "Loading Compliance Distribution"
          compliance_counts.*1 (Z.of_nat <$> compliance_counts.*2)).

(** Lines 67, 101, 113: the page shown. *)
Definition show_page (p : page) (orders_filtered despatch_filtered : DataFrame) :
    ui unit :=
  match p with
  | SummaryPage => summary_page orders_filtered despatch_filtered
  | BreadSKUs => bread_page orders_filtered despatch_filtered
  | BiscuitsLoadingCompliance => biscuits_page orders_filtered despatch_filtered
  end.

(** Lines 131-132. *)
Definition footer_text : string :=
  "✅ Bakers Inn Automated Despatch Dashboard | WRL Project - Tapiwa Mhondiwa".

Definition footer : ui unit :=
  emit (markdown "---");;
  emit (caption footer_text).

(** The script. *)
Definition main (env : environment) (inp : inputs) : ui unit :=
  header;;
  frames ← lift (load (parse_date env) (files env));
  let '(orders_df, despatch_df, date_index_df) := frames in
  filtered ← script_filters env (widgets inp) orders_df despatch_df date_index_df;
  show_page (selected_page inp) filtered.1 filtered.2;;
  footer.

(** ** The shape of the sheets *)

(** The sheets as the design document describes them (section 6). *)
Definition index_columns : list string := ["DATE"; "MONTH"; "ROUTE"; "LINK"].

Definition sku_columns : list string := bread_columns ++ biscuit_columns.

Record schema_ok (orders_df despatch_df date_index_df : DataFrame) : Prop := {
  schema_index : index_columns ⊆ columns date_index_df;
  schema_orders_link : "LINK" ∈ columns orders_df;
  schema_orders_area : text_keyed orders_df "AREA";
  schema_despatch :
    ["LINK"; "DEPARTURE COMPLIANCE STATUS"; "LOADING COMPLIANCE STATUS"]
    ⊆ columns despatch_df;
  schema_orders_skus : Forall (summable orders_df) sku_columns;
  schema_despatch_skus : Forall (summable despatch_df) sku_columns
}.

(** ** Laws of the monad *)

Section ui.
Context {A B : Type}.
Implicit Types (m : ui A) (f : A → ui B) (r : res A) (w : widget).

Lemma outcome_bind m f :
  outcome (m ≫= f) = outcome m ≫= (λ a, outcome (f a)).
Proof. destruct m as [ws [a|e]]; done. Qed.

Lemma drawn_bind m f :
  drawn (m ≫= f)
  = drawn m ++ match outcome m with Ok a => drawn (f a) | Raise _ => [] end.
Proof. destruct m as [ws [a|e]]; cbn; [done|]. by rewrite app_nil_r. Qed.

Lemma outcome_lift r : outcome (lift r) = r.
Proof. done. Qed.

Lemma drawn_lift r : drawn (lift r) = [].
Proof. done. Qed.

(** What is drawn before an exception stays drawn. *)
Lemma drawn_bind_prefix m f : drawn m `prefix_of` drawn (m ≫= f).
Proof. rewrite drawn_bind. by apply prefix_app_r. Qed.

(** The laws of a monad. *)
Lemma ui_bind_ret_l (a : A) f : mret a ≫= f = f a.
Proof. unfold mbind, ui_bind; cbn. by destruct (f a). Qed.

Lemma ui_bind_ret_r m : m ≫= mret = m.
Proof.
  destruct m as [ws [a|e]]; unfold mbind, ui_bind; cbn; [|done].
  by rewrite app_nil_r.
Qed.

Lemma ui_bind_assoc {C} m f (g : B → ui C) :
  (m ≫= f) ≫= g = m ≫= (λ a, f a ≫= g).
Proof.
  destruct m as [ws [a|e]]; unfold mbind, ui_bind; cbn; [|done].
  destruct (f a) as [ws' [b|e]]; cbn; [|done]. by rewrite app_assoc.
Qed.
End ui.

Lemma outcome_emit w : outcome (emit w) = Ok ().
Proof. done. Qed.

Lemma outcome_emit_all ws : outcome (emit_all ws) = Ok ().
Proof. done. Qed.

#[export] Hint Rewrite @outcome_bind @outcome_lift outcome_emit outcome_emit_all : dash.

(** ** The filters of the script against [Filter.filters] *)

(** One step of a run: the next computation that can raise is split into
    its two outcomes. *)
Ltac ui_step :=
  match goal with
  | |- context [match ?r with Ok _ => _ | Raise _ => _ end] =>
      destruct r eqn:?; cbn
  end.

(** Erasing the widgets from lines 39-61 leaves the filters of [Filter]:
    the script computes the frames, and raises the exceptions, that
    [filters] does, whatever it has drawn meanwhile. *)
Lemma script_filters_erase env sb orders_df despatch_df date_index_df :
  outcome (script_filters env sb orders_df despatch_df date_index_df)
  = filters sb orders_df despatch_df date_index_df.
Proof.
  unfold script_filters, filters, filtered_index, outcome.
  destruct (date_option sb); cbn; repeat ui_step; done.
Qed.

(** ** The outcome of a run *)

(** What a page computes, in the order it computes it, without what it
    draws. *)
Definition page_outcome (p : page) (o d : DataFrame) : res unit :=
  match p with
  | SummaryPage =>
      summary_metrics o d;; product_mix o bread_columns;;
      sku_df bread_columns o d;; area_table o d;; Ok ()
  | BreadSKUs => bread_sku_df o d;; Ok ()
  | BiscuitsLoadingCompliance => biscuits_df o d;; compliance_counts d;; Ok ()
  end.

Lemma show_page_outcome p o d : outcome (show_page p o d) = page_outcome p o d.
Proof.
  destruct p; unfold show_page, summary_page, bread_page, biscuits_page,
    page_outcome, outcome; cbn; repeat ui_step; done.
Qed.

Lemma footer_outcome : outcome footer = Ok ().
Proof. done. Qed.

(** The steps of a run after the header, as one computation on the
    result monad. *)
Definition pipeline (env : environment) (inp : inputs) : res unit :=
  frames ← load (parse_date env) (files env);
  let '(orders_df, despatch_df, date_index_df) := frames in
  filtered ← filters (widgets inp) orders_df despatch_df date_index_df;
  page_outcome (selected_page inp) filtered.1 filtered.2.

Lemma outcome_main env inp : outcome (main env inp) = pipeline env inp.
Proof.
  unfold main, pipeline. rewrite !outcome_bind. cbn [outcome header snd].
  change (Ok () ≫= ?f) with (f ()). cbv beta. rewrite outcome_lift.
  destruct (load _ _) as [[[o d] i]|e]; [|done]. cbn [mbind res_bind].
  rewrite outcome_bind, script_filters_erase.
  destruct (filters _ _ _ _) as [[fo fd]|e]; [|done]. cbn [mbind res_bind].
  rewrite outcome_bind, show_page_outcome, footer_outcome.
  by destruct (page_outcome _ _ _) as [[]|].
Qed.

(** What a run draws: the header, then the widgets of each part that is
    reached. *)
Definition drawn_after_load (env : environment) (inp : inputs)
    (frames : DataFrame * DataFrame * DataFrame) : list widget :=
  let '(orders_df, despatch_df, date_index_df) := frames in
  let filters := script_filters env (widgets inp) orders_df despatch_df
                   date_index_df in
  drawn filters ++
  match outcome filters with
  | Ok filtered =>
      let shown := show_page (selected_page inp) filtered.1 filtered.2 in
      drawn shown ++
      match outcome shown with Ok _ => drawn footer | Raise _ => [] end
  | Raise _ => []
  end.

Lemma drawn_main env inp :
  drawn (main env inp) =
  drawn header ++
  match load (parse_date env) (files env) with
  | Ok frames => drawn_after_load env inp frames
  | Raise _ => []
  end.
Proof.
  unfold main. rewrite drawn_bind. cbn [outcome header snd]. f_equal.
  rewrite drawn_bind, drawn_lift, outcome_lift. cbn [app].
  destruct (load _ _) as [[[o d] i]|e]; [|done]. unfold drawn_after_load.
  rewrite drawn_bind. f_equal.
  destruct (outcome (script_filters _ _ _ _ _)) as [[fo fd]|]; [|done].
  by rewrite drawn_bind.
Qed.

(** ** What is drawn *)

Definition is_caption (w : widget) : bool :=
  match w with caption _ => true | _ => false end.

Definition no_caption {A} (m : ui A) : Prop :=
  Forall (λ w, is_caption w = false) (drawn m).

Section no_caption.
Context {A B : Type}.

Lemma no_caption_bind (m : ui A) (f : A → ui B) :
  no_caption m → (∀ a, no_caption (f a)) → no_caption (m ≫= f).
Proof.
  unfold no_caption. rewrite drawn_bind, Forall_app. intros Hm Hf.
  split; [done|]. destruct (outcome m); [apply Hf | constructor].
Qed.

Lemma no_caption_lift (r : res A) : no_caption (lift r).
Proof. constructor. Qed.
End no_caption.

Lemma no_caption_emit w : is_caption w = false → no_caption (emit w).
Proof. by repeat constructor. Qed.

Lemma no_caption_emit_all ws :
  Forall (λ w, is_caption w = false) ws → no_caption (emit_all ws).
Proof. done. Qed.

(** The parts of a run are compositions of [emit] and [lift]. *)
Ltac no_caption :=
  repeat first
    [ apply no_caption_lift
    | apply no_caption_emit; reflexivity
    | apply no_caption_bind; [|intros ?]
    | progress cbv zeta ].

Lemma header_no_caption : no_caption header.
Proof. unfold header. no_caption. Qed.

Lemma script_filters_no_caption env sb o d i :
  no_caption (script_filters env sb o d i).
Proof.
  unfold script_filters. destruct (date_option sb); no_caption.
  all: by constructor.
Qed.

Lemma show_page_no_caption p o d : no_caption (show_page p o d).
Proof.
  destruct p; unfold show_page, summary_page, bread_page, biscuits_page;
    no_caption.
  apply no_caption_emit_all, Forall_forall.
  intros w (i & m & -> & _)%elem_of_lookup_imap. done.
Qed.

(** ** The run as a whole *)

Section main.
Implicit Types (env : environment) (inp : inputs).

(** C2.  A run ends as the composition of the loader, the filters and
    the computations of the selected page ends: the widgets neither add
    an exception nor hide one, and the first statement that raises stops
    the run.  What it has drawn is the header followed by the widgets of
    each part it has reached, the footer only after a page that did not
    raise. *)
Theorem main_run env inp :
  outcome (main env inp) = pipeline env inp ∧
  drawn (main env inp) =
  drawn header ++
  match load (parse_date env) (files env) with
  | Ok frames => drawn_after_load env inp frames
  | Raise _ => []
  end.
Proof. split; [apply outcome_main | apply drawn_main]. Qed.

Lemma no_caption_not_elem {A} (m : ui A) text :
  no_caption m → caption text ∉ drawn m.
Proof.
  intros H Hin. by apply (proj1 (Forall_forall _ _) H) in Hin.
Qed.

(** C16.  The footer is drawn exactly when the run ends without an
    exception: a page that raises leaves the screen without its last
    line, and nothing else draws that line. *)
Theorem main_footer env inp :
  outcome (main env inp) = Ok () ↔ caption footer_text ∈ drawn (main env inp).
Proof.
  rewrite outcome_main, drawn_main, elem_of_app. unfold pipeline.
  pose proof (no_caption_not_elem _ footer_text header_no_caption) as Hh.
  destruct (load _ _) as [[[o d] i]|e]; cbn [mbind res_bind];
    [|rewrite elem_of_nil; by intuition].
  unfold drawn_after_load. rewrite elem_of_app, script_filters_erase.
  pose proof (no_caption_not_elem _ footer_text
    (script_filters_no_caption env (widgets inp) o d i)) as Hf.
  destruct (filters _ _ _ _) as [[fo fd]|e]; cbn [mbind res_bind fst snd];
    [|rewrite elem_of_nil; by intuition].
  rewrite elem_of_app, show_page_outcome.
  pose proof (no_caption_not_elem _ footer_text
    (show_page_no_caption (selected_page inp) fo fd)) as Hp.
  destruct (page_outcome _ _ _) as [[]|e]; [|rewrite elem_of_nil; by intuition].
  split; [intros _|done]. do 3 right. cbn. set_solver.
Qed.

(** C8.  On the summary page a run never reaches the footer when the
    despatch sheet has no [AREA] column: whatever the sidebar holds, it
    stops at line 97 at the latest. *)
Theorem summary_page_stops env inp wb df :
  selected_page inp = SummaryPage →
  files env !! "2025 June Superlinx Daily Despatch Tracker.xlsx" = Some wb →
  wb !! "Template" = Some df → "AREA" ∉ columns df →
  is_ok (outcome (main env inp)) = false.
Proof.
  intros Hpage Hwb Hdf Harea. rewrite outcome_main. unfold pipeline.
  destruct (load _ _) as [[[o d] i]|e] eqn:Hload; [|done]. cbn [mbind res_bind].
  apply load_Ok in Hload as (o0 & d0 & i0 & _ & Hd0 & _ & _ & Hd & _).
  apply read_excel_Ok in Hd0 as (wb' & Hwb' & Hd0).
  assert (d0 = df) as -> by congruence. apply clean_columns in Hd.
  destruct (filters _ _ _ _) as [[fo fd]|e] eqn:Hf; [|done]. cbn [mbind res_bind fst snd].
  apply filters_columns in Hf as [_ Hfd].
  rewrite Hpage. unfold page_outcome.
  destruct (summary_metrics fo fd); [|done]. cbn [mbind res_bind].
  destruct (product_mix fo bread_columns); [|done]. cbn [mbind res_bind].
  destruct (sku_df bread_columns fo fd); [|done]. cbn [mbind res_bind].
  pose proof (area_table_not_ok fo fd) as Hat. rewrite Hfd, Hd in Hat.
  specialize (Hat Harea). by destruct (area_table fo fd).
Qed.
End main.

(** ** Runs that end normally *)

Section live.
Implicit Types (env : environment) (inp : inputs) (o d i : DataFrame).

Lemma schema_filters sb o d i :
  schema_ok o d i → ∃ fo fd, filters sb o d i = Ok (fo, fd).
Proof.
  intros [Hi Ho [Ha _] Hd _ _].
  assert (is_ok (filters sb o d i) = true) as Hok.
  { rewrite filters_is_ok. unfold lookups. cbn [forallb fst snd].
    rewrite !andb_true_iff, !has_column_true.
    assert (date_column sb ∈ index_columns).
    { unfold date_column. destruct (date_option sb); set_solver. }
    unfold index_columns in *. set_solver. }
  apply is_ok_true in Hok as [[fo fd] ?]. eauto.
Qed.

(** The schema holds of every selection of rows. *)
Lemma schema_skus_loc df mask cols :
  cols ⊆ sku_columns → Forall (summable df) sku_columns →
  Forall (summable (loc df mask)) cols.
Proof.
  rewrite !Forall_forall. intros Hc Hs c Hin. by apply summable_loc, Hs, Hc.
Qed.

Lemma bread_sku_columns : bread_columns ⊆ sku_columns.
Proof. intros c ?. apply elem_of_app. auto. Qed.

Lemma biscuit_sku_columns : biscuit_columns ⊆ sku_columns.
Proof. intros c ?. apply elem_of_app. auto. Qed.

Lemma schema_page_outcome p o d i mo md :
  schema_ok o d i → (p = SummaryPage → text_keyed d "AREA") →
  page_outcome p (loc o mo) (loc d md) = Ok ().
Proof.
  intros [_ _ Hao Hd Hos Hds] Hp.
  pose proof (schema_skus_loc o mo _ bread_sku_columns Hos) as Hbo.
  pose proof (schema_skus_loc d md _ bread_sku_columns Hds) as Hbd.
  pose proof (schema_skus_loc o mo _ biscuit_sku_columns Hos) as Hco.
  pose proof (schema_skus_loc d md _ biscuit_sku_columns Hds) as Hcd.
  destruct p; unfold page_outcome, bread_sku_df, biscuits_df.
  - assert (∃ ms, summary_metrics (loc o mo) (loc d md) = Ok ms) as [ms ->].
    { eexists. apply summary_metrics_Ok. do 3 eexists.
      split_and!; [by apply grand_total_Ok..| |done].
      unfold dc_percent_float. rewrite getitem_column; [done|].
      rewrite columns_loc. set_solver. }
    cbn [mbind res_bind].
    rewrite (proj2 (product_mix_Ok _ _ _) (conj Hbo eq_refl)).
    cbn [mbind res_bind].
    rewrite (proj2 (sku_df_Ok _ _ _ _) (conj Hbo (conj Hbd eq_refl))).
    cbn [mbind res_bind].
    destruct (area_table_is_Ok (loc o mo) (loc d md)) as [t ->];
      [by apply text_keyed_loc | by apply text_keyed_loc, Hp | done..].
  - by rewrite (proj2 (sku_df_Ok _ _ _ _) (conj Hbo (conj Hbd eq_refl))).
  - rewrite (proj2 (sku_df_Ok _ _ _ _) (conj Hco (conj Hcd eq_refl))).
    cbn [mbind res_bind].
    unfold compliance_counts. rewrite getitem_column; [reflexivity|].
    rewrite columns_loc. set_solver.
Qed.

(** C9.  On sheets that have the columns of the design document, with
    quantities that are numbers or gaps, a run of the Bread SKUs page or
    of the Biscuits page ends normally, whatever the sidebar holds; so
    does a run of the summary page when the despatch sheet has an [AREA]
    column of labels as well. *)
Theorem main_ends env inp o d i :
  load (parse_date env) (files env) = Ok (o, d, i) → schema_ok o d i →
  (selected_page inp = SummaryPage → text_keyed d "AREA") →
  outcome (main env inp) = Ok ().
Proof.
  intros Hload Hs Hp. rewrite outcome_main. unfold pipeline. rewrite Hload.
  cbn [mbind res_bind].
  destruct (schema_filters (widgets inp) o d i Hs) as (fo & fd & Hf).
  rewrite Hf. cbn [mbind res_bind fst snd].
  apply filters_loc in Hf as (mo & md & -> & ->).
  by eapply schema_page_outcome.
Qed.
End live.

(** ** Runs on the scenario *)

Section scenario.

Definition scn_env : environment := mkEnv scn_files (λ _, None) 20240.

Definition scn_inputs (p : page) : inputs := mkInputs p scn_sidebar.

(** The despatch sheet of the scenario has no [AREA] column. *)
Lemma summary_page_stops_witness :
  is_ok (outcome (main scn_env (scn_inputs SummaryPage))) = false.
Proof.
  apply (summary_page_stops scn_env (scn_inputs SummaryPage)
           {[ "Template" := scn_despatch ]} scn_despatch);
    [done | vm_compute; reflexivity | vm_compute; reflexivity | compute_done].
Defined.

(** The summary page of the scenario: the cards and the two charts are
    drawn, then line 97 raises and neither the table nor the footer
    appears. *)
Example scn_summary_run :
  outcome (main scn_env (scn_inputs SummaryPage)) = Raise (KeyError ["AREA"]) ∧
  last (drawn (main scn_env (scn_inputs SummaryPage)))
  = Some (bar_chart "Orders vs Loaded by SKU" scn_sku_df) ∧
  length (drawn (main scn_env (scn_inputs SummaryPage))) = 17.
Proof. vm_compute. done. Qed.

Lemma scn_load :
  load (parse_date scn_env) (files scn_env)
  = Ok (scn_orders, scn_despatch, scn_index).
Proof. vm_compute. reflexivity. Qed.

Lemma scn_schema_ok : schema_ok scn_orders scn_despatch scn_index.
Proof. split; compute_done. Qed.

Lemma main_ends_witness : outcome (main scn_env (scn_inputs BreadSKUs)) = Ok ().
Proof.
  apply (main_ends scn_env (scn_inputs BreadSKUs) scn_orders scn_despatch
           scn_index); [exact scn_load | exact scn_schema_ok | done].
Defined.

(** The other two pages run to the footer. *)
Example scn_bread_run :
  outcome (main scn_env (scn_inputs BreadSKUs)) = Ok () ∧
  drawn (show_page BreadSKUs scn_orders_filtered scn_despatch_filtered)
  = [title "🍞 Bread SKUs Performance";
     write "Analysis of Bakers Bread and Chingwa Brands.";
     bar_chart "Bread SKUs Ordered vs Loaded" scn_sku_df;
     dataframe scn_sku_df].
Proof. vm_compute. done. Qed.

Example scn_biscuits_run :
  outcome (main scn_env (scn_inputs BiscuitsLoadingCompliance)) = Ok () ∧
  last (drawn (show_page BiscuitsLoadingCompliance scn_orders_filtered
                 scn_despatch_filtered))
  = Some (pie_chart "Loading Compliance Distribution"
            [Str "Compliant"; Str "Non-compliant"] [1; 1]%Z).
Proof. vm_compute. done. Qed.
End scenario.
